(** * A shallow embedding of the schedule planner

    The development follows the Python package [schedule_planner]:
    [time_of_day.py] ([Time], [TimeRange]), [time_periods.py] ([Day],
    [Week], [Month], [Year]), [events.py] ([Event] and its subclasses)
    and [schedule.py] ([Schedule]), and the named schedules of
    [scheduler_server.py].  Python integers are unbounded and are
    modelled by [Z];
    Python objects that are compared by identity or mutated in place live
    in an explicit store and are named by locations. *)

From stdpp Require Import base numbers list gmap strings sorting.
From Stdlib Require Import ZArith Lia QArith.

Local Open Scope Z_scope.

(** ** Python results: a value or a raised exception *)

Inductive exn : Set :=
| ValueError
| OverflowError
| ZeroDivisionError
| TypeError.

Inductive result (A : Type) : Type :=
| Ok (a : A)
| Raise (e : exn).

Arguments Ok {A} a.
Arguments Raise {A} e.

#[global] Instance result_ret : MRet result := fun A a => Ok a.

#[global] Instance result_bind : MBind result := fun A B k r =>
  match r with
  | Ok a => k a
  | Raise e => Raise e
  end.

#[global] Instance result_fmap : FMap result := fun A B f r =>
  match r with
  | Ok a => Ok (f a)
  | Raise e => Raise e
  end.

(** A list comprehension, or a loop that appends once per element, whose
    body may raise: the elements are handled in order and the first
    exception ends the loop. *)
Fixpoint result_map {A B : Type} (f : A -> result B) (l : list A)
  : result (list B) :=
  match l with
  | [] => Ok []
  | x :: l' => y ← f x; ys ← result_map f l'; Ok (y :: ys)
  end.

(** ** time_of_day.py *)

(** The standard library's [datetime.time], as far as the package uses it:
    a triple compared lexicographically (microseconds are always zero). *)
Module datetime_time.

Definition t : Type := Z * Z * Z.

Definition lt (a b : t) : bool :=
  let '(h1, m1, s1) := a in
  let '(h2, m2, s2) := b in
  (h1 <? h2) || ((h1 =? h2) && ((m1 <? m2) || ((m1 =? m2) && (s1 <? s2)))).

Definition eqb (a b : t) : bool :=
  let '(h1, m1, s1) := a in
  let '(h2, m2, s2) := b in
  (h1 =? h2) && (m1 =? m2) && (s1 =? s2).

End datetime_time.

Module Time.

Record t : Set := mk { hour : Z; minute : Z; second : Z }.

(** [self._time = datetime_time(hour, minute, second)]: the attribute is
    set once in [__init__] from the three fields and never reassigned. *)
Definition _time (self : t) : datetime_time.t :=
  (hour self, minute self, second self).

(** [Time.__init__] *)
Definition init (hour minute second : Z) : result t :=
  if negb ((0 <=? hour) && (hour <=? 23)) then Raise ValueError
  else if negb ((0 <=? minute) && (minute <=? 59)) then Raise ValueError
  else if negb ((0 <=? second) && (second <=? 59)) then Raise ValueError
  else Ok (mk hour minute second).

Definition to_minutes (self : t) : Z :=
  hour self * 60 + minute self.

(** Python's [%] and [//] with a positive right operand are [Z.modulo]
    and [Z.div]. *)
Definition add_minutes (self : t) (minutes : Z) : result t :=
  let total_minutes := to_minutes self + minutes in
  let total_minutes := total_minutes mod (24 * 60) in
  let new_hour := total_minutes / 60 in
  let new_minute := total_minutes mod 60 in
  init new_hour new_minute (second self).

Definition difference_in_minutes (self other : t) : Z :=
  to_minutes self - to_minutes other.

Definition is_before (self other : t) : bool :=
  datetime_time.lt (_time self) (_time other).

Definition is_after (self other : t) : bool :=
  datetime_time.lt (_time other) (_time self).

(** [Time.__eq__] *)
Definition eqb (self other : t) : bool :=
  datetime_time.eqb (_time self) (_time other).

(** [Time.__lt__] *)
Definition ltb (self other : t) : bool :=
  datetime_time.lt (_time self) (_time other).

(** [(hour, minute, 'AM' | 'PM')] *)
Definition to_12_hour_format (self : t) : Z * Z * string :=
  if hour self =? 0 then (12, minute self, "AM"%string)
  else if hour self <? 12 then (hour self, minute self, "AM"%string)
  else if hour self =? 12 then (12, minute self, "PM"%string)
  else (hour self - 12, minute self, "PM"%string).

(** The components are in the ranges [__init__] accepts. *)
Definition valid (self : t) : bool :=
  (0 <=? hour self) && (hour self <=? 23)
  && (0 <=? minute self) && (minute self <=? 59)
  && (0 <=? second self) && (second self <=? 59).

#[global] Instance eq_dec : EqDecision t.
Proof. solve_decision. Defined.

End Time.

Module TimeRange.

Record t : Set := mk {
  start_time : Time.t;
  end_time : Time.t;
  duration_minutes : Z
}.

(** [TimeRange.__init__] *)
Definition init (start_time end_time : Time.t) : result t :=
  if Time.is_before end_time start_time then Raise ValueError
  else Ok (mk start_time end_time
              (Time.difference_in_minutes end_time start_time)).

Definition from_duration (start_time : Time.t) (duration_minutes : Z)
  : result t :=
  end_time ← Time.add_minutes start_time duration_minutes;
  init start_time end_time.

Definition overlaps_with (self other : t) : bool :=
  if Time.is_before (end_time self) (start_time other)
     || Time.eqb (end_time self) (start_time other)
  then false
  else if Time.is_before (end_time other) (start_time self)
          || Time.eqb (end_time other) (start_time self)
  then false
  else true.

Definition get_overlap_duration (self other : t) : Z :=
  if negb (overlaps_with self other) then 0
  else
    let overlap_start :=
      if Time.is_after (start_time self) (start_time other)
      then start_time self else start_time other in
    let overlap_end :=
      if Time.is_before (end_time self) (end_time other)
      then end_time self else end_time other in
    Time.difference_in_minutes overlap_end overlap_start.

Definition contains_time (self : t) (time : Time.t) : bool :=
  (Time.eqb (start_time self) time || Time.is_before (start_time self) time)
  && (Time.eqb (end_time self) time || Time.is_after (end_time self) time).

(** [TimeRange.__eq__] *)
Definition eqb (self other : t) : bool :=
  Time.eqb (start_time self) (start_time other)
  && Time.eqb (end_time self) (end_time other).

(** The range is one that [__init__] builds from two valid times. *)
Definition valid (self : t) : bool :=
  Time.valid (start_time self) && Time.valid (end_time self)
  && negb (Time.is_before (end_time self) (start_time self))
  && (duration_minutes self
      =? Time.difference_in_minutes (end_time self) (start_time self)).

#[global] Instance eq_dec : EqDecision t.
Proof. solve_decision. Defined.

End TimeRange.

(** ** The standard library's [datetime.date]

    [time_periods.py] and [events.py] build on [datetime.date] and
    [datetime.timedelta].  The definitions below follow the reference
    implementation of the [datetime] module: a date is a validated
    (year, month, day) triple of the proleptic Gregorian calendar, and
    adding days goes through the ordinal of the date. *)
Module datetime_date.

Record t : Set := mk { year : Z; month : Z; day : Z }.

Definition MINYEAR : Z := 1.
Definition MAXYEAR : Z := 9999.
Definition _MAXORDINAL : Z := 3652059.

Definition _DAYS_IN_MONTH : list Z :=
  [-1; 31; 28; 31; 30; 31; 30; 31; 31; 30; 31; 30; 31].

Definition _DAYS_BEFORE_MONTH : list Z :=
  [-1; 0; 31; 59; 90; 120; 151; 181; 212; 243; 273; 304; 334].

(** Indexing a table by a month number. *)
Definition index (table : list Z) (i : Z) : Z :=
  nth (Z.to_nat i) table 0.

Definition _is_leap (year : Z) : bool :=
  (year mod 4 =? 0) && (negb (year mod 100 =? 0) || (year mod 400 =? 0)).

Definition _days_before_year (year : Z) : Z :=
  let y := year - 1 in
  y * 365 + y / 4 - y / 100 + y / 400.

Definition _days_in_month (year month : Z) : Z :=
  if (month =? 2) && _is_leap year then 29
  else index _DAYS_IN_MONTH month.

Definition _days_before_month (year month : Z) : Z :=
  index _DAYS_BEFORE_MONTH month
  + (if (2 <? month) && _is_leap year then 1 else 0).

Definition _ymd2ord (year month day : Z) : Z :=
  _days_before_year year + _days_before_month year month + day.

Definition _DI400Y : Z := 146097.
Definition _DI100Y : Z := 36524.
Definition _DI4Y : Z := 1461.

(** The last step of [_ord2ymd]: month and day of the [n]-th day
    (counted from zero) of a year, from an estimate of the month that is
    exact or one too large. *)
Definition _month_and_day (leapyear : bool) (n : Z) : Z * Z :=
  let month := Z.shiftr (n + 50) 5 in
  let preceding :=
    index _DAYS_BEFORE_MONTH month
    + (if (2 <? month) && leapyear then 1 else 0) in
  let '(month, preceding) :=
    if n <? preceding
    then (month - 1,
          preceding - (index _DAYS_IN_MONTH (month - 1)
                       + (if (month - 1 =? 2) && leapyear then 1 else 0)))
    else (month, preceding) in
  let n := n - preceding in
  (month, n + 1).

(** What [_ord2ymd] asserts of that step: the month and the day exist in
    a year with the given leap flag and lie [n] days after its start. *)
Definition month_ok (leap : bool) (n : Z) : bool :=
  let '(m, d) := _month_and_day leap n in
  (1 <=? m) && (m <=? 12) && (1 <=? d)
  && (d <=? (if (m =? 2) && leap then 29 else index _DAYS_IN_MONTH m))
  && (index _DAYS_BEFORE_MONTH m + (if (2 <? m) && leap then 1 else 0) + d
      =? n + 1).

Definition _ord2ymd (n : Z) : Z * Z * Z :=
  let n := n - 1 in
  let n400 := n / _DI400Y in
  let n := n mod _DI400Y in
  let year := n400 * 400 + 1 in
  let n100 := n / _DI100Y in
  let n := n mod _DI100Y in
  let n4 := n / _DI4Y in
  let n := n mod _DI4Y in
  let n1 := n / 365 in
  let n := n mod 365 in
  let year := year + (n100 * 100 + n4 * 4 + n1) in
  if (n1 =? 4) || (n100 =? 4) then (year - 1, 12, 31)
  else
    let leapyear := (n1 =? 3) && (negb (n4 =? 24) || (n100 =? 3)) in
    let '(month, day) := _month_and_day leapyear n in
    (year, month, day).

(** [date(year, month, day)] with its field check. *)
Definition init (year month day : Z) : result t :=
  if negb ((MINYEAR <=? year) && (year <=? MAXYEAR)) then Raise ValueError
  else if negb ((1 <=? month) && (month <=? 12)) then Raise ValueError
  else
    let dim := _days_in_month year month in
    if negb ((1 <=? day) && (day <=? dim)) then Raise ValueError
    else Ok (mk year month day).

Definition toordinal (self : t) : Z :=
  _ymd2ord (year self) (month self) (day self).

(** The fields are ones the constructor accepts. *)
Definition valid (self : t) : bool :=
  (MINYEAR <=? year self) && (year self <=? MAXYEAR)
  && (1 <=? month self) && (month self <=? 12)
  && (1 <=? day self) && (day self <=? _days_in_month (year self) (month self)).

Definition fromordinal (n : Z) : result t :=
  let '(y, m, d) := _ord2ymd n in init y m d.

(** [timedelta(days=n)]: the number of days of the delta, rejected when
    its magnitude exceeds 999999999. *)
Definition timedelta (days : Z) : result Z :=
  if 999999999 <? Z.abs days then Raise OverflowError else Ok days.

(** [date.__add__] with a [timedelta] of [days] days. *)
Definition add (self : t) (days : Z) : result t :=
  let o := toordinal self + days in
  if (0 <? o) && (o <=? _MAXORDINAL) then fromordinal o
  else Raise OverflowError.

(** [date - timedelta]: the negated delta is added. *)
Definition sub (self : t) (days : Z) : result t :=
  negated ← timedelta (- days);
  add self negated.

(** [date.weekday()]: 0 for Monday up to 6 for Sunday. *)
Definition weekday (self : t) : Z := (toordinal self + 6) mod 7.

(** The ordinal of the Monday that starts ISO week 1 of a year. *)
Definition _isoweek1monday (year : Z) : Z :=
  let THURSDAY := 3 in
  let firstday := _ymd2ord year 1 1 in
  let firstweekday := (firstday + 6) mod 7 in
  let week1monday := firstday - firstweekday in
  if THURSDAY <? firstweekday then week1monday + 7 else week1monday.

(** [date.isocalendar()]: ISO year, week number and weekday. *)
Definition isocalendar (self : t) : Z * Z * Z :=
  let year := year self in
  let week1monday := _isoweek1monday year in
  let today := _ymd2ord (datetime_date.year self) (month self) (day self) in
  let week := (today - week1monday) / 7 in
  let day := (today - week1monday) mod 7 in
  if week <? 0 then
    let year := year - 1 in
    let week1monday := _isoweek1monday year in
    let week := (today - week1monday) / 7 in
    let day := (today - week1monday) mod 7 in
    (year, week + 1, day + 1)
  else if 52 <=? week then
    if _isoweek1monday (year + 1) <=? today then (year + 1, 0 + 1, day + 1)
    else (year, week + 1, day + 1)
  else (year, week + 1, day + 1).

Definition eqb (a b : t) : bool :=
  (year a =? year b) && (month a =? month b) && (day a =? day b).

(** Dates compare as (year, month, day) triples. *)
Definition ltb (a b : t) : bool :=
  datetime_time.lt (year a, month a, day a) (year b, month b, day b).

End datetime_date.

(** The parts of the standard library's [calendar] that
    [time_periods.py] uses. *)
Module calendar.

Definition isleap (year : Z) : bool :=
  (year mod 4 =? 0) && (negb (year mod 100 =? 0) || (year mod 400 =? 0)).

Definition mdays : list Z :=
  [0; 31; 28; 31; 30; 31; 30; 31; 31; 30; 31; 30; 31].

(** [calendar.monthrange(year, month)[1]]: the number of days of the
    month; a month outside 1 to 12 is an [IllegalMonthError], which is a
    [ValueError]. *)
Definition monthrange_days (year month : Z) : result Z :=
  if negb ((1 <=? month) && (month <=? 12)) then Raise ValueError
  else Ok (datetime_date.index mdays month
           + (if (month =? 2) && isleap year then 1 else 0)).

Definition day_name : list string :=
  ["Monday"; "Tuesday"; "Wednesday"; "Thursday"; "Friday"; "Saturday";
   "Sunday"]%string.

Definition month_name : list string :=
  [EmptyString; "January"; "February"; "March"; "April"; "May"; "June";
   "July"; "August"; "September"; "October"; "November";
   "December"]%string.

End calendar.

(** ** time_periods.py *)

Module Day.

Record t : Set := mk { year : Z; month : Z; day : Z }.

(** [self.date = date(year, month, day)]: set once in [__init__] from the
    three fields, which no code of the package reassigns. *)
Definition date (self : t) : datetime_date.t :=
  datetime_date.mk (year self) (month self) (day self).

(** [Day.__init__]: fails when [date(year, month, day)] does. *)
Definition init (year month day : Z) : result t :=
  _ ← datetime_date.init year month day;
  Ok (mk year month day).

Definition from_date (date_obj : datetime_date.t) : result t :=
  init (datetime_date.year date_obj) (datetime_date.month date_obj)
       (datetime_date.day date_obj).

Definition next_day (self : t) : result t :=
  days ← datetime_date.timedelta 1;
  next_date ← datetime_date.add (date self) days;
  from_date next_date.

Definition previous_day (self : t) : result t :=
  days ← datetime_date.timedelta 1;
  prev_date ← datetime_date.sub (date self) days;
  from_date prev_date.

Definition get_weekday_number (self : t) : Z :=
  datetime_date.weekday (date self).

Definition get_weekday (self : t) : string :=
  nth (Z.to_nat (datetime_date.weekday (date self))) calendar.day_name
      EmptyString.

Definition is_weekend (self : t) : bool :=
  5 <=? datetime_date.weekday (date self).

(** [Day.__eq__], [Day.__lt__] and [Day.__ge__] compare the dates. *)
Definition eqb (self other : t) : bool :=
  datetime_date.eqb (date self) (date other).

Definition ltb (self other : t) : bool :=
  datetime_date.ltb (date self) (date other).

Definition geb (self other : t) : bool :=
  negb (datetime_date.ltb (date self) (date other)).

(** [Day.__le__]: [self.date <= other.date]. *)
Definition leb (self other : t) : bool :=
  negb (datetime_date.ltb (date other) (date self)).

(** The day is one that [__init__] accepts. *)
Definition valid (self : t) : bool := datetime_date.valid (date self).

#[global] Instance eq_dec : EqDecision t.
Proof. solve_decision. Defined.

#[global] Instance countable : Countable t.
Proof.
  apply (inj_countable' (fun d => (year d, month d, day d))
                        (fun p => mk p.1.1 p.1.2 p.2)).
  intros []; reflexivity.
Defined.

End Day.

Module Week.

Record t : Set := mk { start_date : Day.t; year : Z; week_number : Z }.

(** [Week.__init__]: the week of the given date, named by its Monday. *)
Definition init (year month day : Z) : result t :=
  reference_date ← datetime_date.init year month day;
  let days_since_monday := datetime_date.weekday reference_date in
  delta ← datetime_date.timedelta days_since_monday;
  monday ← datetime_date.sub reference_date delta;
  start_date ← Day.from_date monday;
  Ok (mk start_date (Day.year start_date)
         (datetime_date.isocalendar monday).1.2).

Definition from_day (day : Day.t) : result t :=
  init (Day.year day) (Day.month day) (Day.day day).

(** [for i in range(7)]: the seven days from the Monday on. *)
Definition get_days (self : t) : result (list Day.t) :=
  result_map
    (fun i =>
       delta ← datetime_date.timedelta i;
       day_date ← datetime_date.add (Day.date (start_date self)) delta;
       Day.from_date day_date)
    (seqZ 0 7).

Definition get_day (self : t) (weekday : Z) : result Day.t :=
  if negb ((0 <=? weekday) && (weekday <=? 6)) then Raise ValueError
  else
    delta ← datetime_date.timedelta weekday;
    day_date ← datetime_date.add (Day.date (start_date self)) delta;
    Day.from_date day_date.

Definition next_week (self : t) : result t :=
  delta ← datetime_date.timedelta 7;
  next_monday ← datetime_date.add (Day.date (start_date self)) delta;
  day ← Day.from_date next_monday;
  from_day day.

Definition previous_week (self : t) : result t :=
  delta ← datetime_date.timedelta 7;
  prev_monday ← datetime_date.sub (Day.date (start_date self)) delta;
  day ← Day.from_date prev_monday;
  from_day day.

(** [day in self.get_days()], with [Day.__eq__]. *)
Definition contains_day (self : t) (day : Day.t) : result bool :=
  days ← get_days self;
  Ok (existsb (fun d => Day.eqb day d) days).

(** [Week.__eq__] *)
Definition eqb (self other : t) : bool :=
  Day.eqb (start_date self) (start_date other).

End Week.

Module Month.

Record t : Set := mk { year : Z; month : Z; name : string }.

(** [Month.__init__]: only the month is checked. *)
Definition init (year month : Z) : result t :=
  if negb ((1 <=? month) && (month <=? 12)) then Raise ValueError
  else Ok (mk year month
              (nth (Z.to_nat month) calendar.month_name EmptyString)).

Definition get_number_of_days (self : t) : result Z :=
  calendar.monthrange_days (year self) (month self).

(** [[Day(year, month, day) for day in range(1, num_days + 1)]] *)
Definition get_days (self : t) : result (list Day.t) :=
  num_days ← calendar.monthrange_days (year self) (month self);
  result_map (fun day => Day.init (year self) (month self) day)
             (seqZ 1 num_days).



Definition next_month (self : t) : result t :=
  if month self =? 12 then init (year self + 1) 1
  else init (year self) (month self + 1).

Definition previous_month (self : t) : result t :=
  if month self =? 1 then init (year self - 1) 12
  else init (year self) (month self - 1).

Definition contains_day (self : t) (day : Day.t) : bool :=
  (Day.year day =? year self) && (Day.month day =? month self).

(** [Month.__eq__] and [Month.__lt__] *)
Definition eqb (self other : t) : bool :=
  (year self =? year other) && (month self =? month other).

Definition ltb (self other : t) : bool :=
  (year self <? year other)
  || ((year self =? year other) && (month self <? month other)).

End Month.

Module Year.

Record t : Set := mk { year : Z; is_leap_year : bool }.

Definition init (year : Z) : t := mk year (calendar.isleap year).

(** [[Month(self.year, month) for month in range(1, 13)]] *)
Definition get_months (self : t) : result (list Month.t) :=
  result_map (fun month => Month.init (year self) month) (seqZ 1 12).

Definition get_month (self : t) (month : Z) : result Month.t :=
  Month.init (year self) month.

(** The days of the twelve months, month after month. *)
Definition get_days (self : t) : result (list Day.t) :=
  months ← get_months self;
  days_of_months ← result_map Month.get_days months;
  Ok (concat days_of_months).

Definition get_number_of_days (self : t) : Z :=
  if is_leap_year self then 366 else 365.

Definition next_year (self : t) : t := init (year self + 1).

Definition previous_year (self : t) : t := init (year self - 1).

Definition contains_day (self : t) (day : Day.t) : bool :=
  Day.year day =? year self.

Definition contains_month (self : t) (month : Month.t) : bool :=
  Month.year month =? year self.

End Year.

(** ** Stateful computations that may raise *)

Definition M (S A : Type) : Type := S -> result (A * S).

#[global] Instance M_ret (S : Type) : MRet (M S) := fun A a s => Ok (a, s).

#[global] Instance M_bind (S : Type) : MBind (M S) := fun A B k m s =>
  match m s with
  | Ok (a, s') => k a s'
  | Raise e => Raise e
  end.

Definition lift {S A : Type} (r : result A) : M S A := fun s =>
  match r with
  | Ok a => Ok (a, s)
  | Raise e => Raise e
  end.

Definition get_state {S : Type} : M S S := fun s => Ok (s, s).

Definition put_state {S : Type} (s : S) : M S unit := fun _ => Ok (tt, s).

(** ** events.py: the attributes of the event classes *)

Inductive EventPriority : Set := LOW | MEDIUM | HIGH | URGENT.

Inductive EventStatus : Set :=
  SCHEDULED | IN_PROGRESS | COMPLETED | CANCELLED | RESCHEDULED.

#[global] Instance EventPriority_eq_dec : EqDecision EventPriority.
Proof. solve_decision. Defined.

#[global] Instance EventStatus_eq_dec : EqDecision EventStatus.
Proof. solve_decision. Defined.

(** Objects are named by their location in the store.  A list attribute
    ([tags], [attendees], ...) holds the location of a list object. *)
Definition loc : Set := nat.

Module Attrs.

(** The attributes set by [Event.__init__]. *)
Module Event.
Record t : Set := mk {
  title : string;
  day : Day.t;
  time_range : TimeRange.t;
  description : string;
  priority : EventPriority;
  status : EventStatus;
  tags : loc;
  notes : string
}.
End Event.

Module Appointment.
Record t : Set := mk {
  location : string;
  attendees : loc;
  reminder_minutes : Z
}.
End Appointment.

Module DoctorAppointment.
Record t : Set := mk {
  doctor_name : string;
  specialty : string;
  insurance_required : bool;
  medical_notes : string
}.
End DoctorAppointment.

Module Chore.
Record t : Set := mk {
  category : string;
  is_recurring : bool;
  recurrence_days : Z;
  estimated_effort : string
}.
End Chore.

Module WorkMeeting.
Record t : Set := mk {
  meeting_link : string;
  agenda : loc;
  organizer : string;
  attendees : loc;
  is_virtual : bool;
  room : string
}.
End WorkMeeting.

Module GymTime.
Record t : Set := mk {
  workout_type : string;
  gym_location : string;
  trainer : string;
  exercises : loc;
  target_calories : Z
}.
End GymTime.

Module PersonalEvent.
Record t : Set := mk {
  category : string;
  participants : loc;
  cost : Q;
  location : string
}.
End PersonalEvent.

End Attrs.

(** The class of an instance together with the attributes its own
    [__init__] adds; [DoctorAppointment] extends [Appointment]. *)
Inductive subclass : Set :=
| IsAppointment (a : Attrs.Appointment.t)
| IsDoctorAppointment (a : Attrs.Appointment.t) (d : Attrs.DoctorAppointment.t)
| IsChore (c : Attrs.Chore.t)
| IsWorkMeeting (w : Attrs.WorkMeeting.t)
| IsGymTime (g : Attrs.GymTime.t)
| IsPersonalEvent (p : Attrs.PersonalEvent.t).

Record instance : Set := mk_instance {
  event :> Attrs.Event.t;
  cls : subclass
}.

(** ** The object store *)

Inductive object : Set :=
| OList (items : list string)
| OInstance (i : instance).

(** A store is the sequence of the objects allocated so far; the location
    of an object is its position. *)
Definition heap : Set := list object.

Definition alloc (o : object) : M heap loc := fun h =>
  Ok (length h, h ++ [o]).

(** Reading through a reference of the wrong kind cannot happen in a
    well-typed program; the model raises [TypeError]. *)
Definition read_list (l : loc) : M heap (list string) := fun h =>
  match h !! l with
  | Some (OList items) => Ok (items, h)
  | _ => Raise TypeError
  end.

Definition read_instance (l : loc) : M heap instance := fun h =>
  match h !! l with
  | Some (OInstance i) => Ok (i, h)
  | _ => Raise TypeError
  end.

(** Mutation in place: the object at a location is replaced by one of
    the same kind. *)
Definition write_list (l : loc) (items : list string) : M heap unit := fun h =>
  match h !! l with
  | Some (OList _) => Ok (tt, <[l := OList items]> h)
  | _ => Raise TypeError
  end.

Definition write_instance (l : loc) (i : instance) : M heap unit := fun h =>
  match h !! l with
  | Some (OInstance _) => Ok (tt, <[l := OInstance i]> h)
  | _ => Raise TypeError
  end.


(** [list.copy()] *)
Definition list_copy (l : loc) : M heap loc :=
  items ← read_list l;
  alloc (OList items).

(** ** events.py: the methods *)

Module Event.

(** The keyword arguments [Event.__init__] accepts besides the three
    positional ones; [None] stands for an omitted argument. *)
Record kwargs : Set := mk_kwargs {
  description : option string;
  priority : option EventPriority;
  tags : option loc;
  notes : option string
}.

Definition no_kwargs : kwargs := mk_kwargs None None None None.

(** [Event.__init__]; [tags if tags is not None else []] allocates a new
    list when no list is passed. *)
Definition init (title : string) (day : Day.t) (time_range : TimeRange.t)
    (kw : kwargs) : M heap Attrs.Event.t :=
  tags ← match tags kw with
         | Some l => mret l
         | None => alloc (OList [])
         end;
  mret (Attrs.Event.mk title day time_range
          (default EmptyString (description kw))
          (default MEDIUM (priority kw))
          SCHEDULED
          tags
          (default EmptyString (notes kw))).

Definition set_priority (p : EventPriority) (self : Attrs.Event.t)
  : Attrs.Event.t :=
  Attrs.Event.mk (Attrs.Event.title self) (Attrs.Event.day self)
    (Attrs.Event.time_range self) (Attrs.Event.description self)
    p (Attrs.Event.status self) (Attrs.Event.tags self)
    (Attrs.Event.notes self).

Definition get_duration_minutes (self : Attrs.Event.t) : Z :=
  TimeRange.duration_minutes (Attrs.Event.time_range self).

(** [self.day != other.day] is the negation of [Day.__eq__]. *)
Definition conflicts_with (self other : Attrs.Event.t) : bool :=
  if negb (Day.eqb (Attrs.Event.day self) (Attrs.Event.day other)) then false
  else TimeRange.overlaps_with (Attrs.Event.time_range self)
                               (Attrs.Event.time_range other).

Definition set_status (st : EventStatus) (self : Attrs.Event.t)
  : Attrs.Event.t :=
  Attrs.Event.mk (Attrs.Event.title self) (Attrs.Event.day self)
    (Attrs.Event.time_range self) (Attrs.Event.description self)
    (Attrs.Event.priority self) st (Attrs.Event.tags self)
    (Attrs.Event.notes self).

(** The attributes after [reschedule(new_day, new_time_range)]. *)
Definition rescheduled (new_day : Day.t) (new_time_range : TimeRange.t)
    (self : Attrs.Event.t) : Attrs.Event.t :=
  Attrs.Event.mk (Attrs.Event.title self) new_day new_time_range
    (Attrs.Event.description self) (Attrs.Event.priority self)
    RESCHEDULED (Attrs.Event.tags self) (Attrs.Event.notes self).

(** The methods that change an event, on the object at [self]. *)
Definition mark_completed (self : loc) : M heap unit :=
  this ← read_instance self;
  write_instance self (mk_instance (set_status COMPLETED (event this)) (cls this)).

Definition mark_cancelled (self : loc) : M heap unit :=
  this ← read_instance self;
  write_instance self (mk_instance (set_status CANCELLED (event this)) (cls this)).

Definition mark_in_progress (self : loc) : M heap unit :=
  this ← read_instance self;
  write_instance self (mk_instance (set_status IN_PROGRESS (event this)) (cls this)).

Definition reschedule (self : loc) (new_day : Day.t)
    (new_time_range : TimeRange.t) : M heap unit :=
  this ← read_instance self;
  write_instance self
    (mk_instance (rescheduled new_day new_time_range (event this))
                 (cls this)).

Definition has_tag (self : loc) (tag : string) : M heap bool :=
  this ← read_instance self;
  items ← read_list (Attrs.Event.tags (event this));
  mret (bool_decide (tag ∈ items)).

Definition add_tag (self : loc) (tag : string) : M heap unit :=
  this ← read_instance self;
  items ← read_list (Attrs.Event.tags (event this));
  if bool_decide (tag ∈ items) then mret tt
  else write_list (Attrs.Event.tags (event this)) (items ++ [tag]).


(** [get_event_type], as overridden by each subclass. *)
Definition get_event_type (self : instance) : string :=
  match cls self with
  | IsAppointment _ => "Appointment"
  | IsDoctorAppointment _ _ => "Doctor Appointment"
  | IsChore _ => "Chore"
  | IsWorkMeeting _ => "Work Meeting"
  | IsGymTime _ => "Gym Time"
  | IsPersonalEvent _ => "Personal Event"
  end.

End Event.

Module Appointment.

(** [Appointment.__init__]: [super().__init__(title, day, time_range,
    **kwargs)] and then the three attributes of its own. *)
Definition init (title : string) (day : Day.t) (time_range : TimeRange.t)
    (location : option string) (attendees : option loc)
    (reminder_minutes : option Z) (kw : Event.kwargs)
  : M heap (Attrs.Event.t * Attrs.Appointment.t) :=
  self ← Event.init title day time_range kw;
  attendees ← match attendees with
              | Some l => mret l
              | None => alloc (OList [])
              end;
  mret (self, Attrs.Appointment.mk (default EmptyString location) attendees
                 (default 15 reminder_minutes)).

End Appointment.

Module DoctorAppointment.

(** The [**kwargs] of [DoctorAppointment.__init__]: the keyword
    parameters of [Appointment.__init__] and those of [Event.__init__]. *)
Record kwargs : Set := mk_kwargs {
  location : option string;
  attendees : option loc;
  reminder_minutes : option Z;
  description : option string;
  priority : option EventPriority;
  tags : option loc;
  notes : option string
}.

Definition no_kwargs : kwargs :=
  mk_kwargs None None None None None None None.

(** [DoctorAppointment.__init__] *)
Definition init (title : string) (day : Day.t) (time_range : TimeRange.t)
    (doctor_name specialty : option string)
    (insurance_required : option bool) (medical_notes : option string)
    (kw : kwargs) : M heap instance :=
  '(self, appointment) ←
    Appointment.init title day time_range
      (location kw) (attendees kw) (reminder_minutes kw)
      (Event.mk_kwargs (description kw) (priority kw) (tags kw) (notes kw));
  let doctor :=
    Attrs.DoctorAppointment.mk
      (default EmptyString doctor_name) (default EmptyString specialty)
      (default true insurance_required) (default EmptyString medical_notes) in
  let self :=
    match priority kw with
    | None => Event.set_priority HIGH self
    | Some _ => self
    end in
  mret (mk_instance self (IsDoctorAppointment appointment doctor)).

(** The class call [DoctorAppointment(...)]: initialise and store the new
    object. *)
Definition new (title : string) (day : Day.t) (time_range : TimeRange.t)
    (doctor_name specialty : option string)
    (insurance_required : option bool) (medical_notes : option string)
    (kw : kwargs) : M heap loc :=
  self ← init title day time_range doctor_name specialty
              insurance_required medical_notes kw;
  alloc (OInstance self).

End DoctorAppointment.

Module Chore.

(** [Chore.__init__] *)
Definition init (title : string) (day : Day.t) (time_range : TimeRange.t)
    (category : option string) (is_recurring : option bool)
    (recurrence_days : option Z) (estimated_effort : option string)
    (kw : Event.kwargs) : M heap instance :=
  self ← Event.init title day time_range kw;
  mret (mk_instance self
          (IsChore (Attrs.Chore.mk (default "General"%string category)
                      (default false is_recurring)
                      (default 7 recurrence_days)
                      (default "Medium"%string estimated_effort)))).

Definition new (title : string) (day : Day.t) (time_range : TimeRange.t)
    (category : option string) (is_recurring : option bool)
    (recurrence_days : option Z) (estimated_effort : option string)
    (kw : Event.kwargs) : M heap loc :=
  self ← init title day time_range category is_recurring recurrence_days
              estimated_effort kw;
  alloc (OInstance self).

(** The object that [Chore(...)] stores when its tag list is at [tags]. *)
Definition made (title : string) (day : Day.t) (time_range : TimeRange.t)
    (category : option string) (is_recurring : option bool)
    (recurrence_days : option Z) (estimated_effort : option string)
    (description : option string) (priority : option EventPriority)
    (notes : option string) (tags : loc) : instance :=
  mk_instance
    (Attrs.Event.mk title day time_range (default EmptyString description)
       (default MEDIUM priority) SCHEDULED tags (default EmptyString notes))
    (IsChore (Attrs.Chore.mk (default "General"%string category)
                (default false is_recurring) (default 7 recurrence_days)
                (default "Medium"%string estimated_effort))).

(** [Chore.get_next_occurrence]: [None] for a chore that does not recur,
    otherwise the location of a newly created chore.  The arguments of
    the call [Chore(...)], the copy of the tag list among them, are
    evaluated before the new object is made.  Only chores have the
    method. *)
Definition get_next_occurrence (self : loc) : M heap (option loc) :=
  this ← read_instance self;
  match cls this with
  | IsChore c =>
      if negb (Attrs.Chore.is_recurring c) then mret None
      else
        delta ← lift (datetime_date.timedelta (Attrs.Chore.recurrence_days c));
        next_date ← lift (datetime_date.add (Day.date (Attrs.Event.day this))
                                            delta);
        next_day ← lift (Day.from_date next_date);
        tags ← list_copy (Attrs.Event.tags this);
        next ← new (Attrs.Event.title this) next_day
                   (Attrs.Event.time_range this)
                   (Some (Attrs.Chore.category c))
                   (Some (Attrs.Chore.is_recurring c))
                   (Some (Attrs.Chore.recurrence_days c))
                   (Some (Attrs.Chore.estimated_effort c))
                   (Event.mk_kwargs
                      (Some (Attrs.Event.description this))
                      (Some (Attrs.Event.priority this))
                      (Some tags)
                      (Some (Attrs.Event.notes this)));
        mret (Some next)
  | _ => lift (Raise TypeError)
  end.

End Chore.

(** ** Python's list operations used by schedule.py *)

(** [list.remove(x)]: drop the first occurrence, [ValueError] if there is
    none.  Events define no [__eq__], so membership and removal compare
    object identities, that is, locations. *)
Fixpoint list_remove (x : loc) (l : list loc) : result (list loc) :=
  match l with
  | [] => Raise ValueError
  | y :: l' =>
      if decide (y = x) then Ok l'
      else l'' ← list_remove x l'; Ok (y :: l'')
  end.

(** [list.sort(key=...)] is a stable sort that compares keys with [<]
    only.  Every stable sort yields the same list; insertion from the
    right is the simplest one to run. *)
Fixpoint sort_insert {A K : Type} (lt : K -> K -> bool) (key : A -> K)
    (x : A) (l : list A) : list A :=
  match l with
  | [] => [x]
  | y :: l' =>
      if lt (key y) (key x) then y :: sort_insert lt key x l'
      else x :: y :: l'
  end.

Fixpoint list_sort {A K : Type} (lt : K -> K -> bool) (key : A -> K)
    (l : list A) : list A :=
  match l with
  | [] => []
  | x :: l' => sort_insert lt key x (list_sort lt key l')
  end.

(** [list.sort(key=..., reverse=True)] and [sorted(..., reverse=True)]
    keep the elements with equal keys in their original order: the list
    is reversed, sorted and reversed again. *)
Definition list_sort_reverse {A K : Type} (lt : K -> K -> bool)
    (key : A -> K) (l : list A) : list A :=
  rev (list_sort lt key (rev l)).

(** [x] comes no later than [y] in the order of the keys: the comparison
    [key y < key x] fails. *)
Definition key_le {A K : Type} (lt : K -> K -> bool) (key : A -> K)
    (x y : A) : Prop :=
  lt (key y) (key x) = false.

(** The slice [l[:limit]]; a negative limit counts from the end. *)
Definition slice_to {A : Type} (limit : Z) (l : list A) : list A :=
  if 0 <=? limit then take (Z.to_nat limit) l
  else take (Z.to_nat (Z.of_nat (length l) + limit)) l.

(** Tuples [(day, start_time)] compare on the first component in which
    they differ. *)
Definition day_time_lt (a b : Day.t * Time.t) : bool :=
  if Day.eqb a.1 b.1 then Time.ltb a.2 b.2 else Day.ltb a.1 b.1.

(** [a / b] on integers; the float result is represented by the exact
    quotient. *)
Definition truediv (a b : Z) : result Q :=
  if b =? 0 then Raise ZeroDivisionError
  else Ok (Qred (Qdiv (inject_Z a) (inject_Z b))).

(** ** schedule.py *)

(** The values of the dictionary returned by [get_statistics]. *)
Inductive stat_value : Type :=
| StatInt (n : Z)
| StatFloat (q : Q)
| StatCounts (m : gmap string Z).

Module Schedule.

Record t : Type := mk {
  name : string;
  events : list loc;
  _events_by_day : gmap Day.t (list loc)
}.

(** [Schedule.__init__] *)
Definition init (name : option string) : t :=
  mk (default "My Schedule"%string name) [] ∅.

(** [self._events_by_day[day]] on a [defaultdict(list)]: looking up a
    missing day stores an empty list under it. *)
Definition bucket (day : Day.t) : M t (list loc) := fun self =>
  match _events_by_day self !! day with
  | Some l => Ok (l, self)
  | None =>
      Ok ([], mk (name self) (events self) (<[day := []]> (_events_by_day self)))
  end.

(** Replace the contents of the list stored under [day] (the effect of
    mutating that list in place). *)
Definition set_bucket (day : Day.t) (l : list loc) : M t unit := fun self =>
  Ok (tt, mk (name self) (events self) (<[day := l]> (_events_by_day self))).

Definition set_events (l : list loc) : M t unit := fun self =>
  Ok (tt, mk (name self) l (_events_by_day self)).

Section WithStore.

(** The event objects.  The schedule only reads them. *)
Variable obj : loc -> instance.

Definition range_of (e : loc) : TimeRange.t :=
  Attrs.Event.time_range (obj e).

Definition start_of (e : loc) : Time.t :=
  TimeRange.start_time (Attrs.Event.time_range (obj e)).

Definition end_of (e : loc) : Time.t :=
  TimeRange.end_time (Attrs.Event.time_range (obj e)).

Definition day_of (e : loc) : Day.t := Attrs.Event.day (obj e).

(** The list is copied before it is sorted, so the stored list keeps its
    order. *)
Definition get_events_on_day (day : Day.t) : M t (list loc) :=
  events ← bucket day;
  mret (list_sort Time.ltb start_of events).

Definition get_conflicting_events (event : loc) : M t (list loc) :=
  on_day ← get_events_on_day (day_of event);
  mret (filter (fun existing_event =>
                  existing_event ≠ event /\
                  Event.conflicts_with (obj event) (obj existing_event) = true)
               on_day).

Definition has_conflicts (event : loc) : M t bool :=
  conflicts ← get_conflicting_events event;
  mret (0 <? Z.of_nat (length conflicts)).

(** [if conflicts: return False] refuses the event when the list of
    conflicts, computed only under [check_conflicts], is not empty. *)
Definition add_event (event : loc) (check_conflicts : bool) : M t bool :=
  conflicts ← (if check_conflicts then get_conflicting_events event
               else mret []);
  match conflicts with
  | _ :: _ => mret false
  | [] =>
      self ← get_state;
      _ ← set_events (events self ++ [event]);
      on_day ← bucket (day_of event);
      _ ← set_bucket (day_of event) (on_day ++ [event]);
      mret true
  end.

Definition remove_event (event : loc) : M t bool :=
  self ← get_state;
  if decide (event ∈ events self) then
    remaining ← lift (list_remove event (events self));
    _ ← set_events remaining;
    on_day ← bucket (day_of event);
    on_day ← lift (list_remove event on_day);
    _ ← set_bucket (day_of event) on_day;
    mret true
  else mret false.

Definition get_events_by_type (event_type : string) (self : t) : list loc :=
  filter (fun event => Event.get_event_type (obj event) = event_type)
         (events self).

Definition get_events_by_status (status : EventStatus) (self : t)
  : list loc :=
  filter (fun event => Attrs.Event.status (obj event) = status)
         (events self).

(** [today] is the value of [Day.today()] at the time of the call. *)
Definition get_upcoming_events (today : Day.t) (from_day : option Day.t)
    (limit : option Z) (self : t) : list loc :=
  let from_day := default today from_day in
  let upcoming :=
    filter (fun event => Day.geb (day_of event) from_day = true)
           (events self) in
  let upcoming :=
    list_sort day_time_lt (fun e => (day_of e, start_of e)) upcoming in
  match limit with
  | Some limit => slice_to limit upcoming
  | None => upcoming
  end.

(** One pass of the loop of [get_free_time_slots] over the remaining
    events, from the slots and the cursor reached so far. *)
Fixpoint free_slots_loop (slot_duration : Z) (events : list loc)
    (free_slots : list TimeRange.t) (current_time : Time.t)
  : result (list TimeRange.t * Time.t) :=
  match events with
  | [] => Ok (free_slots, current_time)
  | event :: events =>
      free_slots ←
        (if slot_duration <=?
              Time.difference_in_minutes (start_of event) current_time
         then slot ← TimeRange.init current_time (start_of event);
              Ok (free_slots ++ [slot])
         else Ok free_slots);
      let current_time :=
        if Time.is_after (end_of event) current_time then end_of event
        else current_time in
      free_slots_loop slot_duration events free_slots current_time
  end.

Definition get_free_time_slots (day : Day.t) (slot_duration : Z)
  : M t (list TimeRange.t) :=
  events ← get_events_on_day day;
  match events with
  | [] =>
      start ← lift (Time.init 9 0 0);
      stop ← lift (Time.init 21 0 0);
      slot ← lift (TimeRange.init start stop);
      mret [slot]
  | _ :: _ =>
      current_time ← lift (Time.init 9 0 0);
      end_of_day ← lift (Time.init 21 0 0);
      '(free_slots, current_time) ←
        lift (free_slots_loop slot_duration events [] current_time);
      if slot_duration <=?
           Time.difference_in_minutes end_of_day current_time
      then slot ← lift (TimeRange.init current_time end_of_day);
           mret (free_slots ++ [slot])
      else mret free_slots
  end.

(** [sum(...)] over the durations of the given events. *)
Definition sum_durations (events : list loc) : Z :=
  foldl Z.add 0
    ((fun event => Event.get_duration_minutes (obj event)) <$> events).

(** [get_total_scheduled_time(day=None)]: a [Day] object is always true,
    so [if day] tests whether a day was given. *)
Definition get_total_scheduled_time (day : option Day.t) : M t Z :=
  events_to_count ← match day with
                    | Some day => get_events_on_day day
                    | None => self ← get_state; mret (events self)
                    end;
  mret (sum_durations events_to_count).

Definition count (l : list loc) : Z := Z.of_nat (length l).

Definition get_statistics (today : Day.t) : M t (gmap string stat_value) :=
  self ← get_state;
  match events self with
  | [] =>
      mret (<["total_events"%string := StatInt 0]>
            (<["upcoming_events"%string := StatInt 0]>
            (<["completed_events"%string := StatInt 0]>
            (<["cancelled_events"%string := StatInt 0]> ∅))))
  | _ :: _ =>
      let types : gset string :=
        list_to_set ((fun event => Event.get_event_type (obj event))
                       <$> events self) in
      let events_by_type : gmap string Z :=
        list_to_map ((fun event_type =>
                        (event_type,
                         count (get_events_by_type event_type self)))
                       <$> elements types) in
      total_scheduled_minutes ← get_total_scheduled_time None;
      average_event_duration ←
        lift (truediv (sum_durations (events self)) (count (events self)));
      mret (<["total_events"%string := StatInt (count (events self))]>
            (<["upcoming_events"%string :=
                 StatInt (count (get_upcoming_events today None None self))]>
            (<["completed_events"%string :=
                 StatInt (count (get_events_by_status COMPLETED self))]>
            (<["cancelled_events"%string :=
                 StatInt (count (get_events_by_status CANCELLED self))]>
            (<["events_by_type"%string := StatCounts events_by_type]>
            (<["total_scheduled_minutes"%string :=
                 StatInt total_scheduled_minutes]>
            (<["average_event_duration"%string :=
                 StatFloat average_event_duration]> ∅)))))))
  end.

(** The list stored for a day; a day without an entry has no events. *)
Definition bucket_of (self : t) (day : Day.t) : list loc :=
  default [] (_events_by_day self !! day).

(** The day index agrees with the event list: the list stored for a day
    holds the events of that day, in the order of the event list. *)
Definition index_ok (self : t) : Prop :=
  forall day,
    bucket_of self day = filter (fun e => day_of e = day) (events self).

(** The schedule with [event] appended to the event list and to the list
    stored for its day. *)
Definition added (event : loc) (self : t) : t :=
  mk (name self) (events self ++ [event])
    (<[day_of event := bucket_of self (day_of event) ++ [event]]>
       (_events_by_day self)).

(** No two of the ranges overlap. *)
Fixpoint non_overlapping (ranges : list TimeRange.t) : bool :=
  match ranges with
  | [] => true
  | r :: ranges =>
      forallb (fun r' => negb (TimeRange.overlaps_with r r')) ranges
      && non_overlapping ranges
  end.

(** The walk over a day's events in the words of the specification: from
    the cursor, a gap of at least [m] minutes before the next event is
    a slot, the cursor moves to the end of the event when that end is
    later, and after the last event the rest of the window up to 21:00 is
    a slot if it is at least [m] minutes long. *)
Definition gap_minutes (cursor target : Time.t) : Z :=
  Time.to_minutes target - Time.to_minutes cursor.

Definition window_close : Time.t := Time.mk 21 0 0.

Fixpoint free_slot_walk (m : Z) (cursor : Time.t)
    (ranges : list TimeRange.t) : list (Time.t * Time.t) :=
  match ranges with
  | [] =>
      if m <=? gap_minutes cursor window_close
      then [(cursor, window_close)] else []
  | r :: ranges =>
      (if m <=? gap_minutes cursor (TimeRange.start_time r)
       then [(cursor, TimeRange.start_time r)] else [])
      ++ free_slot_walk m
           (if Time.is_after (TimeRange.end_time r) cursor
            then TimeRange.end_time r else cursor)
           ranges
  end.

(** A slot as a time range. *)
Definition slot (bounds : Time.t * Time.t) : TimeRange.t :=
  TimeRange.mk bounds.1 bounds.2 (gap_minutes bounds.1 bounds.2).

(** A call on a schedule, and a sequence of calls run in order. *)
Inductive call : Set :=
| AddEvent (event : loc) (check_conflicts : bool)
| RemoveEvent (event : loc)
| GetEventsOnDay (day : Day.t).

Definition run_call (c : call) : M t unit :=
  match c with
  | AddEvent event check_conflicts =>
      _ ← add_event event check_conflicts; mret tt
  | RemoveEvent event => _ ← remove_event event; mret tt
  | GetEventsOnDay day => _ ← get_events_on_day day; mret tt
  end.

Fixpoint run (calls : list call) : M t unit :=
  match calls with
  | [] => mret tt
  | c :: calls => _ ← run_call c; run calls
  end.

(** The loop [for day in ...: events.extend(self.get_events_on_day(day))]
    from the events collected so far. *)
Fixpoint extend_with_days (days : list Day.t) (events : list loc)
  : M t (list loc) :=
  match days with
  | [] => mret events
  | day :: days =>
      on_day ← get_events_on_day day;
      extend_with_days days (events ++ on_day)
  end.

Definition get_events_in_week (week : Week.t) : M t (list loc) :=
  days ← lift (Week.get_days week);
  extend_with_days days [].


Definition get_events_in_year (year : Year.t) (self : t) : list loc :=
  filter (fun event => Year.contains_day year (day_of event) = true)
         (events self).

(** [start_day <= event.day <= end_day] *)
Definition get_events_in_date_range (start_day end_day : Day.t) (self : t)
  : list loc :=
  filter (fun event =>
            Day.leb start_day (day_of event)
            && Day.leb (day_of event) end_day = true)
         (events self).

Definition get_events_by_priority (priority : EventPriority) (self : t)
  : list loc :=
  filter (fun event => Attrs.Event.priority (obj event) = priority)
         (events self).

(** [today] is the value of [Day.today()] at the time of the call. *)
Definition get_past_events (today : Day.t) (until_day : option Day.t)
    (limit : option Z) (self : t) : list loc :=
  let until_day := default today until_day in
  let past :=
    filter (fun event => Day.ltb (day_of event) until_day = true)
           (events self) in
  let past :=
    list_sort_reverse day_time_lt (fun e => (day_of e, start_of e)) past in
  match limit with
  | Some limit => slice_to limit past
  | None => past
  end.

(** [day_counts[day] += 1] on a [defaultdict(int)]: a day that has no
    entry yet gets one at the end, counting from zero.  The entries keep
    the order in which their days first occurred. *)
Fixpoint count_day (day : Day.t) (day_counts : list (Day.t * Z))
  : list (Day.t * Z) :=
  match day_counts with
  | [] => [(day, 0 + 1)]
  | (d, n) :: day_counts =>
      if decide (d = day) then (d, n + 1) :: day_counts
      else (d, n) :: count_day day day_counts
  end.

Definition get_busiest_days (limit : Z) (self : t) : list (Day.t * Z) :=
  let day_counts :=
    foldl (fun day_counts event => count_day (day_of event) day_counts)
          [] (events self) in
  let sorted_days := list_sort_reverse Z.ltb snd day_counts in
  slice_to limit sorted_days.

(** [__len__] *)
Definition len (self : t) : Z := Z.of_nat (length (events self)).

(** The number of events of a day, as a Python integer. *)
Definition events_on (self : t) (day : Day.t) : Z :=
  Z.of_nat (length (filter (fun e => day_of e = day) (events self))).

End WithStore.

(** [clear_all_events] empties the event list and the day index. *)
Definition clear_all_events (self : t) : t := mk (name self) [] ∅.

End Schedule.

(** ** scheduler_server.py: the named schedules *)

Module scheduler_server.

(** The exceptions of the tools: a [ValueError] with its message, and
    the [KeyError] of a dictionary lookup with its key. *)
Inductive error : Set :=
| ValueError (message : string)
| KeyError (key : string).

(** The module's global state. *)
Record state : Type := mk {
  schedules : gmap string Schedule.t;
  active_schedule_name : string
}.

(** The state after the module is loaded. *)
Definition initial : state :=
  mk (<["default"%string := Schedule.init (Some "Default Schedule"%string)]> ∅)
     "default".

Definition get_active_schedule (st : state) : error + Schedule.t :=
  match schedules st !! active_schedule_name st with
  | Some schedule => inr schedule
  | None => inl (KeyError (active_schedule_name st))
  end.

Definition create_schedule (name : string) (st : state)
  : error + string * state :=
  if decide (is_Some (schedules st !! name))
  then inl (ValueError ("Schedule '" +:+ name +:+ "' already exists"))
  else inr ("Created schedule: " +:+ name,
            mk (<[name := Schedule.init (Some name)]> (schedules st))
               (active_schedule_name st)).

Definition set_active_schedule (name : string) (st : state)
  : error + string * state :=
  if decide (is_Some (schedules st !! name))
  then inr ("Active schedule set to: " +:+ name, mk (schedules st) name)
  else inl (ValueError ("Schedule '" +:+ name +:+ "' does not exist")).

Definition delete_schedule (name : string) (st : state)
  : error + string * state :=
  if decide (is_Some (schedules st !! name))
  then
    if decide (name = "default"%string)
    then inl (ValueError "Cannot delete the default schedule")
    else inr ("Deleted schedule: " +:+ name,
              mk (delete name (schedules st))
                 (if decide (name = active_schedule_name st)
                  then "default"%string else active_schedule_name st))
  else inl (ValueError ("Schedule '" +:+ name +:+ "' does not exist")).

(** The active schedule is emptied in place: the dictionary then holds
    the emptied schedule under the same name. *)
Definition clear_schedule (st : state) : error + string * state :=
  match get_active_schedule st with
  | inl e => inl e
  | inr schedule =>
      inr ("Cleared all events from schedule: " +:+ Schedule.name schedule,
           mk (<[active_schedule_name st
                 := Schedule.clear_all_events schedule]> (schedules st))
              (active_schedule_name st))
  end.

(** The default schedule exists and the active name is the name of a
    schedule. *)
Definition registry_ok (st : state) : Prop :=
  is_Some (schedules st !! "default"%string) /\
  is_Some (schedules st !! active_schedule_name st).

(** A call of one of the schedule management tools. *)
Inductive call : Set :=
| CreateSchedule (name : string)
| SetActiveSchedule (name : string)
| DeleteSchedule (name : string)
| ClearSchedule.

Definition run_call (c : call) : state -> error + string * state :=
  match c with
  | CreateSchedule name => create_schedule name
  | SetActiveSchedule name => set_active_schedule name
  | DeleteSchedule name => delete_schedule name
  | ClearSchedule => clear_schedule
  end.

(** The state the server goes on with after a call.  Each tool raises
    before its first assignment, so a call that raised has changed
    nothing. *)
Definition after (st : state) (c : call) : state :=
  match run_call c st with
  | inr (_, st') => st'
  | inl _ => st
  end.

Definition after_all (calls : list call) (st : state) : state :=
  foldl after st calls.

End scheduler_server.

(** ** Sample objects *)

Module Sample.

Definition at_ (hour minute : Z) : Time.t := Time.mk hour minute 0.

Definition range (start stop : Time.t) : TimeRange.t :=
  TimeRange.mk start stop (Time.difference_in_minutes stop start).

Definition sunday : Day.t := Day.mk 2025 10 26.
Definition monday : Day.t := Day.mk 2025 10 27.
Definition tuesday : Day.t := Day.mk 2025 10 28.

Definition chore (day : Day.t) (time_range : TimeRange.t) : instance :=
  mk_instance
    (Attrs.Event.mk "Laundry" day time_range EmptyString MEDIUM SCHEDULED
       0%nat EmptyString)
    (IsChore (Attrs.Chore.mk "General" true 7 "Medium")).

(** Five events: two disjoint ones on Sunday, a third on Sunday that
    overlaps the second, one on Monday, and one on Tuesday that ends
    thirty seconds after 21:00. *)
Definition store (l : loc) : instance :=
  match l with
  | 0%nat => chore sunday (range (at_ 14 0) (at_ 15 0))
  | 1%nat => chore sunday (range (at_ 10 0) (at_ 11 0))
  | 2%nat => chore sunday (range (at_ 10 30) (at_ 11 30))
  | 3%nat => chore monday (range (at_ 10 0) (at_ 11 0))
  | _ => chore tuesday (range (at_ 20 0) (Time.mk 21 0 30))
  end.

Definition calls : list Schedule.call :=
  [Schedule.AddEvent 0%nat false; Schedule.AddEvent 1%nat true;
   Schedule.AddEvent 4%nat true].

(** The schedule after [calls]: events 0, 1 and 4. *)
Definition schedule : Schedule.t :=
  match Schedule.run store calls (Schedule.init None) with
  | Ok (_, s) => s
  | Raise _ => Schedule.init None
  end.

(** A store with a tag list and a weekly chore on Sunday that refers to
    it, and the same with the chore on the last day of the calendar. *)
Definition heap_sunday : heap :=
  [OList ["weekly"%string];
   OInstance (chore sunday (range (at_ 10 0) (at_ 11 0)))].

Definition last_day : Day.t := Day.mk 9999 12 31.

Definition heap_last_day : heap :=
  [OList ["weekly"%string];
   OInstance (chore last_day (range (at_ 10 0) (at_ 11 0)))].

(** The weekly chore of [heap_sunday] and its recurrence settings. *)
Definition weekly : Attrs.Chore.t := Attrs.Chore.mk "General" true 7 "Medium".

Definition laundry : instance :=
  chore sunday (range (at_ 10 0) (at_ 11 0)).

(** The week of the sample Sunday, which starts on Monday 20 October,
    and two months. *)
Definition week : Week.t := Week.mk (Day.mk 2025 10 20) 2025 43.


Definition december : Month.t := Month.mk 2025 12 "December".

(** A store that holds events 0 and 1 of [store] as objects, and the
    events once event 1 has been rescheduled to Monday. *)
Definition heap_events : heap :=
  [OInstance (store 0%nat); OInstance (store 1%nat)].

Definition store_rescheduled (l : loc) : instance :=
  match l with
  | 1%nat =>
      mk_instance
        (Event.rescheduled monday (range (at_ 9 0) (at_ 10 0)) (store 1%nat))
        (cls (store 1%nat))
  | _ => store l
  end.

(** Calls of the schedule management tools, one of which raises. *)
Definition tool_calls : list scheduler_server.call :=
  [scheduler_server.CreateSchedule "work";
   scheduler_server.SetActiveSchedule "work";
   scheduler_server.DeleteSchedule "default";
   scheduler_server.ClearSchedule].

End Sample.

(** * Properties *)

(** ** Facts about the time model *)

Section TimeFacts.

Lemma datetime_time_eqb_eq a b : datetime_time.eqb a b = true <-> a = b.
Proof.
  destruct a as [[h1 m1] s1], b as [[h2 m2] s2]; simpl.
  rewrite !andb_true_iff, !Z.eqb_eq. split.
  - intros [[-> ->] ->]; reflexivity.
  - intros [= -> -> ->]; auto.
Qed.

Lemma datetime_time_lt_irrefl a : datetime_time.lt a a = false.
Proof.
  destruct a as [[h m] s]; simpl.
  rewrite !Z.ltb_irrefl, !Z.eqb_refl; reflexivity.
Qed.

(** Trichotomy of the wall-clock order. *)
Lemma datetime_time_trichotomy a b :
  datetime_time.lt b a = negb (datetime_time.lt a b || datetime_time.eqb a b).
Proof.
  destruct a as [[h1 m1] s1], b as [[h2 m2] s2]; simpl.
  destruct (Z.ltb_spec h1 h2), (Z.ltb_spec h2 h1),
    (Z.eqb_spec h1 h2), (Z.eqb_spec h2 h1),
    (Z.ltb_spec m1 m2), (Z.ltb_spec m2 m1),
    (Z.eqb_spec m1 m2), (Z.eqb_spec m2 m1),
    (Z.ltb_spec s1 s2), (Z.ltb_spec s2 s1),
    (Z.eqb_spec s1 s2); simpl; try reflexivity; lia.
Qed.

Lemma Time_eqb_eq a b : Time.eqb a b = true <-> a = b.
Proof.
  unfold Time.eqb. rewrite datetime_time_eqb_eq.
  destruct a, b; unfold Time._time; simpl. split; congruence.
Qed.

Lemma Time_is_after_spec a b :
  Time.is_after a b = negb (Time.is_before a b || Time.eqb a b).
Proof. apply datetime_time_trichotomy. Qed.

Lemma Time_init_Ok h m s t :
  Time.init h m s = Ok t <->
  (0 <= h <= 23 /\ 0 <= m <= 59 /\ 0 <= s <= 59) /\ t = Time.mk h m s.
Proof.
  unfold Time.init.
  destruct (Z.leb_spec 0 h), (Z.leb_spec h 23); simpl;
    try (split; [discriminate | lia]).
  destruct (Z.leb_spec 0 m), (Z.leb_spec m 59); simpl;
    try (split; [discriminate | lia]).
  destruct (Z.leb_spec 0 s), (Z.leb_spec s 59); simpl;
    try (split; [discriminate | lia]).
  split.
  - intros [= <-]. split; [lia | reflexivity].
  - intros [_ ->]. reflexivity.
Qed.

End TimeFacts.

(** C2: [A.overlaps_with(B)] is true exactly when [A.end > B.start] and
    [B.end > A.start] in the strict wall-clock order; two ranges that
    touch at a shared boundary do not overlap. *)
Theorem overlaps_with_strict (A B : TimeRange.t) :
  (TimeRange.overlaps_with A B = true <->
     Time.is_after (TimeRange.end_time A) (TimeRange.start_time B) = true /\
     Time.is_after (TimeRange.end_time B) (TimeRange.start_time A) = true) /\
  (TimeRange.end_time A = TimeRange.start_time B \/
   TimeRange.end_time B = TimeRange.start_time A ->
   TimeRange.overlaps_with A B = false).
Proof.
  unfold TimeRange.overlaps_with. rewrite !Time_is_after_spec. split.
  - destruct (Time.is_before (TimeRange.end_time A) (TimeRange.start_time B)
              || Time.eqb (TimeRange.end_time A) (TimeRange.start_time B));
    destruct (Time.is_before (TimeRange.end_time B) (TimeRange.start_time A)
              || Time.eqb (TimeRange.end_time B) (TimeRange.start_time A));
    simpl; intuition congruence.
  - intros [H | H]; apply Time_eqb_eq in H; rewrite H, orb_true_r.
    + reflexivity.
    + destruct (_ || _); reflexivity.
Qed.

(** C10: [add_minutes] keeps the seconds of the receiver; hour and minute
    are those of [(hour*60 + minute + delta) mod 1440]. *)
Theorem add_minutes_keeps_seconds (h m s : Z) (t : Time.t) (delta : Z) :
  Time.init h m s = Ok t ->
  let total := (Time.hour t * 60 + Time.minute t + delta) mod 1440 in
  Time.add_minutes t delta = Ok (Time.mk (total / 60) (total mod 60) s) /\
  Time.second t = s /\
  exists t', Time.add_minutes t delta = Ok t' /\
             Time.second t' = Time.second t /\
             Time.to_minutes t' = total /\
             0 <= Time.minute t' < 60.
Proof.
  intros Hinit total. apply Time_init_Ok in Hinit as [Hr ->]. simpl in *.
  assert (Hrange : 0 <= total < 1440) by (apply Z.mod_pos_bound; lia).
  assert (Hadd : Time.add_minutes (Time.mk h m s) delta
                 = Ok (Time.mk (total / 60) (total mod 60) s)).
  { unfold Time.add_minutes, Time.to_minutes; simpl.
    change (24 * 60) with 1440. fold total.
    apply Time_init_Ok. split; [| reflexivity].
    pose proof (Z.mod_pos_bound total 60 ltac:(lia)).
    assert (0 <= total / 60) by (apply Z.div_pos; lia).
    assert (total / 60 < 24) by (apply Z.div_lt_upper_bound; lia).
    lia. }
  split; [exact Hadd |]. split; [reflexivity |].
  eexists. split; [exact Hadd |]. simpl. split; [reflexivity |].
  unfold Time.to_minutes; simpl. split.
  - pose proof (Z.div_mod total 60 ltac:(lia)). lia.
  - apply Z.mod_pos_bound; lia.
Qed.

(** ** Facts about sorting and list removal *)

Section SortFacts.

Context {A K : Type} (lt : K -> K -> bool) (key : A -> K).

Lemma sort_insert_perm x l : sort_insert lt key x l ≡ₚ x :: l.
Proof.
  induction l as [| y l IH]; simpl; [reflexivity |].
  destruct (lt (key y) (key x)); [| reflexivity].
  rewrite IH. apply Permutation_swap.
Qed.

Lemma list_sort_perm l : list_sort lt key l ≡ₚ l.
Proof.
  induction l as [| x l IH]; simpl; [reflexivity |].
  rewrite sort_insert_perm, IH. reflexivity.
Qed.

Hypothesis lt_asym : forall a b, lt a b = true -> lt b a = false.
Hypothesis le_trans :
  forall a b c, lt b a = false -> lt c b = false -> lt c a = false.

Lemma sort_insert_sorted x l :
  StronglySorted (key_le lt key) l -> StronglySorted (key_le lt key) (sort_insert lt key x l).
Proof.
  induction 1 as [| y l Hs IH Hall]; simpl.
  - repeat constructor.
  - destruct (lt (key y) (key x)) eqn:Hyx.
    + constructor; [exact IH |].
      rewrite sort_insert_perm. constructor; [| exact Hall].
      apply lt_asym, Hyx.
    + constructor; [constructor; assumption |].
      constructor; [exact Hyx |].
      eapply Forall_impl; [exact Hall |].
      intros z Hz. unfold key_le in *. eapply le_trans; eassumption.
Qed.

Lemma list_sort_sorted l : StronglySorted (key_le lt key) (list_sort lt key l).
Proof.
  induction l as [| x l IH]; simpl; [constructor |].
  apply sort_insert_sorted, IH.
Qed.

(** Stability: the elements with a given key keep their relative order. *)
Lemma sort_insert_stable `{EqDecision K} (k : K) x l :
  filter (fun y => key y = k) (sort_insert lt key x l)
  = filter (fun y => key y = k) (x :: l).
Proof.
  induction l as [| y l IH]; simpl; [reflexivity |].
  destruct (lt (key y) (key x)) eqn:Hyx; [| reflexivity].
  rewrite !filter_cons in *. rewrite IH.
  destruct (decide (key y = k)) as [Hy |]; [| reflexivity].
  destruct (decide (key x = k)) as [Hx |]; [| reflexivity].
  rewrite Hy, Hx in Hyx. pose proof (lt_asym _ _ Hyx). congruence.
Qed.

Lemma list_sort_stable `{EqDecision K} (k : K) l :
  filter (fun y => key y = k) (list_sort lt key l)
  = filter (fun y => key y = k) l.
Proof.
  induction l as [| x l IH]; simpl; [reflexivity |].
  rewrite sort_insert_stable, !filter_cons, IH. reflexivity.
Qed.

End SortFacts.

Section TimeOrder.

Ltac to_prop :=
  repeat match goal with
  | H : _ = false |- _ => apply not_true_iff_false in H
  | |- _ = false => apply not_true_iff_false
  end;
  rewrite ?orb_true_iff, ?andb_true_iff, ?Z.ltb_lt, ?Z.eqb_eq in *.

Lemma datetime_time_lt_asym a b :
  datetime_time.lt a b = true -> datetime_time.lt b a = false.
Proof.
  destruct a as [[h1 m1] s1], b as [[h2 m2] s2]; simpl. intros H.
  to_prop. lia.
Qed.

Lemma datetime_time_le_trans a b c :
  datetime_time.lt b a = false -> datetime_time.lt c b = false ->
  datetime_time.lt c a = false.
Proof.
  destruct a as [[h1 m1] s1], b as [[h2 m2] s2], c as [[h3 m3] s3]; simpl.
  intros H1 H2. to_prop. lia.
Qed.

Lemma Time_ltb_asym a b : Time.ltb a b = true -> Time.ltb b a = false.
Proof. apply datetime_time_lt_asym. Qed.

Lemma Time_le_trans a b c :
  Time.ltb b a = false -> Time.ltb c b = false -> Time.ltb c a = false.
Proof. apply datetime_time_le_trans. Qed.

End TimeOrder.

Section RemoveFacts.

Lemma list_remove_elem x l :
  x ∈ l -> exists l', list_remove x l = Ok l'.
Proof.
  induction l as [| y l IH]; intros Hin; [inversion Hin | simpl].
  destruct (decide (y = x)); [eauto |].
  destruct IH as [l' ->]; [| simpl; eauto].
  apply elem_of_cons in Hin as [-> | Hin]; [congruence | exact Hin].
Qed.

(** Removing an element commutes with filtering by a property it has,
    and is invisible to a filter on a property it lacks. *)
Lemma list_remove_filter (P : loc -> Prop) `{forall e, Decision (P e)} x l l' :
  list_remove x l = Ok l' ->
  (P x -> list_remove x (filter P l) = Ok (filter P l')) /\
  (~ P x -> filter P l' = filter P l).
Proof.
  revert l'. induction l as [| y l IH]; simpl; intros l' Hrm; [discriminate |].
  destruct (decide (y = x)) as [-> | Hne].
  - injection Hrm as <-. rewrite filter_cons. split; intros HP.
    + rewrite decide_True by exact HP. simpl.
      rewrite decide_True by reflexivity. reflexivity.
    + rewrite decide_False by exact HP. reflexivity.
  - destruct (list_remove x l) as [l0 |] eqn:Hl; simpl in Hrm; [| discriminate].
    injection Hrm as <-. destruct (IH l0 eq_refl) as [IH1 IH2].
    rewrite !filter_cons. split; intros HP.
    + destruct (decide (P y)); [| auto]. simpl.
      rewrite decide_False by exact Hne. rewrite IH1 by exact HP. reflexivity.
    + rewrite IH2 by exact HP. reflexivity.
Qed.

End RemoveFacts.

(** ** Conflicts between events *)

Section ConflictFacts.

Lemma Day_eqb_eq a b : Day.eqb a b = true <-> a = b.
Proof.
  destruct a, b; unfold Day.eqb, datetime_date.eqb; simpl.
  rewrite !andb_true_iff, !Z.eqb_eq. split.
  - intros [[-> ->] ->]; reflexivity.
  - intros [= -> -> ->]; auto.
Qed.

Lemma overlaps_with_sym a b :
  TimeRange.overlaps_with a b = TimeRange.overlaps_with b a.
Proof.
  unfold TimeRange.overlaps_with.
  destruct (Time.is_before (TimeRange.end_time a) (TimeRange.start_time b)
            || Time.eqb (TimeRange.end_time a) (TimeRange.start_time b));
  destruct (Time.is_before (TimeRange.end_time b) (TimeRange.start_time a)
            || Time.eqb (TimeRange.end_time b) (TimeRange.start_time a));
  reflexivity.
Qed.

Lemma conflicts_with_same_day a b :
  Attrs.Event.day a = Attrs.Event.day b ->
  Event.conflicts_with a b
  = TimeRange.overlaps_with (Attrs.Event.time_range a)
                            (Attrs.Event.time_range b).
Proof.
  intros Hday. unfold Event.conflicts_with.
  apply Day_eqb_eq in Hday. rewrite Hday. reflexivity.
Qed.

Lemma conflicts_with_other_day a b :
  Attrs.Event.day a <> Attrs.Event.day b -> Event.conflicts_with a b = false.
Proof.
  intros Hday. unfold Event.conflicts_with.
  destruct (Day.eqb _ _) eqn:Heq; [| reflexivity].
  apply Day_eqb_eq in Heq. contradiction.
Qed.

End ConflictFacts.

(** ** The schedule and its day index *)

Section ScheduleFacts.

Variable obj : loc -> instance.

Abbreviation day_of := (Schedule.day_of obj).
Abbreviation start_of := (Schedule.start_of obj).
Abbreviation index_ok := (Schedule.index_ok obj).

Lemma insert_congr (m m' : gmap Day.t (list loc)) d b x :
  <[d := b]> m' = <[d := b]> m -> <[d := x]> m' = <[d := x]> m.
Proof.
  intros H. rewrite <- (insert_insert_eq m' d x b), H.
  apply insert_insert_eq.
Qed.

Ltac run_monad :=
  unfold mbind, mret, M_bind, M_ret, lift, get_state, put_state,
    Schedule.set_events, Schedule.set_bucket in *.

(** Reading a bucket returns the stored list; the schedule changes only
    when the day had no entry, and then only by an empty entry. *)
Lemma bucket_run day s :
  exists s',
    Schedule.bucket day s = Ok (Schedule.bucket_of s day, s') /\
    Schedule.name s' = Schedule.name s /\
    Schedule.events s' = Schedule.events s /\
    (forall d, Schedule.bucket_of s' d = Schedule.bucket_of s d) /\
    (Schedule.bucket_of s day <> [] -> s' = s) /\
    <[day := Schedule.bucket_of s day]> (Schedule._events_by_day s')
    = <[day := Schedule.bucket_of s day]> (Schedule._events_by_day s) /\
    Schedule._events_by_day s' !! day = Some (Schedule.bucket_of s day).
Proof.
  unfold Schedule.bucket, Schedule.bucket_of.
  destruct (Schedule._events_by_day s !! day) as [l |] eqn:Hl; simpl.
  - exists s. rewrite Hl. simpl. destruct s; auto 10.
  - eexists. split; [reflexivity |]. simpl.
    split; [reflexivity |]. split; [reflexivity |]. split; [| split; [| split]].
    + intros d. destruct (decide (day = d)) as [<- |].
      * rewrite lookup_insert_eq, Hl. reflexivity.
      * rewrite lookup_insert_ne by assumption. reflexivity.
    + congruence.
    + apply insert_insert_eq.
    + apply lookup_insert_eq.
Qed.

Lemma get_events_on_day_run day s :
  exists s',
    Schedule.get_events_on_day obj day s
    = Ok (list_sort Time.ltb start_of (Schedule.bucket_of s day), s') /\
    Schedule.name s' = Schedule.name s /\
    Schedule.events s' = Schedule.events s /\
    (forall d, Schedule.bucket_of s' d = Schedule.bucket_of s d) /\
    (Schedule.bucket_of s day <> [] -> s' = s) /\
    <[day := Schedule.bucket_of s day]> (Schedule._events_by_day s')
    = <[day := Schedule.bucket_of s day]> (Schedule._events_by_day s) /\
    Schedule._events_by_day s' !! day = Some (Schedule.bucket_of s day).
Proof.
  destruct (bucket_run day s) as (s' & Hb & H).
  exists s'. split; [| exact H].
  unfold Schedule.get_events_on_day. run_monad. rewrite Hb. reflexivity.
Qed.

Lemma list_sort_nil {A K : Type} (lt : K -> K -> bool) (key : A -> K) l :
  list_sort lt key l = [] -> l = [].
Proof.
  intros H. apply Permutation_nil_r. rewrite <- H.
  symmetry. apply list_sort_perm.
Qed.

(** The events that [get_conflicting_events] reports for [e]. *)
Lemma get_conflicting_events_run e s :
  exists s',
    Schedule.get_conflicting_events obj e s
    = Ok (filter (fun x => x ≠ e /\
                           Event.conflicts_with (obj e) (obj x) = true)
            (list_sort Time.ltb start_of (Schedule.bucket_of s (day_of e))),
          s') /\
    Schedule.name s' = Schedule.name s /\
    Schedule.events s' = Schedule.events s /\
    (forall d, Schedule.bucket_of s' d = Schedule.bucket_of s d) /\
    (Schedule.bucket_of s (day_of e) <> [] -> s' = s) /\
    <[day_of e := Schedule.bucket_of s (day_of e)]> (Schedule._events_by_day s')
    = <[day_of e := Schedule.bucket_of s (day_of e)]>
        (Schedule._events_by_day s) /\
    Schedule._events_by_day s' !! day_of e
    = Some (Schedule.bucket_of s (day_of e)).
Proof.
  destruct (get_events_on_day_run (day_of e) s) as (s' & Hg & H).
  exists s'. split; [| exact H].
  unfold Schedule.get_conflicting_events. run_monad. rewrite Hg. reflexivity.
Qed.

Lemma add_event_cases e check s :
  let conflicts :=
    filter (fun x => x ≠ e /\ Event.conflicts_with (obj e) (obj x) = true)
      (list_sort Time.ltb start_of (Schedule.bucket_of s (day_of e))) in
  Schedule.add_event obj e check s
  = if check && bool_decide (conflicts <> [])
    then Ok (false, s) else Ok (true, Schedule.added obj e s).
Proof.
  intros conflicts. unfold Schedule.add_event, Schedule.added.
  destruct check; simpl.
  - destruct (get_conflicting_events_run e s)
      as (s' & Hc & Hname & Hev & Hbk & Hsame & Hins & Hlk).
    fold conflicts in Hc. run_monad. rewrite Hc.
    destruct conflicts as [| c cs] eqn:Hcs.
    + rewrite bool_decide_false by congruence.
      unfold Schedule.bucket; simpl. rewrite Hlk. simpl.
      rewrite Hname, Hev. f_equal. f_equal. f_equal.
      eapply insert_congr, Hins.
    + rewrite bool_decide_true by congruence.
      rewrite Hsame; [reflexivity |].
      intros Hnil. subst conflicts. rewrite Hnil in Hcs. discriminate.
  - run_monad. simpl.
    destruct (bucket_run (day_of e)
                (Schedule.mk (Schedule.name s) (Schedule.events s ++ [e])
                   (Schedule._events_by_day s)))
      as (s' & Hb & Hname & Hev & Hbk & Hsame & Hins & Hlk).
    unfold Schedule.bucket_of in *. simpl in *. rewrite Hb.
    rewrite Hname, Hev. f_equal. f_equal. f_equal.
    eapply insert_congr, Hins.
Qed.

Lemma remove_event_absent e s :
  e ∉ Schedule.events s -> Schedule.remove_event obj e s = Ok (false, s).
Proof.
  intros Hnot. unfold Schedule.remove_event. run_monad.
  rewrite decide_False by exact Hnot. reflexivity.
Qed.

Lemma remove_event_present e s :
  index_ok s -> e ∈ Schedule.events s ->
  exists remaining on_day,
    list_remove e (Schedule.events s) = Ok remaining /\
    list_remove e (Schedule.bucket_of s (day_of e)) = Ok on_day /\
    Schedule.remove_event obj e s
    = Ok (true, Schedule.mk (Schedule.name s) remaining
                  (<[day_of e := on_day]> (Schedule._events_by_day s))).
Proof.
  intros Hok Hin.
  destruct (list_remove_elem e _ Hin) as [remaining Hrem].
  destruct (list_remove_filter (fun x => day_of x = day_of e) e _ _ Hrem)
    as [Hsame _].
  specialize (Hsame eq_refl). rewrite <- Hok in Hsame.
  exists remaining, (filter (fun x => day_of x = day_of e) remaining).
  split; [exact Hrem |]. split; [exact Hsame |].
  unfold Schedule.remove_event. run_monad.
  rewrite decide_True by exact Hin. rewrite Hrem.
  destruct (bucket_run (day_of e)
              (Schedule.mk (Schedule.name s) remaining
                 (Schedule._events_by_day s)))
    as (s' & Hb & Hname & Hev & Hbk & _ & Hins & _).
  unfold Schedule.bucket_of in *. simpl in *. rewrite Hb, Hsame.
  rewrite Hname, Hev. f_equal. f_equal. f_equal.
  eapply insert_congr, Hins.
Qed.

Lemma index_ok_init name : index_ok (Schedule.init name).
Proof. intros d. reflexivity. Qed.

Lemma index_ok_same s s' :
  Schedule.events s' = Schedule.events s ->
  (forall d, Schedule.bucket_of s' d = Schedule.bucket_of s d) ->
  index_ok s -> index_ok s'.
Proof. intros Hev Hbk Hok d. rewrite Hbk, Hev. apply Hok. Qed.

Lemma bucket_of_insert s n l d b d' :
  Schedule.bucket_of
    (Schedule.mk n l (<[d := b]> (Schedule._events_by_day s))) d'
  = if decide (d = d') then b else Schedule.bucket_of s d'.
Proof.
  unfold Schedule.bucket_of; simpl.
  destruct (decide (d = d')) as [<- |].
  - rewrite lookup_insert_eq. reflexivity.
  - rewrite lookup_insert_ne by assumption. reflexivity.
Qed.

Lemma index_ok_added e s : index_ok s -> index_ok (Schedule.added obj e s).
Proof.
  intros Hok d. unfold Schedule.added. rewrite bucket_of_insert. simpl.
  rewrite filter_app, filter_cons, filter_nil, <- !Hok.
  destruct (decide (day_of e = d)) as [<- |]; [reflexivity |].
  rewrite app_nil_r. reflexivity.
Qed.

Lemma add_event_index_ok e check s :
  index_ok s ->
  exists b s', Schedule.add_event obj e check s = Ok (b, s') /\ index_ok s'.
Proof.
  intros Hok. rewrite add_event_cases.
  destruct (check && _); eauto using index_ok_added.
Qed.

Lemma remove_event_index_ok e s :
  index_ok s ->
  exists b s', Schedule.remove_event obj e s = Ok (b, s') /\ index_ok s'.
Proof.
  intros Hok. destruct (decide (e ∈ Schedule.events s)) as [Hin | Hnot].
  - destruct (remove_event_present e s Hok Hin)
      as (remaining & on_day & Hrem & Hday & ->).
    do 2 eexists. split; [reflexivity |].
    intros d. rewrite bucket_of_insert. simpl.
    destruct (list_remove_filter (fun x => day_of x = d) e _ _ Hrem)
      as [Hsame Hother].
    destruct (decide (day_of e = d)) as [<- | Hne].
    + specialize (Hsame eq_refl). rewrite <- Hok in Hsame. congruence.
    + rewrite Hother by exact Hne. apply Hok.
  - rewrite remove_event_absent by exact Hnot. eauto.
Qed.

(** Every sequence of calls runs to completion and keeps the index in
    agreement with the event list. *)
Lemma run_index_ok calls s :
  index_ok s ->
  exists s', Schedule.run obj calls s = Ok (tt, s') /\ index_ok s'.
Proof.
  revert s. induction calls as [| c calls IH]; intros s Hok; simpl.
  - exists s. split; [reflexivity | exact Hok].
  - assert (Hstep : exists s1,
               Schedule.run_call obj c s = Ok (tt, s1) /\ index_ok s1).
    { destruct c as [e check | e | d]; simpl.
      - destruct (add_event_index_ok e check s Hok) as (b & s1 & Hrun & H1).
        exists s1. run_monad. rewrite Hrun. auto.
      - destruct (remove_event_index_ok e s Hok) as (b & s1 & Hrun & H1).
        exists s1. run_monad. rewrite Hrun. auto.
      - destruct (get_events_on_day_run d s) as (s1 & Hrun & _ & Hev & Hbk & _).
        exists s1. run_monad. rewrite Hrun.
        split; [reflexivity |]. eapply index_ok_same; eassumption. }
    destruct Hstep as (s1 & Hrun & H1).
    destruct (IH s1 H1) as (s' & Hrest & H').
    exists s'. run_monad. rewrite Hrun. auto.
Qed.

Lemma run_from_init calls name s :
  Schedule.run obj calls (Schedule.init name) = Ok (tt, s) -> index_ok s.
Proof.
  intros Hrun.
  destruct (run_index_ok calls _ (index_ok_init name)) as (s' & Hrun' & Hok).
  rewrite Hrun in Hrun'. injection Hrun' as <-. exact Hok.
Qed.

(** C1: after any sequence of [add_event] and [remove_event] calls (and
    of [get_events_on_day] queries) on a new schedule, with the events'
    [day] attributes left alone, [get_events_on_day(d)] returns the events
    of the event list whose day is [d], each as often as it is listed,
    in ascending order of start time, and events with equal start times
    in the order in which the event list, which is kept in order of
    addition, has them. *)
Theorem get_events_on_day_index_invariant
    (calls : list Schedule.call) (name : option string) :
  exists s,
    Schedule.run obj calls (Schedule.init name) = Ok (tt, s) /\
    forall d,
      exists on_day s',
        Schedule.get_events_on_day obj d s = Ok (on_day, s') /\
        Schedule.events s' = Schedule.events s /\
        on_day ≡ₚ filter (fun e => day_of e = d) (Schedule.events s) /\
        (forall e, e ∈ on_day <-> e ∈ Schedule.events s /\ day_of e = d) /\
        StronglySorted (key_le Time.ltb start_of) on_day /\
        forall start,
          filter (fun e => start_of e = start) on_day
          = filter (fun e => start_of e = start)
              (filter (fun e => day_of e = d) (Schedule.events s)).
Proof.
  destruct (run_index_ok calls _ (index_ok_init name)) as (s & Hrun & Hok).
  exists s. split; [exact Hrun |]. intros d.
  destruct (get_events_on_day_run d s) as (s' & Hget & _ & Hev & _).
  do 2 eexists. split; [exact Hget |]. split; [exact Hev |].
  split; [| split; [| split]].
  - rewrite <- Hok. apply list_sort_perm.
  - intros e. rewrite list_sort_perm, Hok, list_elem_of_filter. tauto.
  - apply list_sort_sorted; [apply Time_ltb_asym | apply Time_le_trans].
  - intros start. rewrite <- Hok. apply list_sort_stable, Time_ltb_asym.
Qed.

Lemma filter_nonempty_iff {A : Type} (P : A -> Prop)
    `{forall x, Decision (P x)} (l : list A) :
  filter P l <> [] <-> exists x, x ∈ l /\ P x.
Proof.
  split.
  - destruct (filter P l) as [| x l'] eqn:Hf; [congruence |]. intros _.
    exists x. apply and_comm, (list_elem_of_filter P l). rewrite Hf. left.
  - intros (x & Hin & HP) Hnil.
    assert (Hx : x ∈ filter P l) by (apply list_elem_of_filter; auto).
    rewrite Hnil in Hx. inversion Hx.
Qed.

(** An event already in the schedule, other than [e] itself, that is on
    the day of [e] and whose time range overlaps that of [e]. *)
Lemma conflicts_found_iff e s :
  index_ok s ->
  filter (fun x => x ≠ e /\ Event.conflicts_with (obj e) (obj x) = true)
    (list_sort Time.ltb start_of (Schedule.bucket_of s (day_of e))) <> []
  <->
  exists x, x ∈ Schedule.events s /\ x ≠ e /\ day_of x = day_of e /\
            TimeRange.overlaps_with (Attrs.Event.time_range (obj x))
                                    (Attrs.Event.time_range (obj e)) = true.
Proof.
  intros Hok. rewrite filter_nonempty_iff. split.
  - intros (x & Hin & Hne & Hc). rewrite list_sort_perm, Hok in Hin.
    apply list_elem_of_filter in Hin as [Hday Hin].
    exists x. repeat split; try assumption.
    rewrite conflicts_with_same_day in Hc by (symmetry; exact Hday).
    rewrite overlaps_with_sym. exact Hc.
  - intros (x & Hin & Hne & Hday & Hov). exists x. split; [| split].
    + rewrite list_sort_perm, Hok. apply list_elem_of_filter. auto.
    + exact Hne.
    + rewrite conflicts_with_same_day by (symmetry; exact Hday).
      rewrite overlaps_with_sym. exact Hov.
Qed.

(** C6, with the event itself left out of the comparison:
    [add_event(e, check_conflicts=True)] returns [False] and leaves the
    event list and the day index as they are when an event already in the
    schedule, other than [e] itself, is on the day of [e] and overlaps
    its time range; when there is none, and always when [check_conflicts]
    is false, it returns [True] and appends [e] to the event list and to
    the list stored for its day. *)
Theorem add_event_checks_conflicts
    (calls : list Schedule.call) (name : option string) (s : Schedule.t)
    (e : loc) :
  Schedule.run obj calls (Schedule.init name) = Ok (tt, s) ->
  let conflict :=
    exists x, x ∈ Schedule.events s /\ x ≠ e /\ day_of x = day_of e /\
              TimeRange.overlaps_with (Attrs.Event.time_range (obj x))
                                      (Attrs.Event.time_range (obj e)) = true in
  (conflict -> Schedule.add_event obj e true s = Ok (false, s)) /\
  (~ conflict ->
   Schedule.add_event obj e true s = Ok (true, Schedule.added obj e s)) /\
  Schedule.add_event obj e false s = Ok (true, Schedule.added obj e s) /\
  Schedule.events (Schedule.added obj e s) = Schedule.events s ++ [e] /\
  Schedule.bucket_of (Schedule.added obj e s) (day_of e)
  = Schedule.bucket_of s (day_of e) ++ [e] /\
  (forall d, d <> day_of e ->
     Schedule._events_by_day (Schedule.added obj e s) !! d
     = Schedule._events_by_day s !! d).
Proof.
  intros Hrun conflict. apply run_from_init in Hrun.
  pose proof (conflicts_found_iff e s Hrun) as Hiff. fold conflict in Hiff.
  repeat split.
  - intros Hc. rewrite add_event_cases. simpl.
    rewrite bool_decide_true; [reflexivity | apply Hiff, Hc].
  - intros Hc. rewrite add_event_cases. simpl.
    rewrite bool_decide_false; [reflexivity |]. rewrite Hiff. exact Hc.
  - rewrite add_event_cases. reflexivity.
  - unfold Schedule.added. rewrite bucket_of_insert.
    rewrite decide_True by reflexivity. reflexivity.
  - intros d Hd. unfold Schedule.added; simpl.
    rewrite lookup_insert_ne by congruence. reflexivity.
Qed.

Lemma Time_init_valid h m s :
  Time.valid (Time.mk h m s) = true -> Time.init h m s = Ok (Time.mk h m s).
Proof.
  unfold Time.valid; simpl. rewrite !andb_true_iff, !Z.leb_le. intros H.
  apply Time_init_Ok. split; [lia | reflexivity].
Qed.

(** C3: on a day without events [get_free_time_slots] returns the whole
    working window from 09:00 to 21:00 as its only slot, whatever the
    minimum duration is. *)
Theorem free_time_slots_empty_day
    (calls : list Schedule.call) (name : option string) (s : Schedule.t)
    (d : Day.t) (m : Z) :
  Schedule.run obj calls (Schedule.init name) = Ok (tt, s) ->
  filter (fun e => day_of e = d) (Schedule.events s) = [] ->
  exists s',
    Schedule.get_free_time_slots obj d m s
    = Ok ([TimeRange.mk (Time.mk 9 0 0) (Time.mk 21 0 0) 720], s') /\
    Schedule.events s' = Schedule.events s /\
    forall d', Schedule.bucket_of s' d' = Schedule.bucket_of s d'.
Proof.
  intros Hrun Hnone. apply run_from_init in Hrun.
  destruct (get_events_on_day_run d s) as (s' & Hget & _ & Hev & Hbk & _).
  rewrite Hrun, Hnone in Hget. simpl in Hget.
  exists s'. split; [| split; assumption].
  unfold Schedule.get_free_time_slots. run_monad. rewrite Hget. reflexivity.
Qed.

(** A gap of at least one minute between two valid times makes a range
    that [TimeRange.__init__] accepts. *)
Lemma TimeRange_init_gap m cursor target :
  1 <= m -> Time.valid cursor = true -> Time.valid target = true ->
  (m <=? Time.difference_in_minutes target cursor) = true ->
  TimeRange.init cursor target = Ok (Schedule.slot (cursor, target)).
Proof.
  intros Hm Hc Ht Hgap. unfold TimeRange.init.
  replace (Time.is_before target cursor) with false; [reflexivity |].
  symmetry. apply Z.leb_le in Hgap.
  unfold Time.valid in *. rewrite !andb_true_iff, !Z.leb_le in *.
  destruct cursor as [h1 m1 s1], target as [h2 m2 s2].
  unfold Time.difference_in_minutes, Time.to_minutes, Time.is_before,
    Time._time in *; simpl in *.
  apply not_true_iff_false.
  rewrite ?orb_true_iff, ?andb_true_iff, ?Z.ltb_lt, ?Z.eqb_eq. lia.
Qed.

(** The loop of [get_free_time_slots] emits the slots of the walk up to
    the last event and leaves the cursor where the walk has it. *)
Lemma free_slots_loop_walk m events :
  1 <= m ->
  forall acc cursor,
    Time.valid cursor = true ->
    forallb (fun e => TimeRange.valid (Schedule.range_of obj e)) events
    = true ->
    exists before cursor',
      Schedule.free_slots_loop obj m events acc cursor
      = Ok (acc ++ (Schedule.slot <$> before), cursor') /\
      Schedule.free_slot_walk m cursor (Schedule.range_of obj <$> events)
      = before ++ Schedule.free_slot_walk m cursor' [] /\
      Time.valid cursor' = true.
Proof.
  intros Hm. induction events as [| e events IH]; intros acc cursor Hc Hv.
  - exists [], cursor. simpl. rewrite app_nil_r. auto.
  - simpl in Hv. apply andb_true_iff in Hv as [He Hv].
    assert (Hstart : Time.valid (start_of e) = true /\
                     Time.valid (Schedule.end_of obj e) = true).
    { unfold TimeRange.valid in He. rewrite !andb_true_iff in He.
      split; apply He. }
    destruct Hstart as [Hstart Hend].
    set (cursor2 := if Time.is_after (Schedule.end_of obj e) cursor
                    then Schedule.end_of obj e else cursor).
    assert (Hc2 : Time.valid cursor2 = true).
    { subst cursor2. destruct (Time.is_after _ _); assumption. }
    assert (Hloop_eq :
      Schedule.free_slots_loop obj m (e :: events) acc cursor
      = (free_slots ←
           (if m <=? Time.difference_in_minutes (start_of e) cursor
            then slot ← TimeRange.init cursor (start_of e);
                 Ok (acc ++ [slot])
            else Ok acc);
         Schedule.free_slots_loop obj m events free_slots cursor2))
      by reflexivity.
    assert (Hwalk_eq :
      Schedule.free_slot_walk m cursor (Schedule.range_of obj <$> e :: events)
      = (if m <=? Time.difference_in_minutes (start_of e) cursor
         then [(cursor, start_of e)] else [])
        ++ Schedule.free_slot_walk m cursor2
             (Schedule.range_of obj <$> events))
      by reflexivity.
    rewrite Hloop_eq, Hwalk_eq. clear Hloop_eq Hwalk_eq.
    destruct (m <=? Time.difference_in_minutes (start_of e) cursor) eqn:Hgap.
    + rewrite (TimeRange_init_gap m) by assumption.
      destruct (IH (acc ++ [Schedule.slot (cursor, start_of e)]) cursor2
                  Hc2 Hv) as (before & cursor' & Hloop & Hwalk & Hc').
      exists ((cursor, start_of e) :: before), cursor'.
      split; [| split; [| exact Hc']].
      * unfold mbind, result_bind. rewrite Hloop, <- app_assoc. reflexivity.
      * rewrite Hwalk. reflexivity.
    + destruct (IH acc cursor2 Hc2 Hv)
        as (before & cursor' & Hloop & Hwalk & Hc').
      exists before, cursor'. split; [| split; [| exact Hc']].
      * unfold mbind, result_bind. exact Hloop.
      * rewrite Hwalk. reflexivity.
Qed.

(** C4, for a minimum duration of at least one minute: on a day with
    events (with valid, pairwise non-overlapping time ranges)
    [get_free_time_slots] walks the events in ascending order of start
    time from a cursor at 09:00, emits the gap before an event when it is
    at least [m] minutes long, moves the cursor to the end of an event
    only when that end is later, and emits the rest of the window up to
    21:00 when it is at least [m] minutes long.  For the events
    10:00-11:00 and 14:00-15:00 the slots are 09:00-10:00, 11:00-14:00
    and 15:00-21:00 when [m] is 60, and 15:00-21:00 alone when [m] is
    200. *)
Theorem free_time_slots_walk
    (s s1 : Schedule.t) (d : Day.t) (m : Z) (on_day : list loc) :
  Schedule.get_events_on_day obj d s = Ok (on_day, s1) ->
  on_day <> [] ->
  forallb (fun e => TimeRange.valid (Schedule.range_of obj e)) on_day = true ->
  Schedule.non_overlapping (Schedule.range_of obj <$> on_day) = true ->
  1 <= m ->
  StronglySorted (key_le Time.ltb start_of) on_day /\
  Schedule.get_free_time_slots obj d m s
  = Ok (Schedule.slot
          <$> Schedule.free_slot_walk m (Time.mk 9 0 0)
                (Schedule.range_of obj <$> on_day),
        s1) /\
  forall e1 e2,
    on_day = [e1; e2] ->
    Schedule.range_of obj e1 = TimeRange.mk (Time.mk 10 0 0) (Time.mk 11 0 0) 60 ->
    Schedule.range_of obj e2 = TimeRange.mk (Time.mk 14 0 0) (Time.mk 15 0 0) 60 ->
    (m = 60 ->
     Schedule.get_free_time_slots obj d m s
     = Ok ([TimeRange.mk (Time.mk 9 0 0) (Time.mk 10 0 0) 60;
            TimeRange.mk (Time.mk 11 0 0) (Time.mk 14 0 0) 180;
            TimeRange.mk (Time.mk 15 0 0) (Time.mk 21 0 0) 360], s1)) /\
    (m = 200 ->
     Schedule.get_free_time_slots obj d m s
     = Ok ([TimeRange.mk (Time.mk 15 0 0) (Time.mk 21 0 0) 360], s1)).
Proof.
  intros Hget Hne Hvalid _ Hm.
  assert (Hsorted : StronglySorted (key_le Time.ltb start_of) on_day).
  { destruct (get_events_on_day_run d s) as (s' & Hget' & _).
    rewrite Hget in Hget'. injection Hget' as -> _.
    apply list_sort_sorted; [apply Time_ltb_asym | apply Time_le_trans]. }
  assert (Hwalk : Schedule.get_free_time_slots obj d m s
                  = Ok (Schedule.slot
                          <$> Schedule.free_slot_walk m (Time.mk 9 0 0)
                                (Schedule.range_of obj <$> on_day), s1)).
  { unfold Schedule.get_free_time_slots. run_monad. rewrite Hget.
    destruct on_day as [| e0 rest] eqn:Hday; [congruence |]. rewrite <- Hday in *.
    change (Time.init 9 0 0) with (Ok (Time.mk 9 0 0)).
    change (Time.init 21 0 0) with (Ok (Time.mk 21 0 0)).
    lazy beta iota.
    destruct (free_slots_loop_walk m on_day Hm [] (Time.mk 9 0 0)
                eq_refl Hvalid) as (before & cursor' & Hloop & Hspec & Hc').
    rewrite Hloop, Hspec. lazy beta iota.
    change (Schedule.free_slot_walk m cursor' [])
      with (if m <=? Time.difference_in_minutes (Time.mk 21 0 0) cursor'
            then [(cursor', Time.mk 21 0 0)] else []).
    destruct (m <=? Time.difference_in_minutes (Time.mk 21 0 0) cursor')
      eqn:Hgap.
    - rewrite (TimeRange_init_gap m) by (assumption || reflexivity).
      rewrite fmap_app. reflexivity.
    - rewrite app_nil_r. reflexivity. }
  split; [exact Hsorted |]. split; [exact Hwalk |].
  intros e1 e2 -> H1 H2. rewrite Hwalk. simpl. rewrite H1, H2.
  split; intros ->; reflexivity.
Qed.

(** C5: on a schedule without events [get_statistics] returns its four
    counters, all zero, and computes no average, so nothing is divided. *)
Theorem get_statistics_empty (today : Day.t) (s : Schedule.t) :
  Schedule.events s = [] ->
  exists stats,
    Schedule.get_statistics obj today s = Ok (stats, s) /\
    stats !! "total_events"%string = Some (StatInt 0) /\
    stats !! "average_event_duration"%string = None /\
    dom stats = {["total_events"; "upcoming_events"; "completed_events";
                  "cancelled_events"]}%string.
Proof.
  intros Hempty. unfold Schedule.get_statistics. run_monad. rewrite Hempty.
  eexists. split; [reflexivity |]. split; [reflexivity |].
  split; [reflexivity |]. rewrite !dom_insert_L, dom_empty_L.
  set_solver.
Qed.

End ScheduleFacts.

(** ** The calendar *)

Section CalendarFacts.

Import datetime_date.

Lemma month_ok_all leap :
  forallb (fun k => month_ok leap (Z.of_nat k)) (seq 0 365) = true.
Proof. destruct leap; vm_compute; reflexivity. Qed.

Lemma month_and_day_ok leap n :
  0 <= n < 365 -> month_ok leap n = true.
Proof.
  intros Hn. pose proof (month_ok_all leap) as Hall.
  rewrite forallb_forall in Hall.
  specialize (Hall (Z.to_nat n)). rewrite Z2Nat.id in Hall by lia.
  apply Hall, in_seq. lia.
Qed.

Lemma is_leap_decomposed a b c e :
  0 <= b <= 3 -> 0 <= c <= 24 -> 0 <= e <= 3 ->
  _is_leap (a * 400 + 1 + (b * 100 + c * 4 + e))
  = (e =? 3) && (negb (c =? 24) || (b =? 3)).
Proof.
  intros Hb Hc He. unfold _is_leap.
  set (y := a * 400 + 1 + (b * 100 + c * 4 + e)).
  assert (H4 : y mod 4 = (e + 1) mod 4).
  { subst y. replace (a * 400 + 1 + (b * 100 + c * 4 + e))
      with (e + 1 + (a * 100 + b * 25 + c) * 4) by lia.
    apply Z_mod_plus_full. }
  assert (H100 : y mod 100 = (c * 4 + e + 1) mod 100).
  { subst y. replace (a * 400 + 1 + (b * 100 + c * 4 + e))
      with (c * 4 + e + 1 + (a * 4 + b) * 100) by lia.
    apply Z_mod_plus_full. }
  assert (H400 : y mod 400 = (b * 100 + c * 4 + e + 1) mod 400).
  { subst y. replace (a * 400 + 1 + (b * 100 + c * 4 + e))
      with (b * 100 + c * 4 + e + 1 + a * 400) by lia.
    apply Z_mod_plus_full. }
  rewrite H4, H100, H400. clear H4 H100 H400 y.
  destruct (Z.eqb_spec e 3) as [-> | He3].
  - destruct (Z.eqb_spec c 24) as [-> | Hc24].
    + destruct (Z.eqb_spec b 3) as [-> | Hb3]; [reflexivity |].
      simpl. replace (b * 100 + 24 * 4 + 3 + 1) with (b * 100 + 100) by lia.
      rewrite Z.mod_small by lia.
      destruct (Z.eqb_spec (b * 100 + 100) 0); [lia | reflexivity].
    + simpl. rewrite (Z.mod_small (c * 4 + 3 + 1)) by lia.
      destruct (Z.eqb_spec (c * 4 + 3 + 1) 0); [lia | reflexivity].
  - rewrite Z.mod_small by lia.
    destruct (Z.eqb_spec (e + 1) 0); [lia | reflexivity].
Qed.

Lemma days_before_year_decomposed a b c e :
  0 <= b <= 3 -> 0 <= c <= 24 -> 0 <= e <= 3 ->
  _days_before_year (a * 400 + 1 + (b * 100 + c * 4 + e))
  = a * 146097 + b * 36524 + c * 1461 + e * 365.
Proof.
  intros Hb Hc He. unfold _days_before_year.
  replace (a * 400 + 1 + (b * 100 + c * 4 + e) - 1)
    with (a * 400 + b * 100 + c * 4 + e) by lia.
  set (y := a * 400 + b * 100 + c * 4 + e).
  assert (H4 : y / 4 = a * 100 + b * 25 + c).
  { symmetry. apply (Z.div_unique y 4 _ e); subst y; lia. }
  assert (H100 : y / 100 = a * 4 + b).
  { symmetry. apply (Z.div_unique y 100 _ (c * 4 + e)); subst y; lia. }
  assert (H400 : y / 400 = a).
  { symmetry. apply (Z.div_unique y 400 _ (b * 100 + c * 4 + e));
      subst y; lia. }
  rewrite H4, H100, H400. subst y. lia.
Qed.

(** [_ord2ymd] yields a date of the calendar, and [_ymd2ord] leads back
    from it. *)
Lemma ord2ymd_roundtrip n :
  1 <= n <= _MAXORDINAL ->
  exists y m d,
    _ord2ymd n = (y, m, d) /\
    valid (mk y m d) = true /\
    _ymd2ord y m d = n.
Proof.
  intros Hn. unfold _ord2ymd, _DI400Y, _DI100Y, _DI4Y, _MAXORDINAL in *.
  pose proof (Z.div_mod (n - 1) 146097 ltac:(lia)) as E1.
  pose proof (Z.mod_pos_bound (n - 1) 146097 ltac:(lia)) as B1.
  set (a := (n - 1) / 146097) in *. set (r1 := (n - 1) mod 146097) in *.
  pose proof (Z.div_mod r1 36524 ltac:(lia)) as E2.
  pose proof (Z.mod_pos_bound r1 36524 ltac:(lia)) as B2.
  set (b := r1 / 36524) in *. set (r2 := r1 mod 36524) in *.
  pose proof (Z.div_mod r2 1461 ltac:(lia)) as E3.
  pose proof (Z.mod_pos_bound r2 1461 ltac:(lia)) as B3.
  set (c := r2 / 1461) in *. set (r3 := r2 mod 1461) in *.
  pose proof (Z.div_mod r3 365 ltac:(lia)) as E4.
  pose proof (Z.mod_pos_bound r3 365 ltac:(lia)) as B4.
  set (e := r3 / 365) in *. set (r4 := r3 mod 365) in *.
  assert (Ha : 0 <= a <= 24) by lia.
  assert (Hb : 0 <= b <= 4) by lia.
  assert (Hc : 0 <= c <= 24) by lia.
  assert (He : 0 <= e <= 4) by lia.
  destruct (Z.eqb_spec e 4) as [He4 | He4];
    [| destruct (Z.eqb_spec b 4) as [Hb4 | Hb4]]; simpl orb; cbv iota.
  - (* the last day of a leap year that closes a four-year cycle *)
    assert (Hb3 : b <= 3) by lia. assert (Hc23 : c <= 23) by lia.
    do 3 eexists. split; [reflexivity |].
    replace (a * 400 + 1 + (b * 100 + c * 4 + e) - 1)
      with (a * 400 + 1 + (b * 100 + c * 4 + 3)) by lia.
    unfold valid, _ymd2ord, _days_in_month, _days_before_month,
      MINYEAR, MAXYEAR; simpl year; simpl month; simpl day.
    rewrite is_leap_decomposed, days_before_year_decomposed by lia.
    replace (c =? 24) with false by (symmetry; apply Z.eqb_neq; lia).
    change (index _DAYS_BEFORE_MONTH 12) with 334.
    change (index _DAYS_IN_MONTH 12) with 31.
    simpl. split; [| lia].
    rewrite !andb_true_iff, !Z.leb_le. lia.
  - (* the last day of a 400-year cycle *)
    do 3 eexists. split; [reflexivity |].
    replace (a * 400 + 1 + (b * 100 + c * 4 + e) - 1)
      with (a * 400 + 1 + (3 * 100 + 24 * 4 + 3)) by lia.
    unfold valid, _ymd2ord, _days_in_month, _days_before_month,
      MINYEAR, MAXYEAR; simpl year; simpl month; simpl day.
    rewrite is_leap_decomposed, days_before_year_decomposed by lia.
    change (index _DAYS_BEFORE_MONTH 12) with 334.
    change (index _DAYS_IN_MONTH 12) with 31.
    simpl. split; [| lia].
    rewrite !andb_true_iff, !Z.leb_le. lia.
  - set (leap := (e =? 3) && (negb (c =? 24) || (b =? 3))).
    pose proof (month_and_day_ok leap r4 B4) as Hmd. unfold month_ok in Hmd.
    destruct (_month_and_day leap r4) as [m d].
    rewrite !andb_true_iff, !Z.leb_le, Z.eqb_eq in Hmd.
    do 3 eexists. split; [reflexivity |].
    unfold valid, _ymd2ord, _days_in_month, _days_before_month,
      MINYEAR, MAXYEAR; simpl year; simpl month; simpl day.
    rewrite is_leap_decomposed, days_before_year_decomposed by lia.
    fold leap. split; [| lia].
    rewrite !andb_true_iff, !Z.leb_le. lia.
Qed.

Lemma date_init_valid y m d :
  valid (mk y m d) = true -> init y m d = Ok (mk y m d).
Proof.
  unfold valid, init; simpl. rewrite !andb_true_iff.
  intros [[[[[-> ->] ->] ->] ->] ->]. reflexivity.
Qed.

Lemma index_days_before_month m :
  1 <= m <= 12 -> 0 <= index _DAYS_BEFORE_MONTH m <= 334.
Proof.
  intros Hm.
  assert (Hcases : m = 1 \/ m = 2 \/ m = 3 \/ m = 4 \/ m = 5 \/ m = 6 \/
                   m = 7 \/ m = 8 \/ m = 9 \/ m = 10 \/ m = 11 \/ m = 12)
    by lia.
  repeat (destruct Hcases as [-> | Hcases]; [vm_compute; split; discriminate |]).
  subst m. vm_compute; split; discriminate.
Qed.

Lemma index_days_in_month m :
  1 <= m <= 12 -> index _DAYS_IN_MONTH m <= 31.
Proof.
  intros Hm.
  assert (Hcases : m = 1 \/ m = 2 \/ m = 3 \/ m = 4 \/ m = 5 \/ m = 6 \/
                   m = 7 \/ m = 8 \/ m = 9 \/ m = 10 \/ m = 11 \/ m = 12)
    by lia.
  repeat (destruct Hcases as [-> | Hcases]; [vm_compute; discriminate |]).
  subst m. vm_compute; discriminate.
Qed.

(** The ordinal of a date of the calendar is positive and far below the
    largest [timedelta]. *)
Lemma toordinal_bounds t :
  valid t = true -> 1 <= toordinal t <= 3652500.
Proof.
  destruct t as [y m d]. unfold valid, toordinal, _ymd2ord, MINYEAR, MAXYEAR.
  simpl. rewrite !andb_true_iff, !Z.leb_le. intros [[[[[Hy1 Hy2] Hm1] Hm2] Hd1] Hd2].
  pose proof (index_days_before_month m ltac:(lia)) as Hbm.
  pose proof (index_days_in_month m ltac:(lia)) as Him.
  assert (Hd : d <= 31).
  { unfold _days_in_month in Hd2. destruct (_ && _); lia. }
  assert (Hby : 0 <= _days_before_year y <= 3652000).
  { unfold _days_before_year.
    pose proof (Z.div_mod (y - 1) 4 ltac:(lia)).
    pose proof (Z.mod_pos_bound (y - 1) 4 ltac:(lia)).
    pose proof (Z.div_mod (y - 1) 100 ltac:(lia)).
    pose proof (Z.mod_pos_bound (y - 1) 100 ltac:(lia)).
    pose proof (Z.div_mod (y - 1) 400 ltac:(lia)).
    pose proof (Z.mod_pos_bound (y - 1) 400 ltac:(lia)).
    lia. }
  unfold _days_before_month. destruct (_ && _); lia.
Qed.

(** Adding days to a date moves its ordinal by that many days, as long as
    the result is a date of the calendar. *)
Lemma date_add_ok t n :
  valid t = true ->
  0 < toordinal t + n <= _MAXORDINAL ->
  exists t',
    add t n = Ok t' /\ valid t' = true /\ toordinal t' = toordinal t + n.
Proof.
  intros Hvalid Hrange. unfold add.
  destruct (ord2ymd_roundtrip (toordinal t + n) ltac:(lia))
    as (y & m & d & Hord & Hv & Hback).
  exists (mk y m d). split; [| split; assumption].
  replace ((0 <? toordinal t + n) && (toordinal t + n <=? _MAXORDINAL))
    with true by (symmetry; apply andb_true_iff; split;
                  [apply Z.ltb_lt | apply Z.leb_le]; lia).
  unfold fromordinal. rewrite Hord. apply date_init_valid, Hv.
Qed.

Lemma Day_from_date_ok t :
  valid t = true ->
  Day.from_date t = Ok (Day.mk (year t) (month t) (day t)).
Proof.
  intros Hv. unfold Day.from_date, Day.init. destruct t as [y m d]; simpl.
  rewrite date_init_valid by exact Hv. reflexivity.
Qed.

End CalendarFacts.

(** ** Events *)

Section EventFacts.

(** C7: events on different days never conflict, whatever their time
    ranges; events on the same day whose time ranges overlap conflict;
    and [a.conflicts_with(b)] equals [b.conflicts_with(a)]. *)
Theorem conflicts_with_same_day_overlap (a b : Attrs.Event.t) :
  (Attrs.Event.day a <> Attrs.Event.day b ->
   Event.conflicts_with a b = false) /\
  (Attrs.Event.day a = Attrs.Event.day b ->
   TimeRange.overlaps_with (Attrs.Event.time_range a)
                           (Attrs.Event.time_range b) = true ->
   Event.conflicts_with a b = true) /\
  Event.conflicts_with a b = Event.conflicts_with b a.
Proof.
  split; [apply conflicts_with_other_day |]. split.
  - intros Hday Hov. rewrite conflicts_with_same_day by exact Hday. exact Hov.
  - destruct (decide (Attrs.Event.day a = Attrs.Event.day b)) as [Hday | Hday].
    + rewrite (conflicts_with_same_day a b) by exact Hday.
      rewrite (conflicts_with_same_day b a) by (symmetry; exact Hday).
      apply overlaps_with_sym.
    + rewrite (conflicts_with_other_day a b) by exact Hday.
      rewrite (conflicts_with_other_day b a) by congruence. reflexivity.
Qed.

Ltac run_heap :=
  unfold mbind, mret, M_bind, M_ret, lift, alloc, read_list, read_instance,
    list_copy in *.

Lemma lookup_snoc (h : heap) (o : object) : (h ++ [o]) !! length h = Some o.
Proof. apply list_lookup_middle. reflexivity. Qed.

Lemma lookup_snoc_old (h : heap) (o o' : object) (l : loc) :
  h !! l = Some o -> (h ++ [o']) !! l = Some o.
Proof. intros H. apply lookup_app_l_Some, H. Qed.

(** The priority that [Appointment.__init__] inherits from
    [Event.__init__] when none is passed is MEDIUM. *)
Lemma appointment_default_priority title day time_range location attendees
    reminder_minutes description tags notes h :
  exists self appointment h',
    Appointment.init title day time_range location attendees
      reminder_minutes (Event.mk_kwargs description None tags notes) h
    = Ok ((self, appointment), h') /\
    Attrs.Event.priority self = MEDIUM.
Proof.
  unfold Appointment.init, Event.init. run_heap. simpl.
  destruct tags, attendees; simpl; do 3 eexists; split; reflexivity.
Qed.

(** C9: a [DoctorAppointment] built without a [priority] argument has
    priority HIGH, not the inherited default MEDIUM; built with
    [priority=p] it has priority [p]. *)
Theorem doctor_appointment_priority
    (title : string) (day : Day.t) (time_range : TimeRange.t)
    (doctor_name specialty : option string)
    (insurance_required : option bool) (medical_notes : option string)
    (kw : DoctorAppointment.kwargs) (h : heap) :
  exists appointment_loc appointment h',
    DoctorAppointment.new title day time_range doctor_name specialty
      insurance_required medical_notes kw h
    = Ok (appointment_loc, h') /\
    h !! appointment_loc = None /\
    h' !! appointment_loc = Some (OInstance appointment) /\
    Attrs.Event.priority appointment
    = match DoctorAppointment.priority kw with
      | None => HIGH
      | Some p => p
      end.
Proof.
  unfold DoctorAppointment.new, DoctorAppointment.init, Appointment.init,
    Event.init.
  run_heap. destruct kw as [location attendees reminder description
                             priority tags notes]; simpl.
  destruct tags, attendees, priority; simpl; do 3 eexists;
    (split; [reflexivity |]);
    (split; [apply lookup_ge_None_2; rewrite ?length_app; simpl; lia |]);
    (split; [apply lookup_snoc | reflexivity]).
Qed.

(** C8, for a chore whose next day exists in the calendar (years 1 to
    9999): [get_next_occurrence] on a recurring chore stores a new chore
    whose day is [recurrence_days] days after the chore's day; title,
    time range, description, priority, notes, category and recurrence
    settings and effort are those of the chore; its tag list is a new
    list with the same items; and every object that existed before, the
    chore and its tag list among them, is as it was. *)
Theorem get_next_occurrence_recurring
    (h : heap) (self : loc) (this : instance) (c : Attrs.Chore.t)
    (items : list string) :
  h !! self = Some (OInstance this) ->
  cls this = IsChore c ->
  Attrs.Chore.is_recurring c = true ->
  Day.valid (Attrs.Event.day this) = true ->
  h !! Attrs.Event.tags this = Some (OList items) ->
  0 < datetime_date.toordinal (Day.date (Attrs.Event.day this))
      + Attrs.Chore.recurrence_days c <= datetime_date._MAXORDINAL ->
  exists next that h',
    Chore.get_next_occurrence self h = Ok (Some next, h') /\
    h !! next = None /\
    h' !! next = Some (OInstance that) /\
    (forall l o, h !! l = Some o -> h' !! l = Some o) /\
    Day.valid (Attrs.Event.day that) = true /\
    datetime_date.add (Day.date (Attrs.Event.day this))
                      (Attrs.Chore.recurrence_days c)
    = Ok (Day.date (Attrs.Event.day that)) /\
    datetime_date.toordinal (Day.date (Attrs.Event.day that))
    = datetime_date.toordinal (Day.date (Attrs.Event.day this))
      + Attrs.Chore.recurrence_days c /\
    Attrs.Event.title that = Attrs.Event.title this /\
    Attrs.Event.time_range that = Attrs.Event.time_range this /\
    Attrs.Event.description that = Attrs.Event.description this /\
    Attrs.Event.priority that = Attrs.Event.priority this /\
    Attrs.Event.notes that = Attrs.Event.notes this /\
    cls that = IsChore c /\
    Attrs.Event.tags that <> Attrs.Event.tags this /\
    h !! Attrs.Event.tags that = None /\
    h' !! Attrs.Event.tags that = Some (OList items).
Proof.
  intros Hself Hcls Hrec Hday Htags Hrange.
  pose proof (toordinal_bounds _ Hday) as Hord.
  destruct (date_add_ok _ _ Hday Hrange) as (next_date & Hadd & Hv & Hnext).
  unfold datetime_date._MAXORDINAL in Hrange.
  unfold Chore.get_next_occurrence. run_heap.
  rewrite Hself, Hcls, Hrec. change (negb true) with false. cbv iota.
  unfold datetime_date.timedelta.
  replace (999999999 <? Z.abs (Attrs.Chore.recurrence_days c)) with false
    by (symmetry; apply Z.ltb_ge; lia).
  rewrite Hadd, (Day_from_date_ok _ Hv).
  change (negb true) with false. cbv beta iota. run_heap. cbv beta.
  rewrite Htags.
  unfold Chore.new, Chore.init, Event.init. run_heap. simpl.
  destruct c as [category recurring days effort]. simpl in *.
  do 3 eexists. split; [reflexivity |].
  split; [apply lookup_ge_None_2; rewrite length_app; simpl; lia |].
  split; [apply lookup_snoc |].
  split; [intros l o Hl; do 2 apply lookup_snoc_old; exact Hl |].
  simpl. split; [destruct next_date; exact Hv |].
  split; [destruct next_date; reflexivity |].
  split; [destruct next_date; exact Hnext |].
  do 5 (split; [reflexivity |]).
  split; [subst recurring; reflexivity |].
  split; [| split].
  - apply lookup_lt_Some in Htags. lia.
  - apply lookup_ge_None_2. lia.
  - apply lookup_snoc_old, lookup_snoc.
Qed.

End EventFacts.

(** ** The properties on the sample objects *)

(** Ranges that touch at 10:00 do not overlap. *)
Lemma overlaps_with_strict_witness :
  TimeRange.overlaps_with
    (Sample.range (Sample.at_ 9 0) (Sample.at_ 10 0))
    (Sample.range (Sample.at_ 10 0) (Sample.at_ 11 0)) = false.
Proof.
  apply (proj2 (overlaps_with_strict _ _)). left. reflexivity.
Defined.

(** The ranges 09:00-10:30 and 10:00-11:00 overlap, for thirty minutes. *)
Example overlap_of_thirty_minutes :
  let A := Sample.range (Sample.at_ 9 0) (Sample.at_ 10 30) in
  let B := Sample.range (Sample.at_ 10 0) (Sample.at_ 11 0) in
  TimeRange.overlaps_with A B = true /\ TimeRange.get_overlap_duration A B = 30.
Proof. split; reflexivity. Qed.

(** Twenty minutes after 23:50:15 it is 00:10:15. *)
Lemma add_minutes_keeps_seconds_witness :
  Time.add_minutes (Time.mk 23 50 15) 20 = Ok (Time.mk 0 10 15).
Proof.
  exact (proj1 (add_minutes_keeps_seconds 23 50 15 (Time.mk 23 50 15) 20
                  eq_refl)).
Defined.

Example add_minutes_backwards :
  Time.add_minutes (Time.mk 0 10 0) (-20) = Ok (Time.mk 23 50 0).
Proof. reflexivity. Qed.

(** Monday is free in the sample schedule: one slot, although no slot of
    1000 minutes fits the window. *)
Lemma free_time_slots_empty_day_witness :
  exists s',
    Schedule.get_free_time_slots Sample.store Sample.monday 1000
      Sample.schedule
    = Ok ([TimeRange.mk (Time.mk 9 0 0) (Time.mk 21 0 0) 720], s') /\
    Schedule.events s' = Schedule.events Sample.schedule /\
    forall d', Schedule.bucket_of s' d' = Schedule.bucket_of Sample.schedule d'.
Proof.
  apply (free_time_slots_empty_day Sample.store Sample.calls None).
  - vm_compute. reflexivity.
  - vm_compute. reflexivity.
Defined.

(** Sunday in the sample schedule, with a minimum of sixty minutes. *)
Lemma free_time_slots_walk_witness :
  Schedule.get_free_time_slots Sample.store Sample.sunday 60 Sample.schedule
  = Ok ([TimeRange.mk (Time.mk 9 0 0) (Time.mk 10 0 0) 60;
         TimeRange.mk (Time.mk 11 0 0) (Time.mk 14 0 0) 180;
         TimeRange.mk (Time.mk 15 0 0) (Time.mk 21 0 0) 360],
        Sample.schedule).
Proof.
  refine (proj1 (proj2 (proj2
            (free_time_slots_walk Sample.store Sample.schedule
               Sample.schedule Sample.sunday 60 [1%nat; 0%nat]
               _ _ _ _ _)) 1%nat 0%nat eq_refl eq_refl eq_refl) eq_refl).
  - vm_compute. reflexivity.
  - discriminate.
  - vm_compute. reflexivity.
  - vm_compute. reflexivity.
  - lia.
Defined.

(** C4 as stated fails twice.  With a minimum of 200 minutes the events
    10:00-11:00 and 14:00-15:00 leave the slot 15:00-21:00, not
    11:00-14:00, which is only 180 minutes long.  And with a minimum of 0
    minutes an event that ends at 21:00:30 makes the final slot, whose
    length in minutes is 0, a range that ends before it starts, which
    [TimeRange.__init__] rejects. *)
Lemma free_time_slots_counterexample :
  (fst <$> Schedule.get_events_on_day Sample.store Sample.sunday
             Sample.schedule = Ok [1%nat; 0%nat] /\
   Schedule.range_of Sample.store 1%nat
   = TimeRange.mk (Time.mk 10 0 0) (Time.mk 11 0 0) 60 /\
   Schedule.range_of Sample.store 0%nat
   = TimeRange.mk (Time.mk 14 0 0) (Time.mk 15 0 0) 60 /\
   fst <$> Schedule.get_free_time_slots Sample.store Sample.sunday 200
             Sample.schedule
   = Ok [TimeRange.mk (Time.mk 15 0 0) (Time.mk 21 0 0) 360] /\
   fst <$> Schedule.get_free_time_slots Sample.store Sample.sunday 200
             Sample.schedule
   <> Ok [TimeRange.mk (Time.mk 11 0 0) (Time.mk 14 0 0) 180]) /\
  (fst <$> Schedule.get_events_on_day Sample.store Sample.tuesday
             Sample.schedule = Ok [4%nat] /\
   TimeRange.valid (Schedule.range_of Sample.store 4%nat) = true /\
   Schedule.get_free_time_slots Sample.store Sample.tuesday 0
     Sample.schedule = Raise ValueError).
Proof.
  repeat split; try (vm_compute; reflexivity).
  vm_compute. discriminate.
Qed.

(** An empty schedule has statistics. *)
Lemma get_statistics_empty_witness :
  exists stats,
    Schedule.get_statistics Sample.store Sample.sunday (Schedule.init None)
    = Ok (stats, Schedule.init None) /\
    stats !! "total_events"%string = Some (StatInt 0).
Proof.
  destruct (get_statistics_empty Sample.store Sample.sunday
              (Schedule.init None) eq_refl) as (stats & Hrun & Htotal & _).
  exists stats. split; assumption.
Defined.

(** Event 2 (10:30-11:30) is refused next to event 1 (10:00-11:00). *)
Lemma add_event_checks_conflicts_witness :
  Schedule.add_event Sample.store 2%nat true Sample.schedule
  = Ok (false, Sample.schedule).
Proof.
  apply (proj1 (add_event_checks_conflicts Sample.store Sample.calls None
                  Sample.schedule 2%nat ltac:(vm_compute; reflexivity))).
  exists 1%nat. split; [| split; [| split]].
  - apply (bool_decide_unpack _). vm_compute. exact I.
  - discriminate.
  - reflexivity.
  - reflexivity.
Defined.

(** C6 as stated fails when [e] is itself in the schedule: event 1 is
    registered, is on its own day and overlaps its own time range, and
    yet [add_event] with [check_conflicts=True] returns [True] and lists
    it a second time, because [get_conflicting_events] leaves the event
    itself out. *)
Lemma add_event_counterexample :
  1%nat ∈ Schedule.events Sample.schedule /\
  TimeRange.overlaps_with (Schedule.range_of Sample.store 1%nat)
                          (Schedule.range_of Sample.store 1%nat) = true /\
  fst <$> Schedule.add_event Sample.store 1%nat true Sample.schedule
  = Ok true /\
  (Schedule.events ∘ snd) <$>
    Schedule.add_event Sample.store 1%nat true Sample.schedule
  = Ok [0%nat; 1%nat; 4%nat; 1%nat].
Proof.
  split; [apply (bool_decide_unpack _); vm_compute; exact I |].
  repeat split; vm_compute; reflexivity.
Qed.

(** Events 1 and 2 of the sample store conflict. *)
Lemma conflicts_with_same_day_overlap_witness :
  Event.conflicts_with (Sample.store 1%nat) (Sample.store 2%nat) = true.
Proof.
  apply (proj1 (proj2 (conflicts_with_same_day_overlap _ _)));
    reflexivity.
Defined.

(** The same ranges on different days do not conflict. *)
Example no_conflict_across_days :
  Event.conflicts_with (Sample.store 1%nat) (Sample.store 3%nat) = false.
Proof. reflexivity. Qed.

(** The weekly chore of Sunday 26 October 2025 recurs on 2 November. *)
Lemma get_next_occurrence_recurring_witness :
  exists next that h',
    Chore.get_next_occurrence 1%nat Sample.heap_sunday
    = Ok (Some next, h') /\
    h' !! next = Some (OInstance that) /\
    datetime_date.toordinal (Day.date (Attrs.Event.day that))
    = datetime_date.toordinal (Day.date Sample.sunday) + 7.
Proof.
  destruct (get_next_occurrence_recurring Sample.heap_sunday 1%nat
              (Sample.chore Sample.sunday
                 (Sample.range (Sample.at_ 10 0) (Sample.at_ 11 0)))
              (Attrs.Chore.mk "General" true 7 "Medium") ["weekly"%string]
              eq_refl eq_refl eq_refl eq_refl eq_refl
              ltac:(vm_compute; split; [reflexivity | discriminate]))
    as (next & that & h' & Hrun & _ & Hnext & _ & _ & _ & Hday & _).
  exists next, that, h'. repeat split; assumption.
Defined.

Example next_occurrence_of_sunday :
  (fst <$> Chore.get_next_occurrence 1%nat Sample.heap_sunday)
  = Ok (Some 3%nat) /\
  (h ← snd <$> Chore.get_next_occurrence 1%nat Sample.heap_sunday;
   Ok (h !! 3%nat))
  = Ok (Some (OInstance
                (mk_instance
                   (Attrs.Event.mk "Laundry" (Day.mk 2025 11 2)
                      (Sample.range (Sample.at_ 10 0) (Sample.at_ 11 0))
                      EmptyString MEDIUM SCHEDULED 2%nat EmptyString)
                   (IsChore (Attrs.Chore.mk "General" true 7 "Medium"))))).
Proof. split; reflexivity. Qed.

(** C8 as stated fails at the end of the calendar: a weekly chore on 31
    December 9999 is a recurring chore on a valid day, and
    [get_next_occurrence] raises [OverflowError] instead of returning a
    chore, because [date + timedelta] has no date to return. *)
Lemma get_next_occurrence_counterexample :
  Sample.heap_last_day !! 1%nat
  = Some (OInstance (Sample.chore Sample.last_day
                       (Sample.range (Sample.at_ 10 0) (Sample.at_ 11 0)))) /\
  Day.init 9999 12 31 = Ok Sample.last_day /\
  Chore.get_next_occurrence 1%nat Sample.heap_last_day = Raise OverflowError.
Proof. repeat split. Qed.

(** * Further properties *)

(** ** Times and time ranges *)

Section MoreTimeFacts.

Ltac to_prop :=
  repeat match goal with
  | H : _ = false |- _ => apply not_true_iff_false in H
  | |- _ = false => apply not_true_iff_false
  end;
  rewrite ?orb_true_iff, ?andb_true_iff, ?Z.ltb_lt, ?Z.eqb_eq, ?Z.leb_le in *.

Lemma Time_valid_bounds t :
  Time.valid t = true <->
  0 <= Time.hour t <= 23 /\ 0 <= Time.minute t <= 59 /\
  0 <= Time.second t <= 59.
Proof.
  unfold Time.valid. rewrite !andb_true_iff, !Z.leb_le. lia.
Qed.

Lemma Time_to_minutes_bounds t :
  Time.valid t = true -> 0 <= Time.to_minutes t < 1440.
Proof.
  intros H. apply Time_valid_bounds in H. unfold Time.to_minutes. lia.
Qed.

(** The time [add_minutes] returns. *)
Lemma add_minutes_run t d :
  Time.valid t = true ->
  let total := (Time.to_minutes t + d) mod 1440 in
  Time.add_minutes t d = Ok (Time.mk (total / 60) (total mod 60) (Time.second t))
  /\ Time.valid (Time.mk (total / 60) (total mod 60) (Time.second t)) = true
  /\ Time.to_minutes (Time.mk (total / 60) (total mod 60) (Time.second t))
     = total.
Proof.
  intros Hv total. apply Time_valid_bounds in Hv.
  assert (Hrange : 0 <= total < 1440) by (apply Z.mod_pos_bound; lia).
  pose proof (Z.mod_pos_bound total 60 ltac:(lia)) as Hmin.
  assert (0 <= total / 60) by (apply Z.div_pos; lia).
  assert (total / 60 < 24) by (apply Z.div_lt_upper_bound; lia).
  split; [| split].
  - unfold Time.add_minutes. change (24 * 60) with 1440. fold total.
    apply Time_init_Ok. split; [lia | reflexivity].
  - apply Time_valid_bounds. simpl. lia.
  - unfold Time.to_minutes; simpl.
    pose proof (Z.div_mod total 60 ltac:(lia)). lia.
Qed.

Lemma Time_of_minutes t :
  Time.valid t = true ->
  Time.mk (Time.to_minutes t / 60) (Time.to_minutes t mod 60) (Time.second t)
  = t.
Proof.
  intros Hv. apply Time_valid_bounds in Hv. destruct t as [h m s].
  unfold Time.to_minutes; simpl in *. f_equal.
  - symmetry. apply (Z.div_unique _ 60 h m); lia.
  - symmetry. apply (Z.mod_unique _ 60 h m); lia.
Qed.

(** X1: adding [a] minutes and then [b] minutes is adding [a + b]
    minutes, wrap-around included; so adding [-a] minutes undoes adding
    [a] minutes, and a whole number of days changes nothing. *)
Theorem add_minutes_compose (t : Time.t) (a b : Z) :
  Time.valid t = true ->
  exists t1,
    Time.add_minutes t a = Ok t1 /\
    Time.valid t1 = true /\
    Time.add_minutes t1 b = Time.add_minutes t (a + b) /\
    Time.add_minutes t1 (- a) = Ok t /\
    Time.add_minutes t (1440 * b) = Ok t.
Proof.
  intros Hv.
  destruct (add_minutes_run t a Hv) as (Hrun & Hv1 & Hmin).
  eexists. split; [exact Hrun |]. split; [exact Hv1 |].
  pose proof (Time_to_minutes_bounds t Hv) as Hb.
  split; [| split].
  - destruct (add_minutes_run _ b Hv1) as [-> _].
    destruct (add_minutes_run t (a + b) Hv) as [-> _].
    rewrite Hmin. simpl Time.second.
    rewrite Zplus_mod_idemp_l, Z.add_assoc. reflexivity.
  - destruct (add_minutes_run _ (- a) Hv1) as [-> _].
    rewrite Hmin. simpl Time.second. rewrite Zplus_mod_idemp_l.
    replace (Time.to_minutes t + a + - a) with (Time.to_minutes t) by lia.
    rewrite Z.mod_small by lia. f_equal. apply Time_of_minutes, Hv.
  - destruct (add_minutes_run t (1440 * b) Hv) as [-> _].
    replace (Time.to_minutes t + 1440 * b)
      with (Time.to_minutes t + b * 1440) by lia.
    rewrite Z_mod_plus_full, Z.mod_small by lia.
    f_equal. apply Time_of_minutes, Hv.
Qed.

(** X2: the difference between a time and the time [d] minutes later is
    [d] up to whole days, and exactly [d] when no midnight lies between
    them. *)
Theorem difference_after_add_minutes (t : Time.t) (d : Z) :
  Time.valid t = true ->
  exists t',
    Time.add_minutes t d = Ok t' /\
    (Time.difference_in_minutes t' t - d) mod 1440 = 0 /\
    -1440 < Time.difference_in_minutes t' t < 1440 /\
    (0 <= Time.to_minutes t + d < 1440 ->
     Time.difference_in_minutes t' t = d).
Proof.
  intros Hv.
  destruct (add_minutes_run t d Hv) as (Hrun & Hv1 & Hmin).
  pose proof (Time_to_minutes_bounds t Hv) as Hb.
  pose proof (Time_to_minutes_bounds _ Hv1) as Hb1.
  eexists. split; [exact Hrun |].
  unfold Time.difference_in_minutes. rewrite Hmin in *.
  split; [| split; [lia |]].
  - pose proof (Z.div_mod (Time.to_minutes t + d) 1440 ltac:(lia)) as Hdm.
    replace ((Time.to_minutes t + d) mod 1440 - Time.to_minutes t - d)
      with (0 + - ((Time.to_minutes t + d) / 1440) * 1440) by lia.
    rewrite Z_mod_plus_full. reflexivity.
  - intros Hsmall. rewrite Z.mod_small by lia. lia.
Qed.

(** X3: in the 12-hour format the hour lies between 1 and 12, the minute
    is kept, midnight and noon read 12, the period is AM before noon and
    PM from noon on, and the 24-hour hour can be computed back. *)
Theorem to_12_hour_format_range (t : Time.t) :
  Time.valid t = true ->
  exists h p,
    Time.to_12_hour_format t = (h, Time.minute t, p) /\
    1 <= h <= 12 /\
    (p = "AM"%string /\ Time.hour t < 12 \/
     p = "PM"%string /\ 12 <= Time.hour t) /\
    Time.hour t = h mod 12 + (if decide (p = "PM"%string) then 12 else 0).
Proof.
  intros Hv. apply Time_valid_bounds in Hv. unfold Time.to_12_hour_format.
  destruct (Z.eqb_spec (Time.hour t) 0) as [H0 | H0].
  { do 2 eexists. split; [reflexivity |]. rewrite H0. simpl.
    split; [lia |]. split; [left; split; [reflexivity | lia] | reflexivity]. }
  destruct (Z.ltb_spec (Time.hour t) 12) as [Hlt | Hge].
  { do 2 eexists. split; [reflexivity |]. split; [lia |].
    split; [left; split; [reflexivity | lia] |].
    simpl. rewrite Z.mod_small by lia. lia. }
  destruct (Z.eqb_spec (Time.hour t) 12) as [H12 | H12].
  { do 2 eexists. split; [reflexivity |]. rewrite H12. simpl.
    split; [lia |]. split; [right; split; [reflexivity | lia] | reflexivity]. }
  do 2 eexists. split; [reflexivity |]. split; [lia |].
  split; [right; split; [reflexivity | lia] |].
  simpl. rewrite Z.mod_small by lia. lia.
Qed.

(** For valid times the wall-clock order refines the order of the minutes
    since midnight. *)
Lemma is_before_minutes a b :
  Time.valid a = true -> Time.valid b = true ->
  (Time.to_minutes a < Time.to_minutes b -> Time.is_before a b = true) /\
  (Time.is_before a b = true -> Time.to_minutes a <= Time.to_minutes b).
Proof.
  intros Ha Hb. apply Time_valid_bounds in Ha, Hb.
  destruct a as [h1 m1 s1], b as [h2 m2 s2].
  unfold Time.is_before, Time._time, Time.to_minutes, datetime_time.lt.
  simpl in *. split; intros H; to_prop; lia.
Qed.

Lemma TimeRange_valid_init r :
  TimeRange.valid r = true ->
  Time.valid (TimeRange.start_time r) = true /\
  Time.valid (TimeRange.end_time r) = true /\
  Time.is_before (TimeRange.end_time r) (TimeRange.start_time r) = false /\
  TimeRange.duration_minutes r
  = Time.to_minutes (TimeRange.end_time r)
    - Time.to_minutes (TimeRange.start_time r) /\
  0 <= TimeRange.duration_minutes r.
Proof.
  unfold TimeRange.valid. rewrite !andb_true_iff, negb_true_iff, Z.eqb_eq.
  intros [[[Hs He] Hnb] Hd]. repeat split; try assumption.
  rewrite Hd. unfold Time.difference_in_minutes.
  destruct (is_before_minutes _ _ He Hs) as [Hlt _].
  destruct (Z.lt_ge_cases (Time.to_minutes (TimeRange.end_time r))
              (Time.to_minutes (TimeRange.start_time r))) as [Hc | Hc];
    [| lia].
  rewrite (Hlt Hc) in Hnb. discriminate.
Qed.

(** X4: from two valid times the constructor of [TimeRange] either
    raises [ValueError], exactly when the end is before the start on the
    clock, or returns the range between them, whose duration is the
    difference of the minutes and never negative; equal times give a
    range of duration zero. *)
Theorem TimeRange_init_cases (start stop : Time.t) :
  Time.valid start = true -> Time.valid stop = true ->
  (Time.is_before stop start = true /\
   TimeRange.init start stop = Raise ValueError) \/
  (Time.is_before stop start = false /\
   exists r,
     TimeRange.init start stop = Ok r /\
     TimeRange.start_time r = start /\ TimeRange.end_time r = stop /\
     TimeRange.duration_minutes r
     = Time.to_minutes stop - Time.to_minutes start /\
     0 <= TimeRange.duration_minutes r /\
     TimeRange.valid r = true /\
     (start = stop -> TimeRange.duration_minutes r = 0)).
Proof.
  intros Hs He. unfold TimeRange.init.
  destruct (Time.is_before stop start) eqn:Hb; [left; auto | right].
  split; [reflexivity |]. eexists. split; [reflexivity |]. simpl.
  assert (Hvalid : TimeRange.valid
            (TimeRange.mk start stop
               (Time.difference_in_minutes stop start)) = true).
  { unfold TimeRange.valid; simpl. rewrite Hs, He, Hb, Z.eqb_refl.
    reflexivity. }
  destruct (TimeRange_valid_init _ Hvalid) as (_ & _ & _ & _ & Hnonneg).
  simpl in Hnonneg. repeat split; try assumption; try reflexivity.
  intros ->. unfold Time.difference_in_minutes. lia.
Qed.

(** X5: [from_duration] succeeds exactly when the end, computed with
    wrap-around at midnight, is not earlier in the day than the start;
    the range then lasts [duration mod 1440] minutes, which is the
    requested duration when that is not negative and ends before
    midnight.  A duration that crosses midnight raises [ValueError]. *)
Theorem from_duration_cases (start : Time.t) (duration : Z) :
  Time.valid start = true ->
  let wrapped := (Time.to_minutes start + duration) mod 1440 in
  (wrapped < Time.to_minutes start ->
   TimeRange.from_duration start duration = Raise ValueError) /\
  (Time.to_minutes start <= wrapped ->
   exists r,
     TimeRange.from_duration start duration = Ok r /\
     TimeRange.start_time r = start /\
     TimeRange.valid r = true /\
     TimeRange.duration_minutes r = wrapped - Time.to_minutes start /\
     TimeRange.duration_minutes r = duration mod 1440) /\
  (0 <= duration -> Time.to_minutes start + duration < 1440 ->
   exists r,
     TimeRange.from_duration start duration = Ok r /\
     TimeRange.duration_minutes r = duration).
Proof.
  intros Hv wrapped.
  destruct (add_minutes_run start duration Hv) as (Hrun & Hv1 & Hmin).
  fold wrapped in Hrun, Hv1, Hmin.
  set (stop := Time.mk (wrapped / 60) (wrapped mod 60) (Time.second start))
    in *.
  pose proof (Time_to_minutes_bounds start Hv) as Hb.
  assert (Hw : 0 <= wrapped < 1440) by (apply Z.mod_pos_bound; lia).
  assert (Hcmp : Time.is_before stop start
                 = (wrapped <? Time.to_minutes start)).
  { destruct (is_before_minutes stop start Hv1 Hv) as [Hlt Hle].
    destruct (Z.ltb_spec wrapped (Time.to_minutes start)) as [Hc | Hc].
    - apply Hlt. lia.
    - destruct (Z.eq_dec wrapped (Time.to_minutes start)) as [Heq | Hne].
      + assert (stop = start) as ->; [| apply datetime_time_lt_irrefl].
        subst stop. rewrite Heq. apply Time_of_minutes, Hv.
      + destruct (Time.is_before stop start) eqn:Hbefore; [| reflexivity].
        specialize (Hle eq_refl). lia. }
  assert (Hok : Time.to_minutes start <= wrapped ->
     exists r,
       TimeRange.from_duration start duration = Ok r /\
       TimeRange.start_time r = start /\
       TimeRange.valid r = true /\
       TimeRange.duration_minutes r = wrapped - Time.to_minutes start).
  { intros Hle. unfold TimeRange.from_duration, mbind, result_bind.
    rewrite Hrun. unfold TimeRange.init. rewrite Hcmp.
    replace (wrapped <? Time.to_minutes start) with false
      by (symmetry; apply Z.ltb_ge; lia).
    eexists. split; [reflexivity |]. split; [reflexivity |]. split.
    - unfold TimeRange.valid; simpl. rewrite Hv, Hv1, Hcmp, Z.eqb_refl.
      replace (wrapped <? Time.to_minutes start) with false
        by (symmetry; apply Z.ltb_ge; lia). reflexivity.
    - simpl. unfold Time.difference_in_minutes. rewrite Hmin. reflexivity. }
  split; [| split].
  - intros Hlt. unfold TimeRange.from_duration, mbind, result_bind.
    rewrite Hrun. unfold TimeRange.init. rewrite Hcmp.
    replace (wrapped <? Time.to_minutes start) with true
      by (symmetry; apply Z.ltb_lt; lia). reflexivity.
  - intros Hle. destruct (Hok Hle) as (r & Hr & Hstart & Hvalid & Hdur).
    exists r. repeat split; try assumption. rewrite Hdur.
    apply (Z.mod_unique duration 1440
      ((Time.to_minutes start + duration) / 1440)); [lia |].
    pose proof (Z.div_mod (Time.to_minutes start + duration) 1440
                  ltac:(lia)) as Hdm. fold wrapped in Hdm. lia.
  - intros Hd Hsmall.
    assert (Hwrapped : wrapped = Time.to_minutes start + duration)
      by (apply Z.mod_small; lia).
    destruct (Hok ltac:(lia)) as (r & Hr & _ & _ & Hdur).
    exists r. split; [exact Hr | lia].
Qed.

(** X6: [contains_time] is inclusive at both ends: it holds exactly of
    the times that are neither before the start nor after the end, the
    start and the end of a valid range among them. *)
Theorem contains_time_inclusive (r : TimeRange.t) (t : Time.t) :
  (TimeRange.contains_time r t = true <->
   Time.is_before t (TimeRange.start_time r) = false /\
   Time.is_after t (TimeRange.end_time r) = false) /\
  (TimeRange.valid r = true ->
   TimeRange.contains_time r (TimeRange.start_time r) = true /\
   TimeRange.contains_time r (TimeRange.end_time r) = true).
Proof.
  assert (Hiff : forall r t,
    TimeRange.contains_time r t = true <->
    Time.is_before t (TimeRange.start_time r) = false /\
    Time.is_after t (TimeRange.end_time r) = false).
  { clear. intros r t.
    unfold TimeRange.contains_time, Time.is_before, Time.is_after, Time.eqb.
    rewrite (datetime_time_trichotomy (Time._time (TimeRange.start_time r))
               (Time._time t)).
    rewrite (datetime_time_trichotomy (Time._time t)
               (Time._time (TimeRange.end_time r))).
    assert (Hsym : datetime_time.eqb (Time._time (TimeRange.end_time r))
                                     (Time._time t)
                   = datetime_time.eqb (Time._time t)
                                       (Time._time (TimeRange.end_time r))).
    { destruct (Time._time (TimeRange.end_time r)) as [[h1 m1] s1],
        (Time._time t) as [[h2 m2] s2]; simpl.
      rewrite (Z.eqb_sym h1), (Z.eqb_sym m1), (Z.eqb_sym s1). reflexivity. }
    rewrite Hsym. clear Hsym.
    generalize (datetime_time.lt (Time._time (TimeRange.start_time r))
                  (Time._time t)),
      (datetime_time.eqb (Time._time (TimeRange.start_time r))
         (Time._time t)),
      (datetime_time.lt (Time._time t) (Time._time (TimeRange.end_time r))),
      (datetime_time.eqb (Time._time t) (Time._time (TimeRange.end_time r))).
    intros [] [] [] []; simpl; intuition congruence. }
  split; [apply Hiff |]. intros Hv.
  destruct (TimeRange_valid_init r Hv) as (_ & _ & Hnb & _).
  split; apply Hiff; split.
  - apply datetime_time_lt_irrefl.
  - exact Hnb.
  - exact Hnb.
  - apply datetime_time_lt_irrefl.
Qed.

Lemma minutes_mono a b :
  Time.valid a = true -> Time.valid b = true ->
  Time.is_before b a = false -> Time.to_minutes a <= Time.to_minutes b.
Proof.
  intros Ha Hb Hnb. destruct (is_before_minutes b a Hb Ha) as [Hlt _].
  destruct (Z.lt_ge_cases (Time.to_minutes b) (Time.to_minutes a)); [| lia].
  rewrite Hlt in Hnb by assumption. discriminate.
Qed.

Lemma is_before_asym a b :
  Time.is_before a b = true -> Time.is_before b a = false.
Proof. apply datetime_time_lt_asym. Qed.

(** Of two times the later one, as [get_overlap_duration] picks it, and
    the earlier one. *)
Lemma later_sym a b :
  (if Time.is_after a b then a else b) = (if Time.is_after b a then b else a).
Proof.
  unfold Time.is_after.
  destruct (datetime_time.lt (Time._time b) (Time._time a)) eqn:Hba.
  - rewrite (datetime_time_lt_asym _ _ Hba). reflexivity.
  - destruct (datetime_time.lt (Time._time a) (Time._time b)) eqn:Hab;
      [reflexivity |].
    pose proof (datetime_time_trichotomy (Time._time a) (Time._time b)) as Ht.
    rewrite Hba, Hab, orb_false_l in Ht. symmetry in Ht.
    apply negb_false_iff, datetime_time_eqb_eq in Ht.
    destruct a, b. unfold Time._time in Ht. simpl in Ht. congruence.
Qed.

Lemma earlier_sym a b :
  (if Time.is_before a b then a else b)
  = (if Time.is_before b a then b else a).
Proof.
  unfold Time.is_before.
  destruct (datetime_time.lt (Time._time a) (Time._time b)) eqn:Hab.
  - rewrite (datetime_time_lt_asym _ _ Hab). reflexivity.
  - destruct (datetime_time.lt (Time._time b) (Time._time a)) eqn:Hba;
      [reflexivity |].
    pose proof (datetime_time_trichotomy (Time._time a) (Time._time b)) as Ht.
    rewrite Hba, Hab, orb_false_l in Ht. symmetry in Ht.
    apply negb_false_iff, datetime_time_eqb_eq in Ht.
    destruct a, b. unfold Time._time in Ht. simpl in Ht. congruence.
Qed.

Lemma overlaps_with_true A B :
  TimeRange.overlaps_with A B = true ->
  Time.is_before (TimeRange.start_time B) (TimeRange.end_time A) = true /\
  Time.is_before (TimeRange.start_time A) (TimeRange.end_time B) = true.
Proof.
  unfold TimeRange.overlaps_with.
  change (Time.is_before (TimeRange.start_time B) (TimeRange.end_time A))
    with (Time.is_after (TimeRange.end_time A) (TimeRange.start_time B)).
  change (Time.is_before (TimeRange.start_time A) (TimeRange.end_time B))
    with (Time.is_after (TimeRange.end_time B) (TimeRange.start_time A)).
  rewrite !Time_is_after_spec.
  destruct (_ || _); [discriminate |]. destruct (_ || _); [discriminate |].
  auto.
Qed.

(** X7: the overlap of two ranges is the same from either side, is zero
    when they do not overlap, and for valid ranges lies between zero and
    the duration of the shorter of the two. *)
Theorem get_overlap_duration_bounds (A B : TimeRange.t) :
  TimeRange.valid A = true -> TimeRange.valid B = true ->
  TimeRange.get_overlap_duration A B = TimeRange.get_overlap_duration B A /\
  (TimeRange.overlaps_with A B = false ->
   TimeRange.get_overlap_duration A B = 0) /\
  0 <= TimeRange.get_overlap_duration A B
    <= Z.min (TimeRange.duration_minutes A) (TimeRange.duration_minutes B).
Proof.
  intros HA HB.
  destruct (TimeRange_valid_init A HA) as (HsA & HeA & HnbA & HdA & HposA).
  destruct (TimeRange_valid_init B HB) as (HsB & HeB & HnbB & HdB & HposB).
  split; [| split].
  - unfold TimeRange.get_overlap_duration.
    rewrite (overlaps_with_sym B A), (later_sym (TimeRange.start_time B)),
      (earlier_sym (TimeRange.end_time B)). reflexivity.
  - intros Hno. unfold TimeRange.get_overlap_duration. rewrite Hno.
    reflexivity.
  - unfold TimeRange.get_overlap_duration.
    destruct (TimeRange.overlaps_with A B) eqn:Hov; simpl; [| lia].
    apply overlaps_with_true in Hov as [HsBeA HsAeB].
    unfold Time.difference_in_minutes.
    pose proof (minutes_mono _ _ HsA HeA HnbA) as M1.
    pose proof (minutes_mono _ _ HsB HeB HnbB) as M2.
    pose proof (minutes_mono _ _ HsB HeA (is_before_asym _ _ HsBeA)) as M3.
    pose proof (minutes_mono _ _ HsA HeB (is_before_asym _ _ HsAeB)) as M4.
    assert (M5 : Time.is_before (TimeRange.end_time A) (TimeRange.end_time B)
                 = true ->
                 Time.to_minutes (TimeRange.end_time A)
                 <= Time.to_minutes (TimeRange.end_time B)).
    { intros H. apply minutes_mono; auto using is_before_asym. }
    assert (M6 : Time.is_before (TimeRange.end_time A) (TimeRange.end_time B)
                 = false ->
                 Time.to_minutes (TimeRange.end_time B)
                 <= Time.to_minutes (TimeRange.end_time A)).
    { intros H. apply minutes_mono; auto. }
    assert (M7 : Time.is_after (TimeRange.start_time A)
                   (TimeRange.start_time B) = true ->
                 Time.to_minutes (TimeRange.start_time B)
                 <= Time.to_minutes (TimeRange.start_time A)).
    { intros H. apply minutes_mono; auto using is_before_asym. }
    assert (M8 : Time.is_after (TimeRange.start_time A)
                   (TimeRange.start_time B) = false ->
                 Time.to_minutes (TimeRange.start_time A)
                 <= Time.to_minutes (TimeRange.start_time B)).
    { intros H. apply minutes_mono; auto. }
    destruct (Time.is_after (TimeRange.start_time A) (TimeRange.start_time B));
      destruct (Time.is_before (TimeRange.end_time A) (TimeRange.end_time B));
      specialize (M5 ltac:(try reflexivity)) || clear M5;
      specialize (M6 ltac:(try reflexivity)) || clear M6;
      specialize (M7 ltac:(try reflexivity)) || clear M7;
      specialize (M8 ltac:(try reflexivity)) || clear M8; lia.
Qed.

End MoreTimeFacts.

(** ** Days, weeks, months and years *)

Section OrdinalFacts.

Import datetime_date.

Lemma div_succ_4 y : (y + 1 - 1) / 4 = (y - 1) / 4 + (if y mod 4 =? 0 then 1 else 0).
Proof.
  pose proof (Z.div_mod y 4 ltac:(lia)).
  pose proof (Z.mod_pos_bound y 4 ltac:(lia)).
  pose proof (Z.div_mod (y - 1) 4 ltac:(lia)).
  pose proof (Z.mod_pos_bound (y - 1) 4 ltac:(lia)).
  replace (y + 1 - 1) with y by lia.
  destruct (Z.eqb_spec (y mod 4) 0); lia.
Qed.

Lemma div_succ_100 y :
  (y + 1 - 1) / 100 = (y - 1) / 100 + (if y mod 100 =? 0 then 1 else 0).
Proof.
  pose proof (Z.div_mod y 100 ltac:(lia)).
  pose proof (Z.mod_pos_bound y 100 ltac:(lia)).
  pose proof (Z.div_mod (y - 1) 100 ltac:(lia)).
  pose proof (Z.mod_pos_bound (y - 1) 100 ltac:(lia)).
  replace (y + 1 - 1) with y by lia.
  destruct (Z.eqb_spec (y mod 100) 0); lia.
Qed.

Lemma div_succ_400 y :
  (y + 1 - 1) / 400 = (y - 1) / 400 + (if y mod 400 =? 0 then 1 else 0).
Proof.
  pose proof (Z.div_mod y 400 ltac:(lia)).
  pose proof (Z.mod_pos_bound y 400 ltac:(lia)).
  pose proof (Z.div_mod (y - 1) 400 ltac:(lia)).
  pose proof (Z.mod_pos_bound (y - 1) 400 ltac:(lia)).
  replace (y + 1 - 1) with y by lia.
  destruct (Z.eqb_spec (y mod 400) 0); lia.
Qed.

(** A year has 365 days, and one more when it is a leap year. *)
Lemma days_before_year_succ y :
  _days_before_year (y + 1)
  = _days_before_year y + 365 + (if _is_leap y then 1 else 0).
Proof.
  unfold _days_before_year, _is_leap.
  rewrite div_succ_4, div_succ_100, div_succ_400.
  pose proof (Z.div_mod y 4 ltac:(lia)).
  pose proof (Z.mod_pos_bound y 4 ltac:(lia)).
  pose proof (Z.div_mod y 100 ltac:(lia)).
  pose proof (Z.mod_pos_bound y 100 ltac:(lia)).
  pose proof (Z.div_mod y 400 ltac:(lia)).
  pose proof (Z.mod_pos_bound y 400 ltac:(lia)).
  destruct (Z.eqb_spec (y mod 4) 0), (Z.eqb_spec (y mod 100) 0),
    (Z.eqb_spec (y mod 400) 0); simpl; lia.
Qed.

Lemma days_before_year_mono y y' :
  y <= y' -> _days_before_year y <= _days_before_year y'.
Proof.
  intros Hle. unfold _days_before_year.
  pose proof (Z.div_mod (y - 1) 4 ltac:(lia)).
  pose proof (Z.mod_pos_bound (y - 1) 4 ltac:(lia)).
  pose proof (Z.div_mod (y - 1) 100 ltac:(lia)).
  pose proof (Z.mod_pos_bound (y - 1) 100 ltac:(lia)).
  pose proof (Z.div_mod (y - 1) 400 ltac:(lia)).
  pose proof (Z.mod_pos_bound (y - 1) 400 ltac:(lia)).
  pose proof (Z.div_mod (y' - 1) 4 ltac:(lia)).
  pose proof (Z.mod_pos_bound (y' - 1) 4 ltac:(lia)).
  pose proof (Z.div_mod (y' - 1) 100 ltac:(lia)).
  pose proof (Z.mod_pos_bound (y' - 1) 100 ltac:(lia)).
  pose proof (Z.div_mod (y' - 1) 400 ltac:(lia)).
  pose proof (Z.mod_pos_bound (y' - 1) 400 ltac:(lia)).
  lia.
Qed.

Lemma month_cases m :
  1 <= m <= 12 ->
  m = 1 \/ m = 2 \/ m = 3 \/ m = 4 \/ m = 5 \/ m = 6 \/
  m = 7 \/ m = 8 \/ m = 9 \/ m = 10 \/ m = 11 \/ m = 12.
Proof. lia. Qed.

(** Within a year the days before a month and the days of the month stay
    below the days before any later month, and below the length of the
    year. *)
Lemma days_before_month_next y m m' :
  1 <= m -> m < m' -> m' <= 12 ->
  _days_before_month y m + _days_in_month y m <= _days_before_month y m'.
Proof.
  intros H1 Hlt H12. unfold _days_before_month, _days_in_month.
  destruct (_is_leap y);
    destruct (month_cases m ltac:(lia))
      as [-> | [-> | [-> | [-> | [-> | [-> | [-> | [-> | [-> | [-> | [-> | ->]]]]]]]]]]];
    destruct (month_cases m' ltac:(lia))
      as [-> | [-> | [-> | [-> | [-> | [-> | [-> | [-> | [-> | [-> | [-> | ->]]]]]]]]]]];
    try lia; vm_compute; discriminate.
Qed.

Lemma days_before_month_last y m :
  1 <= m <= 12 ->
  0 <= _days_before_month y m /\
  1 <= _days_in_month y m /\
  _days_before_month y m + _days_in_month y m
  <= 365 + (if _is_leap y then 1 else 0).
Proof.
  intros Hm. unfold _days_before_month, _days_in_month.
  destruct (_is_leap y);
    destruct (month_cases m Hm)
      as [-> | [-> | [-> | [-> | [-> | [-> | [-> | [-> | [-> | [-> | [-> | ->]]]]]]]]]]];
    vm_compute; repeat split; discriminate.
Qed.

Lemma valid_fields t :
  valid t = true <->
  1 <= year t <= 9999 /\ 1 <= month t <= 12 /\
  1 <= day t <= _days_in_month (year t) (month t).
Proof.
  unfold valid, MINYEAR, MAXYEAR. rewrite !andb_true_iff, !Z.leb_le. lia.
Qed.

(** Earlier dates have smaller ordinals. *)
Lemma toordinal_lt a b :
  valid a = true -> valid b = true ->
  ltb a b = true -> toordinal a < toordinal b.
Proof.
  intros Ha Hb Hlt. apply valid_fields in Ha, Hb.
  destruct a as [y m d], b as [y' m' d']. simpl in *.
  unfold ltb, datetime_time.lt in Hlt. simpl in Hlt.
  unfold toordinal, _ymd2ord. simpl.
  pose proof (days_before_month_last y m ltac:(lia)) as La.
  pose proof (days_before_month_last y' m' ltac:(lia)) as Lb.
  repeat (rewrite orb_true_iff in Hlt || rewrite andb_true_iff in Hlt).
  rewrite !Z.ltb_lt, !Z.eqb_eq in Hlt.
  destruct Hlt as [Hy | [-> [Hm | [-> Hd]]]].
  - pose proof (days_before_year_succ y) as Hs.
    pose proof (days_before_year_mono (y + 1) y' ltac:(lia)). lia.
  - pose proof (days_before_month_next y' m m' ltac:(lia) Hm ltac:(lia)). lia.
  - lia.
Qed.

Lemma date_trichotomy a b : ltb a b = true \/ a = b \/ ltb b a = true.
Proof.
  unfold ltb.
  pose proof (datetime_time_trichotomy (year a, month a, day a)
                (year b, month b, day b)) as Ht.
  destruct (datetime_time.lt (year a, month a, day a)
              (year b, month b, day b)) eqn:Hab; [auto |].
  destruct (datetime_time.lt (year b, month b, day b)
              (year a, month a, day a)) eqn:Hba; [auto |].
  right; left. rewrite orb_false_l in Ht. symmetry in Ht.
  apply negb_false_iff, datetime_time_eqb_eq in Ht.
  destruct a, b; simpl in Ht. congruence.
Qed.

Lemma ltb_irrefl a : ltb a a = false.
Proof. apply datetime_time_lt_irrefl. Qed.

(** The order of the dates is the order of their ordinals. *)
Lemma ltb_toordinal a b :
  valid a = true -> valid b = true ->
  (ltb a b = true <-> toordinal a < toordinal b).
Proof.
  intros Ha Hb. split; [apply toordinal_lt; assumption |].
  intros Hlt. destruct (date_trichotomy a b) as [H | [-> | H]]; [exact H | lia |].
  apply toordinal_lt in H; [lia | assumption | assumption].
Qed.

Lemma toordinal_inj a b :
  valid a = true -> valid b = true -> toordinal a = toordinal b -> a = b.
Proof.
  intros Ha Hb Heq. destruct (date_trichotomy a b) as [H | [-> | H]];
    [| reflexivity |]; apply toordinal_lt in H; try assumption; lia.
Qed.

(** The ordinals of the dates of the calendar run from 1 to
    [_MAXORDINAL]. *)
Lemma toordinal_range t :
  valid t = true -> 1 <= toordinal t <= _MAXORDINAL.
Proof.
  intros Hv. split; [apply toordinal_bounds, Hv |].
  apply valid_fields in Hv. destruct t as [y m d]. simpl in *.
  unfold toordinal, _ymd2ord; simpl.
  pose proof (days_before_month_last y m ltac:(lia)) as L.
  pose proof (days_before_year_succ y) as Hs.
  pose proof (days_before_year_mono (y + 1) 10000 ltac:(lia)) as Hm.
  change (_days_before_year 10000) with 3652059 in Hm.
  unfold _MAXORDINAL. lia.
Qed.

Lemma fromordinal_toordinal t :
  valid t = true -> fromordinal (toordinal t) = Ok t.
Proof.
  intros Hv. pose proof (toordinal_range t Hv) as Hr.
  destruct (ord2ymd_roundtrip (toordinal t) Hr) as (y & m & d & Hord & Hv' & Hback).
  unfold fromordinal. rewrite Hord, (date_init_valid _ _ _ Hv'). f_equal.
  apply toordinal_inj; assumption.
Qed.

Lemma fromordinal_ok n :
  1 <= n <= _MAXORDINAL ->
  exists t, fromordinal n = Ok t /\ valid t = true /\ toordinal t = n.
Proof.
  intros Hn. destruct (ord2ymd_roundtrip n Hn) as (y & m & d & Hord & Hv & Hback).
  exists (mk y m d). unfold fromordinal.
  rewrite Hord, (date_init_valid _ _ _ Hv). auto.
Qed.

(** [date + timedelta(days)] in terms of ordinals. *)
Lemma add_cases t n :
  valid t = true ->
  (0 < toordinal t + n <= _MAXORDINAL -> add t n = fromordinal (toordinal t + n))
  /\ (~ 0 < toordinal t + n <= _MAXORDINAL -> add t n = Raise OverflowError).
Proof.
  intros Hv. unfold add.
  destruct (Z.ltb_spec 0 (toordinal t + n)),
    (Z.leb_spec (toordinal t + n) _MAXORDINAL); simpl; split; intros;
    try reflexivity; lia.
Qed.

End OrdinalFacts.

Section DayFacts.

Lemma result_map_Forall2 {A B : Type} (f : A -> result B) (P : A -> B -> Prop)
    (l : list A) :
  (forall x, x ∈ l -> exists y, f x = Ok y /\ P x y) ->
  exists ys, result_map f l = Ok ys /\ Forall2 P l ys.
Proof.
  induction l as [| x l IH]; intros Hall; simpl.
  - exists []. split; [reflexivity | constructor].
  - destruct (Hall x ltac:(left)) as (y & Hy & HP).
    destruct IH as (ys & Hys & HF).
    { intros z Hz. apply Hall. right. exact Hz. }
    exists (y :: ys). unfold mbind, result_bind. rewrite Hy, Hys.
    split; [reflexivity | constructor; assumption].
Qed.

Lemma result_map_ok {A B : Type} (f : A -> result B) (g : A -> B)
    (l : list A) :
  (forall x, x ∈ l -> f x = Ok (g x)) -> result_map f l = Ok (g <$> l).
Proof.
  induction l as [| x l IH]; intros Hall; simpl; [reflexivity |].
  unfold mbind, result_bind.
  rewrite (Hall x ltac:(left)), IH; [reflexivity |].
  intros z Hz. apply Hall. right. exact Hz.
Qed.

Lemma result_map_raise {A B : Type} (f : A -> result B) (l1 : list A)
    (x : A) (l2 : list A) (l : list A) (e : exn) :
  l = l1 ++ x :: l2 ->
  (forall y, y ∈ l1 -> exists z, f y = Ok z) ->
  f x = Raise e ->
  result_map f l = Raise e.
Proof.
  intros -> Hok Hraise. induction l1 as [| y l1 IH]; simpl.
  - unfold mbind, result_bind. rewrite Hraise. reflexivity.
  - destruct (Hok y ltac:(left)) as [z Hz].
    unfold mbind, result_bind in *. rewrite Hz, IH; [reflexivity |].
    intros y' Hy'. apply Hok. right. exact Hy'.
Qed.

Lemma Day_from_date_date d :
  Day.valid d = true -> Day.from_date (Day.date d) = Ok d.
Proof.
  intros Hv. rewrite Day_from_date_ok by exact Hv. destruct d; reflexivity.
Qed.

(** The day [n] days away from a day, as [next_day], [previous_day] and
    the methods of [Week] compute it. *)
Lemma day_shift d n :
  Day.valid d = true ->
  0 < datetime_date.toordinal (Day.date d) + n <= datetime_date._MAXORDINAL ->
  exists d',
    (next_date ← datetime_date.add (Day.date d) n; Day.from_date next_date)
    = Ok d' /\
    Day.valid d' = true /\
    datetime_date.toordinal (Day.date d')
    = datetime_date.toordinal (Day.date d) + n.
Proof.
  intros Hv Hrange.
  destruct (date_add_ok _ _ Hv Hrange) as (t & Hadd & Hvt & Hord).
  exists (Day.mk (datetime_date.year t) (datetime_date.month t)
            (datetime_date.day t)).
  unfold mbind, result_bind. rewrite Hadd, (Day_from_date_ok _ Hvt).
  destruct t; auto.
Qed.

Lemma Day_ltb_toordinal a b :
  Day.valid a = true -> Day.valid b = true ->
  (Day.ltb a b = true <->
   datetime_date.toordinal (Day.date a) < datetime_date.toordinal (Day.date b)).
Proof. apply ltb_toordinal. Qed.

Lemma Day_toordinal_inj a b :
  Day.valid a = true -> Day.valid b = true ->
  datetime_date.toordinal (Day.date a) = datetime_date.toordinal (Day.date b) ->
  a = b.
Proof.
  intros Ha Hb Heq. pose proof (toordinal_inj _ _ Ha Hb Heq) as H.
  destruct a, b. unfold Day.date in H. simpl in H. congruence.
Qed.

(** X8: on every day but the last of the calendar [next_day] returns the
    day with the next ordinal, which is later in the order of the days
    and whose [previous_day] is the day itself; and likewise
    [previous_day] on every day but the first. *)
Theorem next_day_previous_day (d : Day.t) :
  Day.valid d = true ->
  (datetime_date.toordinal (Day.date d) < datetime_date._MAXORDINAL ->
   exists d',
     Day.next_day d = Ok d' /\ Day.valid d' = true /\
     datetime_date.toordinal (Day.date d')
     = datetime_date.toordinal (Day.date d) + 1 /\
     Day.ltb d d' = true /\
     Day.previous_day d' = Ok d) /\
  (1 < datetime_date.toordinal (Day.date d) ->
   exists d',
     Day.previous_day d = Ok d' /\ Day.valid d' = true /\
     datetime_date.toordinal (Day.date d')
     = datetime_date.toordinal (Day.date d) - 1 /\
     Day.ltb d' d = true /\
     Day.next_day d' = Ok d).
Proof.
  intros Hv. pose proof (toordinal_range _ Hv) as Hr.
  assert (Hnext : forall a, Day.next_day a
            = (next_date ← datetime_date.add (Day.date a) 1;
               Day.from_date next_date)) by reflexivity.
  assert (Hprev : forall a, Day.previous_day a
            = (next_date ← datetime_date.add (Day.date a) (-1);
               Day.from_date next_date)) by reflexivity.
  split; intros Hbound.
  - destruct (day_shift d 1 Hv ltac:(lia)) as (d' & Hrun & Hv' & Hord).
    exists d'. rewrite Hnext. repeat split; try assumption.
    + apply Day_ltb_toordinal; try assumption. lia.
    + rewrite Hprev.
      destruct (day_shift d' (-1) Hv' ltac:(lia)) as (d'' & Hrun' & Hv'' & Hord').
      rewrite Hrun'. f_equal. apply Day_toordinal_inj; try assumption. lia.
  - destruct (day_shift d (-1) Hv ltac:(lia)) as (d' & Hrun & Hv' & Hord).
    exists d'. rewrite Hprev. repeat split; try assumption.
    + apply Day_ltb_toordinal; try assumption. lia.
    + rewrite Hnext.
      destruct (day_shift d' 1 Hv' ltac:(lia)) as (d'' & Hrun' & Hv'' & Hord').
      rewrite Hrun'. f_equal. apply Day_toordinal_inj; try assumption. lia.
Qed.

(** X9: [next_day] raises [OverflowError] on 31 December 9999 and on no
    other day, and [previous_day] on 1 January of year 1 and on no other
    day. *)
Theorem day_boundaries (d : Day.t) :
  Day.valid d = true ->
  (Day.next_day d = Raise OverflowError <-> d = Day.mk 9999 12 31) /\
  (Day.previous_day d = Raise OverflowError <-> d = Day.mk 1 1 1).
Proof.
  intros Hv. pose proof (toordinal_range _ Hv) as Hr.
  assert (Hnext : Day.next_day d
            = (next_date ← datetime_date.add (Day.date d) 1;
               Day.from_date next_date)) by reflexivity.
  assert (Hprev : Day.previous_day d
            = (next_date ← datetime_date.add (Day.date d) (-1);
               Day.from_date next_date)) by reflexivity.
  split; split.
  - intros Hraise.
    destruct (Z.eq_dec (datetime_date.toordinal (Day.date d))
                datetime_date._MAXORDINAL) as [Heq | Hne].
    + apply Day_toordinal_inj; [assumption | reflexivity | exact Heq].
    + destruct (day_shift d 1 Hv ltac:(lia)) as (d' & Hrun & _). congruence.
  - intros ->. reflexivity.
  - intros Hraise.
    destruct (Z.eq_dec (datetime_date.toordinal (Day.date d)) 1)
      as [Heq | Hne].
    + apply Day_toordinal_inj; [assumption | reflexivity | exact Heq].
    + destruct (day_shift d (-1) Hv ltac:(lia)) as (d' & Hrun & _).
      congruence.
  - intros ->. reflexivity.
Qed.

End DayFacts.

Section WeekFacts.

Lemma weekday_range t : 0 <= datetime_date.weekday t <= 6.
Proof.
  unfold datetime_date.weekday.
  pose proof (Z.mod_pos_bound (datetime_date.toordinal t + 6) 7 ltac:(lia)).
  lia.
Qed.

(** The week of a day, step by step. *)
Lemma week_from_day_run d :
  Day.valid d = true ->
  exists monday,
    (next_date ← datetime_date.add (Day.date d)
                   (- Day.get_weekday_number d);
     Day.from_date next_date) = Ok monday /\
    Day.valid monday = true /\
    datetime_date.toordinal (Day.date monday)
    = datetime_date.toordinal (Day.date d) - Day.get_weekday_number d /\
    Week.from_day d
    = Ok (Week.mk monday (Day.year monday)
            (datetime_date.isocalendar (Day.date monday)).1.2).
Proof.
  intros Hv. pose proof (toordinal_range _ Hv) as Hr.
  pose proof (weekday_range (Day.date d)) as Hw.
  assert (Hmod : Day.get_weekday_number d
                 <= datetime_date.toordinal (Day.date d) - 1).
  { unfold Day.get_weekday_number, datetime_date.weekday.
    replace (datetime_date.toordinal (Day.date d) + 6)
      with (datetime_date.toordinal (Day.date d) - 1 + 1 * 7) by lia.
    rewrite Z_mod_plus_full. apply Z.mod_le; lia. }
  destruct (day_shift d (- Day.get_weekday_number d) Hv
              ltac:(unfold Day.get_weekday_number in *; lia))
    as (monday & Hrun & Hvm & Hord).
  exists monday. split; [exact Hrun |]. split; [exact Hvm |].
  split; [lia |].
  unfold Week.from_day, Week.init.
  change (datetime_date.init (Day.year d) (Day.month d) (Day.day d))
    with (datetime_date.init (datetime_date.year (Day.date d))
            (datetime_date.month (Day.date d))
            (datetime_date.day (Day.date d))).
  assert (Hinit : datetime_date.init (datetime_date.year (Day.date d))
            (datetime_date.month (Day.date d))
            (datetime_date.day (Day.date d)) = Ok (Day.date d)).
  { rewrite date_init_valid; [reflexivity |]. exact Hv. }
  rewrite Hinit. unfold mbind at 1, result_bind at 1.
  unfold datetime_date.timedelta at 1.
  replace (999999999 <? Z.abs (datetime_date.weekday (Day.date d)))
    with false by (symmetry; apply Z.ltb_ge; lia).
  unfold mbind at 1, result_bind at 1. unfold datetime_date.sub.
  unfold datetime_date.timedelta at 1.
  replace (999999999 <? Z.abs (- datetime_date.weekday (Day.date d)))
    with false by (symmetry; apply Z.ltb_ge; lia).
  unfold mbind at 1, result_bind at 1.
  unfold mbind, result_bind in Hrun |- *.
  unfold Day.get_weekday_number in Hrun.
  destruct (datetime_date.add (Day.date d)
              (- datetime_date.weekday (Day.date d))) as [t |];
    [| discriminate].
  rewrite Hrun.
  assert (Ht : Day.date monday = t).
  { unfold Day.from_date, Day.init, mbind, result_bind in Hrun.
    destruct (datetime_date.init _ _ _); [| discriminate].
    injection Hrun as <-. destruct t; reflexivity. }
  rewrite Ht. reflexivity.
Qed.

(** X10: the week of any day of the calendar exists; it starts on a
    Monday, at most six days before the day and never after it, and the
    year of the week is the year of that Monday. *)
Theorem week_starts_on_monday (d : Day.t) :
  Day.valid d = true ->
  exists w,
    Week.from_day d = Ok w /\
    Day.valid (Week.start_date w) = true /\
    Day.get_weekday_number (Week.start_date w) = 0 /\
    0 <= Day.get_weekday_number d <= 6 /\
    datetime_date.toordinal (Day.date (Week.start_date w))
    = datetime_date.toordinal (Day.date d) - Day.get_weekday_number d /\
    Week.year w = Day.year (Week.start_date w).
Proof.
  intros Hv.
  destruct (week_from_day_run d Hv) as (monday & _ & Hvm & Hord & Hweek).
  eexists. split; [exact Hweek |]. simpl.
  split; [exact Hvm |].
  pose proof (weekday_range (Day.date d)) as Hw.
  split; [| split; [exact Hw | split; [exact Hord | reflexivity]]].
  unfold Day.get_weekday_number, datetime_date.weekday in *. rewrite Hord.
  pose proof (Z.div_mod (datetime_date.toordinal (Day.date d) + 6) 7
                ltac:(lia)) as Hdm.
  replace (datetime_date.toordinal (Day.date d)
           - (datetime_date.toordinal (Day.date d) + 6) mod 7 + 6)
    with (0 + (datetime_date.toordinal (Day.date d) + 6) / 7 * 7) by lia.
  apply Z_mod_plus_full.
Qed.

(** X11: for a week whose Sunday is still in the calendar [get_days]
    returns seven consecutive days from the Monday on; the day the week
    was made from is one of them, and each of them gives the same week
    again.  A week that runs past 31 December 9999 has no list of days:
    [get_days] raises [OverflowError]. *)
Theorem week_get_days (d : Day.t) (w : Week.t) :
  Day.valid d = true ->
  Week.from_day d = Ok w ->
  let monday := datetime_date.toordinal (Day.date (Week.start_date w)) in
  (monday + 6 <= datetime_date._MAXORDINAL ->
   exists days,
     Week.get_days w = Ok days /\
     Forall2 (fun i day =>
                Day.valid day = true /\
                datetime_date.toordinal (Day.date day) = monday + i /\
                Day.get_weekday_number day = i /\
                Week.from_day day = Ok w)
             (seqZ 0 7) days /\
     d ∈ days /\
     Week.contains_day w d = Ok true) /\
  (datetime_date._MAXORDINAL < monday + 6 ->
   Week.get_days w = Raise OverflowError).
Proof.
  intros Hv Hw monday.
  destruct (week_from_day_run d Hv) as (start & _ & Hvs & Hord & Hweek).
  rewrite Hweek in Hw. injection Hw as <-. simpl in monday.
  pose proof (toordinal_range _ Hvs) as Hrs.
  pose proof (weekday_range (Day.date d)) as Hwd.
  assert (Hmonday : (monday + 6) mod 7 = 0).
  { subst monday. rewrite Hord.
    unfold Day.get_weekday_number, datetime_date.weekday.
    pose proof (Z.div_mod (datetime_date.toordinal (Day.date d) + 6) 7
                  ltac:(lia)) as Hdm.
    replace (datetime_date.toordinal (Day.date d)
             - (datetime_date.toordinal (Day.date d) + 6) mod 7 + 6)
      with (0 + (datetime_date.toordinal (Day.date d) + 6) / 7 * 7) by lia.
    apply Z_mod_plus_full. }
  assert (Hstep : forall i, 0 <= i <= 6 ->
    monday + i <= datetime_date._MAXORDINAL ->
    exists day,
      (delta ← datetime_date.timedelta i;
       day_date ← datetime_date.add (Day.date start) delta;
       Day.from_date day_date) = Ok day /\
      Day.valid day = true /\
      datetime_date.toordinal (Day.date day) = monday + i /\
      Day.get_weekday_number day = i /\
      Week.from_day day
      = Ok (Week.mk start (Day.year start)
              (datetime_date.isocalendar (Day.date start)).1.2)).
  { intros i Hi Hmax.
    destruct (day_shift start i Hvs ltac:(subst monday; lia))
      as (day & Hrun & Hvd & Hordd).
    exists day. unfold datetime_date.timedelta.
    replace (999999999 <? Z.abs i) with false
      by (symmetry; apply Z.ltb_ge; lia).
    split; [exact Hrun |]. split; [exact Hvd |]. split; [exact Hordd |].
    assert (Hwday : Day.get_weekday_number day = i).
    { unfold Day.get_weekday_number, datetime_date.weekday. rewrite Hordd.
      fold monday.
      pose proof (Z.div_mod (monday + 6) 7 ltac:(lia)) as Hdm.
      rewrite Hmonday in Hdm.
      replace (monday + i + 6) with (i + (monday + 6) / 7 * 7) by lia.
      rewrite Z_mod_plus_full. apply Z.mod_small. lia. }
    split; [exact Hwday |].
    destruct (week_from_day_run day Hvd) as (start' & _ & Hvs' & Hord' & ->).
    assert (start' = start) as ->; [| reflexivity].
    apply Day_toordinal_inj; try assumption. rewrite Hord', Hordd, Hwday.
    lia. }
  split.
  - intros Hmax.
    destruct (result_map_Forall2
                (fun i =>
                   delta ← datetime_date.timedelta i;
                   day_date ← datetime_date.add (Day.date start) delta;
                   Day.from_date day_date)
                (fun i day =>
                   Day.valid day = true /\
                   datetime_date.toordinal (Day.date day) = monday + i /\
                   Day.get_weekday_number day = i /\
                   Week.from_day day
                   = Ok (Week.mk start (Day.year start)
                           (datetime_date.isocalendar (Day.date start)).1.2))
                (seqZ 0 7)) as (days & Hdays & HF).
    { intros i Hi. apply elem_of_seqZ in Hi. apply Hstep; lia. }
    assert (Hin : d ∈ days).
    { assert (Hi : Day.get_weekday_number d ∈ seqZ 0 7)
        by (apply elem_of_seqZ; unfold Day.get_weekday_number; lia).
      apply list_elem_of_lookup in Hi as [k Hk].
      destruct (Forall2_lookup_l _ _ _ _ _ HF Hk) as (day & Hday & Hvd & Hod & _).
      assert (day = d) as <-; [| eapply list_elem_of_lookup_2; exact Hday].
      apply Day_toordinal_inj; try assumption. rewrite Hod. lia. }
    exists days. unfold Week.get_days. simpl Week.start_date.
    split; [exact Hdays |]. split; [exact HF |]. split; [exact Hin |].
    unfold Week.contains_day, Week.get_days. simpl Week.start_date.
    unfold mbind, result_bind in Hdays |- *. rewrite Hdays. f_equal.
    apply existsb_exists. exists d. split.
    + apply list_elem_of_In, Hin.
    + apply Day_eqb_eq. reflexivity.
  - intros Hover. unfold Week.get_days. simpl Week.start_date.
    assert (Hfail : forall i, 0 <= i <= 6 ->
      datetime_date._MAXORDINAL < monday + i ->
      (delta ← datetime_date.timedelta i;
       day_date ← datetime_date.add (Day.date start) delta;
       Day.from_date day_date) = Raise OverflowError).
    { intros i Hi Hmax. unfold datetime_date.timedelta.
      replace (999999999 <? Z.abs i) with false
        by (symmetry; apply Z.ltb_ge; lia).
      unfold mbind, result_bind.
      destruct (add_cases (Day.date start) i Hvs) as [_ ->];
        [reflexivity | subst monday; lia]. }
    set (first := datetime_date._MAXORDINAL - monday + 1).
    assert (Hfirst : 1 <= first <= 6) by (subst first; lia).
    apply (result_map_raise _ (seqZ 0 first) first
             (seqZ (first + 1) (6 - first))).
    + assert (Hcases : first = 1 \/ first = 2 \/ first = 3 \/ first = 4 \/
                       first = 5 \/ first = 6) by lia.
      destruct Hcases as [-> | [-> | [-> | [-> | [-> | ->]]]]]; reflexivity.
    + intros i Hi. apply elem_of_seqZ in Hi.
      destruct (Hstep i ltac:(lia) ltac:(subst first; lia)) as (day & Hrun & _).
      exists day. exact Hrun.
    + apply Hfail; subst first; lia.
Qed.

End WeekFacts.

Section MonthFacts.

Lemma Month_init_Ok y m mo :
  Month.init y m = Ok mo ->
  1 <= m <= 12 /\
  mo = Month.mk y m (nth (Z.to_nat m) calendar.month_name EmptyString).
Proof.
  unfold Month.init.
  destruct (Z.leb_spec 1 m), (Z.leb_spec m 12); simpl; try discriminate.
  intros [= <-]. split; [lia | reflexivity].
Qed.

Lemma Month_init_run y m :
  1 <= m <= 12 ->
  Month.init y m
  = Ok (Month.mk y m (nth (Z.to_nat m) calendar.month_name EmptyString)).
Proof.
  intros Hm. unfold Month.init.
  destruct (Z.leb_spec 1 m), (Z.leb_spec m 12); simpl; try lia. reflexivity.
Qed.

(** X12: [next_month] and [previous_month] never fail on a month and
    undo each other; after December comes January of the next year, and
    before January December of the year before; the next month is later
    in the order of the months. *)
Theorem next_month_previous_month (y m : Z) (mo : Month.t) :
  Month.init y m = Ok mo ->
  exists next prev,
    Month.next_month mo = Ok next /\
    Month.previous_month mo = Ok prev /\
    Month.previous_month next = Ok mo /\
    Month.next_month prev = Ok mo /\
    Month.ltb mo next = true /\ Month.ltb prev mo = true /\
    (Month.year next, Month.month next)
    = (if m =? 12 then (y + 1, 1) else (y, m + 1)) /\
    (Month.year prev, Month.month prev)
    = (if m =? 1 then (y - 1, 12) else (y, m - 1)).
Proof.
  intros Hinit. apply Month_init_Ok in Hinit as [Hm ->].
  unfold Month.next_month, Month.previous_month. simpl.
  destruct (Z.eqb_spec m 12) as [H12 | H12];
    destruct (Z.eqb_spec m 1) as [H1 | H1]; try lia.
  - subst m. do 2 eexists. repeat split; try reflexivity.
    + simpl. replace (y + 1 - 1) with y by lia. reflexivity.
    + unfold Month.ltb; simpl. rewrite (proj2 (Z.ltb_lt y (y + 1))) by lia.
      reflexivity.
    + unfold Month.ltb; simpl. rewrite Z.eqb_refl, orb_true_r. reflexivity.
  - subst m. do 2 eexists. repeat split; try reflexivity.
    + simpl. replace (y - 1 + 1) with y by lia. reflexivity.
    + unfold Month.ltb; simpl. rewrite Z.eqb_refl, orb_true_r. reflexivity.
    + unfold Month.ltb; simpl. rewrite (proj2 (Z.ltb_lt (y - 1) y)) by lia.
      reflexivity.
  - rewrite (Month_init_run y (m + 1)), (Month_init_run y (m - 1)) by lia.
    do 2 eexists. split; [reflexivity |]. split; [reflexivity |]. simpl.
    replace (m + 1 =? 1) with false by (symmetry; apply Z.eqb_neq; lia).
    replace (m - 1 =? 12) with false by (symmetry; apply Z.eqb_neq; lia).
    replace (m + 1 - 1) with m by lia. replace (m - 1 + 1) with m by lia.
    rewrite (Month_init_run y m) by lia.
    repeat split; unfold Month.ltb; simpl;
      rewrite Z.ltb_irrefl, Z.eqb_refl; simpl; apply Z.ltb_lt; lia.
Qed.

(** The table of [calendar] and the table of [datetime] agree. *)
Lemma monthrange_days_in_month y m :
  1 <= m <= 12 ->
  calendar.monthrange_days y m = Ok (datetime_date._days_in_month y m) /\
  28 <= datetime_date._days_in_month y m <= 31.
Proof.
  intros Hm. unfold calendar.monthrange_days.
  replace ((1 <=? m) && (m <=? 12)) with true
    by (symmetry; apply andb_true_iff; split; apply Z.leb_le; lia).
  unfold datetime_date._days_in_month.
  change (calendar.isleap y) with (datetime_date._is_leap y).
  destruct (datetime_date._is_leap y);
    destruct (month_cases m Hm)
      as [-> | [-> | [-> | [-> | [-> | [-> | [-> | [-> | [-> | [-> | [-> | ->]]]]]]]]]]];
    vm_compute; repeat split; discriminate.
Qed.

Lemma Day_init_Ok y m d :
  1 <= y <= 9999 -> 1 <= m <= 12 ->
  1 <= d <= datetime_date._days_in_month y m ->
  Day.init y m d = Ok (Day.mk y m d) /\ Day.valid (Day.mk y m d) = true.
Proof.
  intros Hy Hm Hd.
  assert (Hv : datetime_date.valid (datetime_date.mk y m d) = true)
    by (apply valid_fields; simpl; lia).
  split; [| exact Hv]. unfold Day.init.
  rewrite (date_init_valid _ _ _ Hv). reflexivity.
Qed.


Lemma month_get_days_run y m :
  1 <= m <= 12 -> 1 <= y <= 9999 ->
  Month.get_days
    (Month.mk y m (nth (Z.to_nat m) calendar.month_name EmptyString))
  = Ok ((fun d => Day.mk y m d) <$> seqZ 1 (datetime_date._days_in_month y m)).
Proof.
  intros Hm Hy.
  destruct (monthrange_days_in_month y m Hm) as [Hrange Hn].
  unfold Month.get_days. simpl. rewrite Hrange.
  unfold mbind, result_bind. apply result_map_ok.
  intros d Hd. apply elem_of_seqZ in Hd. apply Day_init_Ok; lia.
Qed.

(** X14: a year from 1 to 9999 has twelve months, and [get_days] lists
    [get_number_of_days] days, 366 in a leap year and 365 otherwise, all
    of them dates of the calendar in this year. *)
Theorem year_get_days (y : Z) :
  1 <= y <= 9999 ->
  exists months days,
    Year.get_months (Year.init y) = Ok months /\ length months = 12%nat /\
    Year.get_days (Year.init y) = Ok days /\
    Z.of_nat (length days) = Year.get_number_of_days (Year.init y) /\
    Year.get_number_of_days (Year.init y)
    = (if datetime_date._is_leap y then 366 else 365) /\
    Forall (fun day => Day.valid day = true /\
                       Year.contains_day (Year.init y) day = true) days.
Proof.
  intros Hy.
  set (month_of := fun m =>
         Month.mk y m (nth (Z.to_nat m) calendar.month_name EmptyString)).
  set (days_of := fun mo : Month.t =>
         (fun d => Day.mk y (Month.month mo) d)
           <$> seqZ 1 (datetime_date._days_in_month y (Month.month mo))).
  assert (Hmonths : Year.get_months (Year.init y)
                    = Ok (month_of <$> seqZ 1 12)).
  { apply result_map_ok. intros m Hm. apply elem_of_seqZ in Hm.
    apply Month_init_run. lia. }
  assert (Hdays : result_map Month.get_days (month_of <$> seqZ 1 12)
                  = Ok (days_of <$> (month_of <$> seqZ 1 12))).
  { apply result_map_ok. intros mo Hmo.
    apply list_elem_of_fmap in Hmo as (m & -> & Hm).
    apply elem_of_seqZ in Hm.
    exact (month_get_days_run y m ltac:(lia) Hy). }
  exists (month_of <$> seqZ 1 12), (concat (days_of <$> (month_of <$> seqZ 1 12))).
  split; [exact Hmonths |]. split; [reflexivity |]. split; [| split; [| split]].
  - unfold Year.get_days. rewrite Hmonths.
    unfold mbind at 1, result_bind at 1. rewrite Hdays. reflexivity.
  - unfold Year.get_number_of_days. simpl Year.is_leap_year.
    change (calendar.isleap y) with (datetime_date._is_leap y).
    unfold days_of, month_of, datetime_date._days_in_month.
    destruct (datetime_date._is_leap y); reflexivity.
  - unfold Year.get_number_of_days. simpl Year.is_leap_year.
    change (calendar.isleap y) with (datetime_date._is_leap y).
    reflexivity.
  - apply Forall_concat, Forall_fmap, Forall_fmap, Forall_forall.
    intros m Hm. apply elem_of_seqZ in Hm. simpl.
    unfold days_of. simpl. apply Forall_fmap, Forall_forall.
    intros d Hd. apply elem_of_seqZ in Hd. simpl. split.
    + apply Day_init_Ok; lia.
    + unfold Year.contains_day. simpl. apply Z.eqb_refl.
Qed.

End MonthFacts.

(** ** Tags and the object store *)

Section TagFacts.

Ltac run_store :=
  unfold mbind, mret, M_bind, M_ret, lift, alloc, read_list, read_instance,
    write_list, write_instance, list_copy in *.



(** What the three tag methods do to the store of a well-formed event. *)
Lemma has_tag_run h self this items tag :
  h !! self = Some (OInstance this) ->
  h !! Attrs.Event.tags this = Some (OList items) ->
  Event.has_tag self tag h = Ok (bool_decide (tag ∈ items), h).
Proof.
  intros Hself Htags. unfold Event.has_tag. run_store.
  rewrite Hself, Htags. reflexivity.
Qed.

Lemma add_tag_run h self this items tag :
  h !! self = Some (OInstance this) ->
  h !! Attrs.Event.tags this = Some (OList items) ->
  Event.add_tag self tag h
  = Ok (tt, if bool_decide (tag ∈ items) then h
            else <[Attrs.Event.tags this := OList (items ++ [tag])]> h).
Proof.
  intros Hself Htags. unfold Event.add_tag. run_store.
  rewrite Hself, Htags. destruct (bool_decide (tag ∈ items)); [reflexivity |].
  rewrite Htags. reflexivity.
Qed.


Lemma instance_not_list (h : heap) l l' i items :
  h !! l = Some (OInstance i) -> h !! l' = Some (OList items) -> l <> l'.
Proof. intros H1 H2 ->. congruence. Qed.

(** The store after [add_tag]: only the tag list of the event may
    differ, and the event has the tag. *)
Lemma add_tag_effect (h : heap) (self : loc) (this : instance)
    (items : list string) (tag : string) :
  h !! self = Some (OInstance this) ->
  h !! Attrs.Event.tags this = Some (OList items) ->
  exists h',
    Event.add_tag self tag h = Ok (tt, h') /\
    h' !! Attrs.Event.tags this
    = Some (OList (if bool_decide (tag ∈ items) then items
                   else items ++ [tag])) /\
    (forall l, l <> Attrs.Event.tags this -> h' !! l = h !! l) /\
    Event.has_tag self tag h' = Ok (true, h').
Proof.
  intros Hself Htags.
  pose proof (instance_not_list _ _ _ _ _ Hself Htags) as Hne.
  rewrite (add_tag_run h self this items tag Hself Htags).
  destruct (bool_decide (tag ∈ items)) eqn:Hin.
  - exists h. split; [reflexivity |]. split; [exact Htags |].
    split; [reflexivity |].
    rewrite (has_tag_run h self this items tag Hself Htags), Hin.
    reflexivity.
  - eexists. split; [reflexivity |].
    assert (Htags' : (<[Attrs.Event.tags this := OList (items ++ [tag])]> h)
                     !! Attrs.Event.tags this
                     = Some (OList (items ++ [tag]))).
    { apply list_lookup_insert_eq. eapply lookup_lt_Some, Htags. }
    assert (Hself' : (<[Attrs.Event.tags this := OList (items ++ [tag])]> h)
                     !! self = Some (OInstance this)).
    { etrans; [apply list_lookup_insert_ne; congruence | exact Hself]. }
    split; [exact Htags' |]. split.
    { intros l Hl. apply list_lookup_insert_ne. congruence. }
    rewrite (has_tag_run _ self this _ tag Hself' Htags').
    rewrite bool_decide_true; [reflexivity |].
    apply elem_of_app. right. left.
Qed.

(** X15: [add_tag] makes the event have the tag, appends it only when
    it is new, changes no other object, keeps a list without duplicates
    free of them, and does nothing when repeated. *)
Theorem add_tag_idempotent
    (h : heap) (self : loc) (this : instance) (items : list string)
    (tag : string) :
  h !! self = Some (OInstance this) ->
  h !! Attrs.Event.tags this = Some (OList items) ->
  exists h',
    Event.add_tag self tag h = Ok (tt, h') /\
    h' !! Attrs.Event.tags this
    = Some (OList (if bool_decide (tag ∈ items) then items
                   else items ++ [tag])) /\
    (forall l, l <> Attrs.Event.tags this -> h' !! l = h !! l) /\
    Event.has_tag self tag h' = Ok (true, h') /\
    Event.add_tag self tag h' = Ok (tt, h') /\
    (NoDup items ->
     NoDup (if bool_decide (tag ∈ items) then items else items ++ [tag])).
Proof.
  intros Hself Htags.
  pose proof (instance_not_list _ _ _ _ _ Hself Htags) as Hne.
  rewrite (add_tag_run h self this items tag Hself Htags).
  destruct (bool_decide (tag ∈ items)) eqn:Hin.
  - exists h. split; [reflexivity |]. split; [exact Htags |].
    split; [reflexivity |].
    rewrite (has_tag_run h self this items tag Hself Htags),
      (add_tag_run h self this items tag Hself Htags), Hin. auto.
  - eexists. split; [reflexivity |].
    assert (Htags' : (<[Attrs.Event.tags this := OList (items ++ [tag])]> h)
                     !! Attrs.Event.tags this
                     = Some (OList (items ++ [tag]))).
    { apply list_lookup_insert_eq. eapply lookup_lt_Some, Htags. }
    assert (Hself' : (<[Attrs.Event.tags this := OList (items ++ [tag])]> h)
                     !! self = Some (OInstance this)).
    { etrans; [apply list_lookup_insert_ne; congruence | exact Hself]. }
    split; [exact Htags' |]. split.
    { intros l Hl. apply list_lookup_insert_ne. congruence. }
    assert (Hnow : bool_decide (tag ∈ items ++ [tag]) = true).
    { apply bool_decide_eq_true. apply elem_of_app. right. left. }
    rewrite (has_tag_run _ self this _ tag Hself' Htags'),
      (add_tag_run _ self this _ tag Hself' Htags'), Hnow.
    split; [reflexivity |]. split; [reflexivity |].
    intros Hnd. apply NoDup_app. split; [exact Hnd |]. split.
    + intros x Hx Hx'. apply list_elem_of_singleton in Hx'. subst x.
      apply bool_decide_eq_false in Hin. contradiction.
    + apply NoDup_singleton.
Qed.


End TagFacts.

Section SharingFacts.

Ltac run_store :=
  unfold mbind, mret, M_bind, M_ret, lift, alloc, read_list, read_instance,
    write_list, write_instance, list_copy in *.

(** [Chore(...)] with a tag list passed in keeps that very list; without
    one it makes a new empty list first. *)
Lemma chore_new_run title day time_range category is_recurring
    recurrence_days estimated_effort description priority tags notes
    (h : heap) :
  Chore.new title day time_range category is_recurring recurrence_days
    estimated_effort (Event.mk_kwargs description priority tags notes) h
  = match tags with
    | Some l =>
        Ok (length h,
            h ++ [OInstance (Chore.made title day time_range category
                               is_recurring recurrence_days estimated_effort
                               description priority notes l)])
    | None =>
        Ok (S (length h),
            (h ++ [OList []])
              ++ [OInstance (Chore.made title day time_range category
                               is_recurring recurrence_days estimated_effort
                               description priority notes (length h))])
    end.
Proof.
  unfold Chore.new, Chore.init, Event.init. run_store. simpl.
  destruct tags; simpl; [reflexivity |].
  rewrite length_app. simpl. rewrite Nat.add_1_r. reflexivity.
Qed.

Lemma lookup_snoc2 (h : heap) (o o' : object) :
  ((h ++ [o]) ++ [o']) !! S (length h) = Some o'.
Proof.
  replace (S (length h)) with (length (h ++ [o]))
    by (rewrite length_app; simpl; lia).
  apply lookup_snoc.
Qed.

(** X17: two chores made with the same list as [tags] share it: a tag
    added to one is a tag of the other, and it is added to the list the
    caller passed.  Two chores made without [tags] get a list each: a tag
    added to one is not a tag of the other. *)
Theorem tags_shared_or_separate
    (h : heap) (l : loc) (items : list string) (tag : string)
    (title1 title2 : string) (day1 day2 : Day.t) (range1 range2 : TimeRange.t) :
  h !! l = Some (OList items) ->
  let make tags title day range :=
    Chore.new title day range None None None None
      (Event.mk_kwargs None None tags None) in
  (exists h',
     (a ← make (Some l) title1 day1 range1;
      b ← make (Some l) title2 day2 range2;
      _ ← Event.add_tag a tag;
      Event.has_tag b tag) h = Ok (true, h') /\
     h' !! l = Some (OList (if bool_decide (tag ∈ items) then items
                            else items ++ [tag]))) /\
  (exists h',
     (a ← make None title1 day1 range1;
      b ← make None title2 day2 range2;
      _ ← Event.add_tag a tag;
      Event.has_tag b tag) h = Ok (false, h')).
Proof.
  intros Hl make. subst make. cbv beta. split.
  - unfold mbind at 1, M_bind at 1. rewrite chore_new_run.
    unfold mbind at 1, M_bind at 1. rewrite chore_new_run.
    set (A := Chore.made title1 day1 range1 None None None None None None
                None l).
    set (B := Chore.made title2 day2 range2 None None None None None None
                None l).
    set (h2 := (h ++ [OInstance A]) ++ [OInstance B]).
    assert (Ha : h2 !! length h = Some (OInstance A))
      by (apply lookup_snoc_old, lookup_snoc).
    assert (Hb : h2 !! length (h ++ [OInstance A]) = Some (OInstance B))
      by apply lookup_snoc.
    assert (Hl2 : h2 !! l = Some (OList items))
      by (do 2 apply lookup_snoc_old; exact Hl).
    destruct (add_tag_effect h2 (length h) A items tag Ha Hl2)
      as (h' & Hadd & Htags & Hother & _).
    unfold mbind at 1, M_bind at 1. rewrite Hadd.
    assert (Hb' : h' !! length (h ++ [OInstance A]) = Some (OInstance B)).
    { rewrite Hother; [exact Hb |]. eapply instance_not_list; eassumption. }
    rewrite (has_tag_run h' _ B _ tag Hb' Htags).
    exists h'. split; [| exact Htags].
    destruct (bool_decide (tag ∈ items)) eqn:Hin.
    + rewrite Hin. reflexivity.
    + rewrite bool_decide_true; [reflexivity |].
      apply elem_of_app. right. left.
  - unfold mbind at 1, M_bind at 1. rewrite chore_new_run.
    unfold mbind at 1, M_bind at 1. rewrite chore_new_run.
    set (A := Chore.made title1 day1 range1 None None None None None None
                None (length h)).
    set (h1 := (h ++ [OList []]) ++ [OInstance A]).
    set (B := Chore.made title2 day2 range2 None None None None None None
                None (length h1)).
    set (h2 := (h1 ++ [OList []]) ++ [OInstance B]).
    assert (Ha : h2 !! S (length h) = Some (OInstance A))
      by (do 2 apply lookup_snoc_old; apply lookup_snoc2).
    assert (Hta : h2 !! length h = Some (OList []))
      by (do 3 apply lookup_snoc_old; apply lookup_snoc).
    assert (Hb : h2 !! S (length h1) = Some (OInstance B))
      by apply lookup_snoc2.
    assert (Htb : h2 !! length h1 = Some (OList []))
      by (apply lookup_snoc_old, lookup_snoc).
    assert (Hne : length h1 <> length h)
      by (subst h1; rewrite !length_app; simpl; lia).
    destruct (add_tag_effect h2 (S (length h)) A [] tag Ha Hta)
      as (h' & Hadd & Htags & Hother & _).
    unfold mbind at 1, M_bind at 1. rewrite Hadd.
    assert (Hb' : h' !! S (length h1) = Some (OInstance B)).
    { rewrite Hother; [exact Hb |]. eapply instance_not_list; eassumption. }
    assert (Htb' : h' !! length h1 = Some (OList [])).
    { rewrite Hother; [exact Htb | exact Hne]. }
    rewrite (has_tag_run h' _ B [] tag Hb' Htb').
    exists h'. reflexivity.
Qed.

(** The store after [get_next_occurrence] on a recurring chore: the copy
    of the tag list and the new chore are added at its end. *)
Lemma get_next_occurrence_run (h : heap) self this c items :
  h !! self = Some (OInstance this) ->
  cls this = IsChore c ->
  Attrs.Chore.is_recurring c = true ->
  Day.valid (Attrs.Event.day this) = true ->
  h !! Attrs.Event.tags this = Some (OList items) ->
  0 < datetime_date.toordinal (Day.date (Attrs.Event.day this))
      + Attrs.Chore.recurrence_days c <= datetime_date._MAXORDINAL ->
  exists next_day,
    Day.valid next_day = true /\
    datetime_date.toordinal (Day.date next_day)
    = datetime_date.toordinal (Day.date (Attrs.Event.day this))
      + Attrs.Chore.recurrence_days c /\
    Chore.get_next_occurrence self h
    = Ok (Some (S (length h)),
          (h ++ [OList items])
            ++ [OInstance
                  (mk_instance
                     (Attrs.Event.mk (Attrs.Event.title this) next_day
                        (Attrs.Event.time_range this)
                        (Attrs.Event.description this)
                        (Attrs.Event.priority this) SCHEDULED (length h)
                        (Attrs.Event.notes this))
                     (IsChore c))]).
Proof.
  intros Hself Hcls Hrec Hday Htags Hrange.
  pose proof (toordinal_bounds _ Hday) as Hord.
  destruct (date_add_ok _ _ Hday Hrange) as (next_date & Hadd & Hv & Hnext).
  set (next_day := Day.mk (datetime_date.year next_date)
                     (datetime_date.month next_date)
                     (datetime_date.day next_date)).
  exists next_day.
  split; [destruct next_date; exact Hv |].
  split; [destruct next_date; exact Hnext |].
  unfold datetime_date._MAXORDINAL in Hrange.
  unfold Chore.get_next_occurrence. run_store.
  rewrite Hself, Hcls, Hrec. change (negb true) with false. cbv iota.
  unfold datetime_date.timedelta.
  replace (999999999 <? Z.abs (Attrs.Chore.recurrence_days c)) with false
    by (symmetry; apply Z.ltb_ge; lia).
  rewrite Hadd, (Day_from_date_ok _ Hv). fold next_day.
  change (negb true) with false. cbv beta iota. run_store. cbv beta.
  rewrite Htags.
  unfold Chore.new, Chore.init, Event.init. run_store. simpl.
  rewrite length_app. simpl length. rewrite Nat.add_1_r.
  destruct c; simpl in Hrec; subst; reflexivity.
Qed.

(** X18: the tags of the next occurrence are a copy: a tag added to the
    new chore afterwards is a tag of the new chore and leaves the tags
    of the original as they were. *)
Theorem next_occurrence_tags_independent
    (h : heap) (self : loc) (this : instance) (c : Attrs.Chore.t)
    (items : list string) (tag : string) :
  h !! self = Some (OInstance this) ->
  cls this = IsChore c ->
  Attrs.Chore.is_recurring c = true ->
  Day.valid (Attrs.Event.day this) = true ->
  h !! Attrs.Event.tags this = Some (OList items) ->
  0 < datetime_date.toordinal (Day.date (Attrs.Event.day this))
      + Attrs.Chore.recurrence_days c <= datetime_date._MAXORDINAL ->
  exists next h1 h2,
    Chore.get_next_occurrence self h = Ok (Some next, h1) /\
    Event.has_tag next tag h1 = Ok (bool_decide (tag ∈ items), h1) /\
    Event.add_tag next tag h1 = Ok (tt, h2) /\
    Event.has_tag next tag h2 = Ok (true, h2) /\
    Event.has_tag self tag h2 = Ok (bool_decide (tag ∈ items), h2) /\
    h2 !! Attrs.Event.tags this = Some (OList items).
Proof.
  intros Hself Hcls Hrec Hday Htags Hrange.
  destruct (get_next_occurrence_run h self this c items Hself Hcls Hrec Hday
              Htags Hrange) as (next_day & _ & _ & Hrun).
  set (that := mk_instance
                 (Attrs.Event.mk (Attrs.Event.title this) next_day
                    (Attrs.Event.time_range this)
                    (Attrs.Event.description this)
                    (Attrs.Event.priority this) SCHEDULED (length h)
                    (Attrs.Event.notes this)) (IsChore c)) in *.
  set (h1 := (h ++ [OList items]) ++ [OInstance that]) in *.
  assert (Hnext : h1 !! S (length h) = Some (OInstance that))
    by apply lookup_snoc2.
  assert (Hcopy : h1 !! Attrs.Event.tags that = Some (OList items))
    by (apply lookup_snoc_old, lookup_snoc).
  assert (Hself1 : h1 !! self = Some (OInstance this))
    by (do 2 apply lookup_snoc_old; exact Hself).
  assert (Htags1 : h1 !! Attrs.Event.tags this = Some (OList items))
    by (do 2 apply lookup_snoc_old; exact Htags).
  assert (Hdistinct : Attrs.Event.tags this <> Attrs.Event.tags that).
  { simpl. apply lookup_lt_Some in Htags. lia. }
  destruct (add_tag_effect h1 (S (length h)) that items tag Hnext Hcopy)
    as (h2 & Hadd & Htags2 & Hother & Hhas).
  exists (S (length h)), h1, h2. split; [exact Hrun |].
  split; [apply (has_tag_run h1 _ that items tag Hnext Hcopy) |].
  split; [exact Hadd |]. split; [exact Hhas |].
  assert (Hself2 : h2 !! self = Some (OInstance this)).
  { rewrite Hother; [exact Hself1 |].
    eapply instance_not_list; eassumption. }
  assert (Htags2' : h2 !! Attrs.Event.tags this = Some (OList items)).
  { rewrite Hother; [exact Htags1 | exact Hdistinct]. }
  split; [| exact Htags2'].
  apply (has_tag_run h2 self this items tag Hself2 Htags2').
Qed.

(** X19: the next occurrence of a recurring chore recurs in the same
    way: asking it for its own next occurrence gives a chore twice the
    interval after the original, with the same recurrence settings. *)
Theorem next_occurrence_twice
    (h : heap) (self : loc) (this : instance) (c : Attrs.Chore.t)
    (items : list string) :
  h !! self = Some (OInstance this) ->
  cls this = IsChore c ->
  Attrs.Chore.is_recurring c = true ->
  Day.valid (Attrs.Event.day this) = true ->
  h !! Attrs.Event.tags this = Some (OList items) ->
  0 < datetime_date.toordinal (Day.date (Attrs.Event.day this))
      + Attrs.Chore.recurrence_days c <= datetime_date._MAXORDINAL ->
  0 < datetime_date.toordinal (Day.date (Attrs.Event.day this))
      + 2 * Attrs.Chore.recurrence_days c <= datetime_date._MAXORDINAL ->
  exists first second h1 h2 that,
    Chore.get_next_occurrence self h = Ok (Some first, h1) /\
    Chore.get_next_occurrence first h1 = Ok (Some second, h2) /\
    first <> second /\
    h2 !! second = Some (OInstance that) /\
    cls that = IsChore c /\
    Day.valid (Attrs.Event.day that) = true /\
    datetime_date.toordinal (Day.date (Attrs.Event.day that))
    = datetime_date.toordinal (Day.date (Attrs.Event.day this))
      + 2 * Attrs.Chore.recurrence_days c /\
    Attrs.Event.title that = Attrs.Event.title this /\
    Attrs.Event.time_range that = Attrs.Event.time_range this.
Proof.
  intros Hself Hcls Hrec Hday Htags Hrange Hrange2.
  destruct (get_next_occurrence_run h self this c items Hself Hcls Hrec Hday
              Htags Hrange) as (day1 & Hv1 & Hord1 & Hrun1).
  set (one := mk_instance
                (Attrs.Event.mk (Attrs.Event.title this) day1
                   (Attrs.Event.time_range this)
                   (Attrs.Event.description this)
                   (Attrs.Event.priority this) SCHEDULED (length h)
                   (Attrs.Event.notes this)) (IsChore c)) in *.
  set (h1 := (h ++ [OList items]) ++ [OInstance one]) in *.
  assert (Hone : h1 !! S (length h) = Some (OInstance one))
    by apply lookup_snoc2.
  assert (Hcopy : h1 !! Attrs.Event.tags one = Some (OList items))
    by (apply lookup_snoc_old, lookup_snoc).
  destruct (get_next_occurrence_run h1 (S (length h)) one c items Hone
              eq_refl Hrec Hv1 Hcopy ltac:(simpl; lia))
    as (day2 & Hv2 & Hord2 & Hrun2).
  do 5 eexists. split; [exact Hrun1 |]. split; [exact Hrun2 |].
  split; [subst h1; rewrite !length_app; simpl; lia |].
  split; [apply lookup_snoc2 |]. simpl.
  repeat split; try assumption. simpl in Hord2. lia.
Qed.

End SharingFacts.

(** ** The schedule: further queries *)

Section ReverseSortFacts.

Context {A K : Type} (lt : K -> K -> bool) (key : A -> K).

Lemma list_sort_reverse_perm l : list_sort_reverse lt key l ≡ₚ l.
Proof.
  unfold list_sort_reverse.
  rewrite <- Permutation_rev, list_sort_perm, <- Permutation_rev.
  reflexivity.
Qed.

Lemma StronglySorted_rev (R : A -> A -> Prop) l :
  StronglySorted R l -> StronglySorted (fun x y => R y x) (rev l).
Proof.
  induction 1 as [| x l Hl IH Hx]; simpl; [constructor |].
  apply StronglySorted_app. split; [| split].
  - intros y z Hy Hz. apply list_elem_of_singleton in Hz. subst z.
    rewrite Forall_forall in Hx. apply Hx.
    apply list_elem_of_In, in_rev, list_elem_of_In in Hy. exact Hy.
  - exact IH.
  - repeat constructor.
Qed.

Lemma StronglySorted_take (R : A -> A -> Prop) n l :
  StronglySorted R l -> StronglySorted R (take n l).
Proof.
  intros H. rewrite <- (take_drop n l) in H.
  eapply StronglySorted_app_1_l, H.
Qed.

Lemma StronglySorted_weaken (R R' : A -> A -> Prop) l :
  (forall x y, R x y -> R' x y) ->
  StronglySorted R l -> StronglySorted R' l.
Proof.
  intros HR. induction 1 as [| x l Hl IH Hx]; constructor; [exact IH |].
  eapply Forall_impl; [exact Hx | apply HR].
Qed.

Hypothesis lt_asym : forall a b, lt a b = true -> lt b a = false.
Hypothesis le_trans :
  forall a b c, lt b a = false -> lt c b = false -> lt c a = false.

(** After a reverse sort no element is smaller than a later one. *)
Lemma list_sort_reverse_sorted l :
  StronglySorted (fun x y => lt (key x) (key y) = false)
    (list_sort_reverse lt key l).
Proof.
  unfold list_sort_reverse.
  apply (StronglySorted_rev (key_le lt key)).
  apply list_sort_sorted; assumption.
Qed.

End ReverseSortFacts.

Section DayTimeOrder.

Ltac to_prop :=
  repeat match goal with
  | H : _ = false |- _ => apply not_true_iff_false in H
  | |- _ = false => apply not_true_iff_false
  end;
  rewrite ?orb_true_iff, ?andb_true_iff, ?Z.ltb_lt, ?Z.eqb_eq in *.

Lemma datetime_time_lt_trans a b c :
  datetime_time.lt a b = true -> datetime_time.lt b c = true ->
  datetime_time.lt a c = true.
Proof.
  destruct a as [[h1 m1] s1], b as [[h2 m2] s2], c as [[h3 m3] s3]; simpl.
  intros H1 H2. to_prop. lia.
Qed.

Lemma Day_ltb_asym a b : Day.ltb a b = true -> Day.ltb b a = false.
Proof. apply datetime_time_lt_asym. Qed.

Lemma Day_ltb_trans a b c :
  Day.ltb a b = true -> Day.ltb b c = true -> Day.ltb a c = true.
Proof. apply datetime_time_lt_trans. Qed.

Lemma Day_le_trans a b c :
  Day.ltb b a = false -> Day.ltb c b = false -> Day.ltb c a = false.
Proof. apply datetime_time_le_trans. Qed.

Lemma Day_ltb_irrefl a : Day.ltb a a = false.
Proof. apply datetime_time_lt_irrefl. Qed.

Lemma Day_trichotomy a b : Day.ltb a b = true \/ a = b \/ Day.ltb b a = true.
Proof.
  destruct (date_trichotomy (Day.date a) (Day.date b)) as [H | [H | H]];
    [left; exact H | right; left | right; right; exact H].
  destruct a, b. unfold Day.date in H. simpl in H. congruence.
Qed.

(** [x] is not before [y] in the order of the pairs (day, start time). *)
Lemma day_time_lt_false x y :
  day_time_lt x y = false
  <-> Day.ltb y.1 x.1 = true \/ (x.1 = y.1 /\ Time.ltb x.2 y.2 = false).
Proof.
  unfold day_time_lt. destruct (Day.eqb x.1 y.1) eqn:Heq.
  - apply Day_eqb_eq in Heq. rewrite Heq, Day_ltb_irrefl. intuition congruence.
  - assert (Hne : x.1 <> y.1).
    { intros H. apply Day_eqb_eq in H. congruence. }
    split.
    + intros Hlt. left.
      destruct (Day_trichotomy x.1 y.1) as [H | [H | H]];
        [congruence | contradiction | exact H].
    + intros [H | [H _]]; [apply Day_ltb_asym, H | contradiction].
Qed.

Lemma day_time_lt_asym a b :
  day_time_lt a b = true -> day_time_lt b a = false.
Proof.
  intros H. apply day_time_lt_false. unfold day_time_lt in H.
  destruct (Day.eqb a.1 b.1) eqn:Heq.
  - apply Day_eqb_eq in Heq. right. split; [congruence |].
    apply Time_ltb_asym, H.
  - left. exact H.
Qed.

Lemma day_time_le_trans a b c :
  day_time_lt b a = false -> day_time_lt c b = false ->
  day_time_lt c a = false.
Proof.
  rewrite !day_time_lt_false.
  intros [H1 | [H1 H1']] [H2 | [H2 H2']].
  - left. eapply Day_ltb_trans; eassumption.
  - left. rewrite H2. exact H1.
  - left. rewrite <- H1. exact H2.
  - right. split; [congruence |]. eapply Time_le_trans; eassumption.
Qed.

End DayTimeOrder.

Section MoreScheduleFacts.

Variable obj : loc -> instance.

Abbreviation day_of := (Schedule.day_of obj).
Abbreviation start_of := (Schedule.start_of obj).
Abbreviation index_ok := (Schedule.index_ok obj).

Ltac run_monad :=
  unfold mbind, mret, M_bind, M_ret, lift, get_state, put_state,
    Schedule.set_events, Schedule.set_bucket in *.

Lemma list_remove_snoc x l : x ∉ l -> list_remove x (l ++ [x]) = Ok l.
Proof.
  induction l as [| y l IH]; intros Hnot; simpl.
  - rewrite decide_True by reflexivity. reflexivity.
  - apply not_elem_of_cons in Hnot as [Hne Hnot].
    rewrite decide_False by congruence. rewrite IH by exact Hnot. reflexivity.
Qed.

Lemma list_remove_absent x l : x ∉ l -> list_remove x l = Raise ValueError.
Proof.
  induction l as [| y l IH]; intros Hnot; simpl; [reflexivity |].
  apply not_elem_of_cons in Hnot as [Hne Hnot].
  rewrite decide_False by congruence. rewrite IH by exact Hnot. reflexivity.
Qed.

(** X20: an event that is not in the schedule can be added and removed
    again: both calls return [True], the event list and the events of
    every day are as before, and a second removal returns [False] and
    changes nothing. *)
Theorem add_then_remove_event (e : loc) (s : Schedule.t) :
  index_ok s -> e ∉ Schedule.events s ->
  exists s1 s2,
    Schedule.add_event obj e false s = Ok (true, s1) /\
    Schedule.remove_event obj e s1 = Ok (true, s2) /\
    Schedule.name s2 = Schedule.name s /\
    Schedule.events s2 = Schedule.events s /\
    (forall d, Schedule.bucket_of s2 d = Schedule.bucket_of s d) /\
    Schedule.remove_event obj e s2 = Ok (false, s2).
Proof.
  intros Hok Hnot.
  pose proof (add_event_cases obj e false s) as Hadd. simpl in Hadd.
  exists (Schedule.added obj e s).
  pose proof (index_ok_added obj e s Hok) as Hok1.
  assert (Hin : e ∈ Schedule.events (Schedule.added obj e s)).
  { simpl. apply elem_of_app. right. left. }
  destruct (remove_event_present obj e _ Hok1 Hin)
    as (remaining & on_day & Hrem & Hday & Hrun).
  simpl in Hrem. rewrite (list_remove_snoc e _ Hnot) in Hrem.
  injection Hrem as <-.
  assert (Hbucket : Schedule.bucket_of (Schedule.added obj e s) (day_of e)
                    = Schedule.bucket_of s (day_of e) ++ [e]).
  { unfold Schedule.added. rewrite bucket_of_insert.
    rewrite decide_True by reflexivity. reflexivity. }
  assert (Hnot' : e ∉ Schedule.bucket_of s (day_of e)).
  { rewrite (Hok (day_of e)). rewrite list_elem_of_filter. tauto. }
  rewrite Hbucket, (list_remove_snoc e _ Hnot') in Hday.
  injection Hday as <-.
  eexists. split; [exact Hadd |]. split; [exact Hrun |].
  split; [reflexivity |]. split; [reflexivity |]. split.
  - intros d. rewrite bucket_of_insert.
    destruct (decide (day_of e = d)) as [<- | Hne]; [reflexivity |].
    unfold Schedule.added. rewrite bucket_of_insert.
    rewrite decide_False by exact Hne. reflexivity.
  - apply remove_event_absent. exact Hnot.
Qed.

End MoreScheduleFacts.

Section StaleIndexFacts.

Ltac run_monad :=
  unfold mbind, mret, M_bind, M_ret, lift, get_state, put_state,
    Schedule.set_events, Schedule.set_bucket in *.

(** X21: an event whose day was changed with [reschedule] after it was
    added cannot be removed: [remove_event] looks for it under the new
    day and raises [ValueError].  The index still lists the event under
    its old day and not under the new one. *)
Theorem remove_event_after_reschedule
    (obj obj' : loc -> instance) (h h' : heap) (s : Schedule.t) (e : loc)
    (new_day : Day.t) (new_time_range : TimeRange.t) :
  Schedule.index_ok obj s ->
  e ∈ Schedule.events s ->
  h !! e = Some (OInstance (obj e)) ->
  Event.reschedule e new_day new_time_range h = Ok (tt, h') ->
  h' !! e = Some (OInstance (obj' e)) ->
  new_day <> Schedule.day_of obj e ->
  Schedule.day_of obj' e = new_day /\
  Attrs.Event.status (obj' e) = RESCHEDULED /\
  Schedule.remove_event obj' e s = Raise ValueError /\
  e ∈ Schedule.bucket_of s (Schedule.day_of obj e) /\
  e ∉ Schedule.bucket_of s new_day.
Proof.
  intros Hok Hin Hobj Hres Hobj' Hday.
  assert (Hnew : obj' e
                 = mk_instance
                     (Event.rescheduled new_day new_time_range (obj e))
                     (cls (obj e))).
  { unfold Event.reschedule in Hres.
    unfold mbind, M_bind, read_instance, write_instance in Hres.
    rewrite Hobj in Hres. rewrite Hobj in Hres. injection Hres as Hh'.
    assert (Hlt : (e < length h)%nat) by (eapply lookup_lt_Some, Hobj).
    assert (Hl : h' !! e
                 = Some (OInstance
                           (mk_instance
                              (Event.rescheduled new_day new_time_range
                                 (obj e))
                              (cls (obj e))))).
    { rewrite <- Hh'. apply list_lookup_insert_eq. exact Hlt. }
    congruence. }
  assert (Hd : Schedule.day_of obj' e = new_day).
  { unfold Schedule.day_of. rewrite Hnew. reflexivity. }
  assert (Hnot : e ∉ Schedule.bucket_of s new_day).
  { rewrite (Hok new_day), list_elem_of_filter. intros [Heq _].
    apply Hday. symmetry. exact Heq. }
  split; [exact Hd |]. split; [rewrite Hnew; reflexivity |].
  split; [| split; [| exact Hnot]].
  - destruct (list_remove_elem e _ Hin) as (remaining & Hrem).
    unfold Schedule.remove_event. run_monad.
    rewrite decide_True by exact Hin. rewrite Hrem. rewrite Hd.
    destruct (bucket_run new_day
                (Schedule.mk (Schedule.name s) remaining
                   (Schedule._events_by_day s)))
      as (s' & Hb & _).
    rewrite Hb.
    replace (Schedule.bucket_of
               (Schedule.mk (Schedule.name s) remaining
                  (Schedule._events_by_day s)) new_day)
      with (Schedule.bucket_of s new_day) by reflexivity.
    rewrite (list_remove_absent e _ Hnot). reflexivity.
  - rewrite (Hok (Schedule.day_of obj e)), list_elem_of_filter. auto.
Qed.

End StaleIndexFacts.

Section QueryFacts.

Variable obj : loc -> instance.

Abbreviation day_of := (Schedule.day_of obj).
Abbreviation start_of := (Schedule.start_of obj).
Abbreviation index_ok := (Schedule.index_ok obj).

(** X22: a date range whose end is before its start holds no events;
    the range from a day to the same day holds the events of that day in
    the order of the event list, which are the events that
    [get_events_on_day] returns sorted by start time. *)
Theorem get_events_in_date_range_of_a_day
    (s : Schedule.t) (start_day end_day d : Day.t) :
  (Day.ltb end_day start_day = true ->
   Schedule.get_events_in_date_range obj start_day end_day s = []) /\
  Schedule.get_events_in_date_range obj d d s
  = filter (fun e => day_of e = d) (Schedule.events s) /\
  (index_ok s ->
   exists on_day s',
     Schedule.get_events_on_day obj d s = Ok (on_day, s') /\
     on_day ≡ₚ Schedule.get_events_in_date_range obj d d s).
Proof.
  assert (Hsame : Schedule.get_events_in_date_range obj d d s
                  = filter (fun e => day_of e = d) (Schedule.events s)).
  { unfold Schedule.get_events_in_date_range. apply list_filter_iff.
    intros e. unfold Day.leb. fold (Day.ltb (day_of e) d).
    fold (Day.ltb d (day_of e)).
    rewrite andb_true_iff, !negb_true_iff. split.
    - intros [H1 H2].
      destruct (Day_trichotomy (day_of e) d) as [H | [H | H]];
        [congruence | exact H | congruence].
    - intros ->. rewrite Day_ltb_irrefl. auto. }
  split; [| split; [exact Hsame |]].
  - intros Hlt. clear Hsame. unfold Schedule.get_events_in_date_range.
    induction (Schedule.events s) as [| e l IH]; [reflexivity |].
    rewrite filter_cons, IH. rewrite decide_False; [reflexivity |].
    unfold Day.leb. fold (Day.ltb (day_of e) start_day).
    fold (Day.ltb end_day (day_of e)).
    rewrite andb_true_iff, !negb_true_iff. intros [H1 H2].
    pose proof (Day_le_trans _ _ _ H1 H2) as H. congruence.
  - intros Hok.
    destruct (get_events_on_day_run obj d s) as (s' & Hrun & _).
    do 2 eexists. split; [exact Hrun |].
    rewrite Hsame, list_sort_perm, (Hok d). reflexivity.
Qed.

(** X23: every event is either upcoming from a day or past until that
    day, never both: the two lists together are the event list up to
    order.  The upcoming events come earliest day first and, within a
    day, earliest start first; the past events the other way round.  A
    limit that is not negative keeps that many events from the front; and
    without [from_day] the upcoming events are those from today on. *)
Theorem upcoming_and_past_events
    (today d : Day.t) (s : Schedule.t) (limit : Z) :
  let upcoming := Schedule.get_upcoming_events obj today (Some d) None s in
  let past := Schedule.get_past_events obj today (Some d) None s in
  upcoming ++ past ≡ₚ Schedule.events s /\
  (forall e, e ∈ upcoming <->
             e ∈ Schedule.events s /\ Day.ltb (day_of e) d = false) /\
  (forall e, e ∈ past <->
             e ∈ Schedule.events s /\ Day.ltb (day_of e) d = true) /\
  StronglySorted
    (fun x y => Day.ltb (day_of x) (day_of y) = true \/
                (day_of x = day_of y /\
                 Time.ltb (start_of y) (start_of x) = false))
    upcoming /\
  StronglySorted
    (fun x y => Day.ltb (day_of y) (day_of x) = true \/
                (day_of x = day_of y /\
                 Time.ltb (start_of x) (start_of y) = false))
    past /\
  (0 <= limit ->
   Schedule.get_upcoming_events obj today (Some d) (Some limit) s
   = take (Z.to_nat limit) upcoming /\
   Schedule.get_past_events obj today (Some d) (Some limit) s
   = take (Z.to_nat limit) past) /\
  Schedule.get_upcoming_events obj today None None s
  = Schedule.get_upcoming_events obj today (Some today) None s.
Proof.
  intros upcoming past.
  set (key := fun e => (day_of e, start_of e)).
  assert (Hup : upcoming
                ≡ₚ filter (fun e => Day.geb (day_of e) d = true)
                     (Schedule.events s)).
  { apply list_sort_perm. }
  assert (Hpast : past
                  ≡ₚ filter (fun e => Day.ltb (day_of e) d = true)
                       (Schedule.events s)).
  { apply list_sort_reverse_perm. }
  assert (Hgeb : forall e, Day.geb (day_of e) d = true
                           <-> ~ Day.ltb (day_of e) d = true).
  { intros e. unfold Day.geb. fold (Day.ltb (day_of e) d).
    rewrite negb_true_iff, not_true_iff_false. reflexivity. }
  split; [| split; [| split; [| split; [| split; [| split]]]]].
  - rewrite Hup, Hpast.
    rewrite (list_filter_iff _ (fun e => ~ Day.ltb (day_of e) d = true))
      by exact Hgeb.
    rewrite Permutation_app_comm. apply filter_app_complement.
  - intros e. rewrite Hup, list_elem_of_filter, Hgeb, not_true_iff_false.
    tauto.
  - intros e. rewrite Hpast, list_elem_of_filter. tauto.
  - eapply StronglySorted_weaken;
      [| apply (list_sort_sorted day_time_lt key day_time_lt_asym
                  day_time_le_trans)].
    intros x y Hxy. apply day_time_lt_false in Hxy. simpl in Hxy.
    intuition congruence.
  - eapply StronglySorted_weaken;
      [| apply (list_sort_reverse_sorted day_time_lt key day_time_lt_asym
                  day_time_le_trans)].
    intros x y Hxy. apply day_time_lt_false in Hxy. simpl in Hxy.
    intuition congruence.
  - intros Hlimit. unfold Schedule.get_upcoming_events,
      Schedule.get_past_events, slice_to.
    rewrite (proj2 (Z.leb_le 0 limit) Hlimit). split; reflexivity.
  - reflexivity.
Qed.

End QueryFacts.

Section BusiestDays.

Variable obj : loc -> instance.

Abbreviation day_of := (Schedule.day_of obj).

Lemma slice_to_take {A : Type} (limit : Z) (l : list A) :
  exists n, slice_to limit l = take n l.
Proof. unfold slice_to. destruct (0 <=? limit); eauto. Qed.

Lemma count_day_days day cs :
  (Schedule.count_day day cs).*1
  = if decide (day ∈ cs.*1) then cs.*1 else cs.*1 ++ [day].
Proof.
  induction cs as [| [d n] cs IH].
  - destruct (decide (day ∈ ([] : list (Day.t * Z)).*1)) as [Hin | _];
      [inversion Hin | reflexivity].
  - cbn [Schedule.count_day].
    destruct (decide (d = day)) as [-> | Hne].
    + destruct (decide (day ∈ ((day, n) :: cs).*1)) as [_ | Hnot];
        [reflexivity |].
      exfalso. apply Hnot. left.
    + rewrite fmap_cons, IH. cbn [fst].
      destruct (decide (day ∈ cs.*1)) as [Hin | Hnot];
        destruct (decide (day ∈ ((d, n) :: cs).*1)) as [Hin' | Hnot'];
        try reflexivity.
      * exfalso. apply Hnot'. right. exact Hin.
      * exfalso. rewrite fmap_cons in Hin'.
        apply elem_of_cons in Hin' as [Heq | Hin']; [| contradiction].
        simpl in Heq. congruence.
Qed.

Lemma count_day_elem day cs d n :
  NoDup cs.*1 ->
  (d, n) ∈ Schedule.count_day day cs ->
  (d <> day /\ (d, n) ∈ cs) \/
  (d = day /\ ((d, n - 1) ∈ cs \/ ((day ∉ cs.*1) /\ n = 1))).
Proof.
  induction cs as [| [d' n'] cs IH]; simpl; intros Hnd Hin.
  - apply list_elem_of_singleton in Hin. injection Hin as -> ->.
    right. split; [reflexivity |]. right. split; [apply not_elem_of_nil | lia].
  - apply NoDup_cons in Hnd as [Hd' Hnd].
    destruct (decide (d' = day)) as [-> | Hne].
    + apply elem_of_cons in Hin as [Hin | Hin].
      * injection Hin as -> ->. right. split; [reflexivity |]. left.
        replace (n' + 1 - 1) with n' by lia. left.
      * destruct (decide (d = day)) as [-> | Hdne].
        -- exfalso. apply Hd'. apply list_elem_of_fmap.
           exists (day, n). split; [reflexivity | exact Hin].
        -- left. split; [exact Hdne | right; exact Hin].
    + apply elem_of_cons in Hin as [Hin | Hin].
      * injection Hin as -> ->. left. split; [exact Hne | left].
      * destruct (IH Hnd Hin) as [[H1 H2] | [H1 [H2 | [H2 H3]]]].
        -- left. split; [exact H1 | right; exact H2].
        -- right. split; [exact H1 |]. left. right. exact H2.
        -- right. split; [exact H1 |]. right. split; [| exact H3].
           rewrite elem_of_cons. intuition congruence.
Qed.

Lemma count_day_length day cs :
  (length (Schedule.count_day day cs) <= S (length cs))%nat.
Proof.
  induction cs as [| [d n] cs IH]; simpl; [lia |].
  destruct (decide (d = day)); simpl; lia.
Qed.

Lemma day_counts_length (l : list loc) :
  (length (foldl (fun day_counts event =>
                    Schedule.count_day (day_of event) day_counts) [] l)
   <= length l)%nat.
Proof.
  induction l as [| e l IH] using rev_ind; [simpl; lia |].
  rewrite foldl_snoc, length_app. simpl.
  pose proof (count_day_length (day_of e)
                (foldl (fun day_counts event =>
                          Schedule.count_day (day_of event) day_counts) [] l)).
  lia.
Qed.

(** The table of counts after the loop over the events. *)
Lemma day_counts_ok (l : list loc) :
  let cs := foldl (fun day_counts event =>
                     Schedule.count_day (day_of event) day_counts) [] l in
  NoDup cs.*1 /\
  (forall d n, (d, n) ∈ cs ->
     n = Z.of_nat (length (filter (fun e => day_of e = d) l)) /\ 1 <= n) /\
  (forall e, e ∈ l -> day_of e ∈ cs.*1).
Proof.
  induction l as [| e l IH] using rev_ind; simpl.
  - split; [constructor |]. split.
    + intros d n H. inversion H.
    + intros e H. inversion H.
  - rewrite foldl_snoc.
    set (cs := foldl (fun day_counts event =>
                        Schedule.count_day (day_of event) day_counts) [] l) in *.
    destruct IH as (Hnd & Hcount & Hdays).
    split; [| split].
    + rewrite count_day_days. destruct (decide (day_of e ∈ cs.*1)) as [| Hnot];
        [exact Hnd |].
      apply NoDup_app. split; [exact Hnd |]. split; [| apply NoDup_singleton].
      intros x Hx Hx'. apply list_elem_of_singleton in Hx'. congruence.
    + intros d n Hin. rewrite filter_app, length_app, filter_cons, filter_nil.
      destruct (count_day_elem _ _ _ _ Hnd Hin)
        as [[Hne Hin'] | [-> [Hin' | [Hnot ->]]]].
      * rewrite decide_False by congruence.
        destruct (Hcount d n Hin') as [-> Hpos]. simpl length. split; lia.
      * rewrite decide_True by reflexivity.
        destruct (Hcount _ _ Hin') as [Heq Hpos]. simpl length. split; lia.
      * rewrite decide_True by reflexivity. simpl length.
        assert (Hnone : filter (fun e0 => day_of e0 = day_of e) l = []).
        { destruct (filter (fun e0 => day_of e0 = day_of e) l) as [| x rest]
            eqn:Hf; [reflexivity |].
          assert (Hx : x ∈ filter (fun e0 => day_of e0 = day_of e) l)
            by (rewrite Hf; left).
          apply list_elem_of_filter in Hx as [Hday Hx].
          exfalso. apply Hnot. rewrite <- Hday. apply Hdays, Hx. }
        rewrite Hnone. simpl. split; lia.
    + intros x Hx. rewrite count_day_days.
      apply elem_of_app in Hx as [Hx | Hx].
      * destruct (decide (day_of e ∈ cs.*1)); [apply Hdays, Hx |].
        apply elem_of_app. left. apply Hdays, Hx.
      * apply list_elem_of_singleton in Hx. subst x.
        destruct (decide (day_of e ∈ cs.*1)) as [Hin | Hnot]; [exact Hin |].
        apply elem_of_app. right. left.
Qed.

(** X24: [get_busiest_days] lists no day twice; the count it gives for
    a day is the number of events on that day, which is at least one;
    the counts never increase along the list; a limit that is not
    negative bounds the length; and when the limit is at least the number
    of events, every day with an event is listed. *)
Theorem get_busiest_days_counts (limit : Z) (s : Schedule.t) :
  let busiest := Schedule.get_busiest_days obj limit s in
  NoDup busiest.*1 /\
  (forall d n, (d, n) ∈ busiest -> n = Schedule.events_on obj s d /\ 1 <= n) /\
  StronglySorted (fun x y => x.2 >= y.2) busiest /\
  (0 <= limit -> Z.of_nat (length busiest) <= limit) /\
  (Schedule.len s <= limit ->
   forall e, e ∈ Schedule.events s -> day_of e ∈ busiest.*1).
Proof.
  intros busiest. subst busiest. unfold Schedule.get_busiest_days.
  set (cs := foldl (fun day_counts event =>
                      Schedule.count_day (day_of event) day_counts) []
               (Schedule.events s)).
  destruct (day_counts_ok (Schedule.events s)) as (Hnd & Hcount & Hdays).
  fold cs in Hnd, Hcount, Hdays.
  set (sorted_days := list_sort_reverse Z.ltb snd cs).
  assert (Hperm : sorted_days ≡ₚ cs) by apply list_sort_reverse_perm.
  assert (Hsorted : StronglySorted (fun x y => x.2 >= y.2) sorted_days).
  { eapply StronglySorted_weaken;
      [| apply (list_sort_reverse_sorted Z.ltb snd)].
    - intros x y H. apply Z.ltb_ge in H. lia.
    - intros a b H. apply Z.ltb_lt in H. apply Z.ltb_ge. lia.
    - intros a b c H1 H2. apply Z.ltb_ge in H1, H2. apply Z.ltb_ge. lia. }
  destruct (slice_to_take limit sorted_days) as (n & Hslice).
  split; [| split; [| split; [| split]]].
  - rewrite Hslice. rewrite fmap_take.
    eapply sublist_NoDup; [| apply sublist_take]. rewrite Hperm. exact Hnd.
  - intros d k Hin. apply Hcount. rewrite <- Hperm.
    rewrite Hslice in Hin. rewrite <- (take_drop n sorted_days).
    apply elem_of_app. left. exact Hin.
  - rewrite Hslice. apply StronglySorted_take, Hsorted.
  - intros Hlimit. unfold slice_to.
    rewrite (proj2 (Z.leb_le 0 limit) Hlimit), length_take. lia.
  - intros Hlen e He. unfold Schedule.len in Hlen.
    pose proof (day_counts_length (Schedule.events s)) as Hshort.
    fold cs in Hshort.
    assert (Hall : slice_to limit sorted_days = sorted_days).
    { unfold slice_to. rewrite (proj2 (Z.leb_le 0 limit)) by lia.
      apply take_ge. rewrite Hperm. lia. }
    rewrite Hall, Hperm. apply Hdays, He.
Qed.

End BusiestDays.

Section StatisticsFacts.

Variable obj : loc -> instance.

Ltac run_monad :=
  unfold mbind, mret, M_bind, M_ret, lift, get_state, put_state,
    Schedule.set_events, Schedule.set_bucket in *.





End StatisticsFacts.

Section TotalTimeFacts.

Variable obj : loc -> instance.

Abbreviation day_of := (Schedule.day_of obj).
Abbreviation start_of := (Schedule.start_of obj).
Abbreviation index_ok := (Schedule.index_ok obj).

Ltac run_monad :=
  unfold mbind, mret, M_bind, M_ret, lift, get_state, put_state,
    Schedule.set_events, Schedule.set_bucket in *.

Lemma foldl_add_start (a : Z) (l : list Z) :
  foldl Z.add a l = a + foldl Z.add 0 l.
Proof.
  revert a. induction l as [| x l IH]; intros a; simpl; [lia |].
  rewrite (IH (a + x)), (IH (0 + x)). lia.
Qed.

Lemma sum_durations_cons e l :
  Schedule.sum_durations obj (e :: l)
  = Event.get_duration_minutes (obj e) + Schedule.sum_durations obj l.
Proof.
  unfold Schedule.sum_durations. simpl. apply foldl_add_start.
Qed.

Lemma sum_durations_perm l l' :
  l ≡ₚ l' -> Schedule.sum_durations obj l = Schedule.sum_durations obj l'.
Proof.
  induction 1 as [| x l l' _ IH | x y l | l l' l'' _ IH1 _ IH2];
    rewrite ?sum_durations_cons; [reflexivity | lia | lia | congruence].
Qed.

Lemma sum_durations_snoc l e :
  Schedule.sum_durations obj (l ++ [e])
  = Schedule.sum_durations obj l + Event.get_duration_minutes (obj e).
Proof.
  rewrite (sum_durations_perm (l ++ [e]) (e :: l)).
  - rewrite sum_durations_cons. lia.
  - rewrite Permutation_app_comm. reflexivity.
Qed.

Lemma total_scheduled_time_run day s :
  exists s',
    Schedule.get_total_scheduled_time obj day s
    = Ok (Schedule.sum_durations obj
            (match day with
             | Some d => Schedule.bucket_of s d
             | None => Schedule.events s
             end), s') /\
    Schedule.events s' = Schedule.events s /\
    (forall d, Schedule.bucket_of s' d = Schedule.bucket_of s d).
Proof.
  unfold Schedule.get_total_scheduled_time. destruct day as [d |].
  - destruct (get_events_on_day_run obj d s)
      as (s' & Hrun & _ & Hev & Hbuckets & _).
    exists s'. unfold mbind, M_bind. rewrite Hrun.
    split; [| split; assumption].
    unfold mret, M_ret. f_equal. f_equal.
    apply sum_durations_perm, list_sort_perm.
  - exists s. run_monad. auto.
Qed.

(** X30: adding an event without the conflict check always succeeds
    and makes the schedule one event longer; the total scheduled time
    grows by the duration of the event, both over all events and for the
    day of the event, and stays the same for any other day. *)
Theorem add_event_total_scheduled_time (e : loc) (s : Schedule.t)
    (day : option Day.t) :
  exists s1 before s2 after s3,
    Schedule.add_event obj e false s = Ok (true, s1) /\
    Schedule.len s1 = Schedule.len s + 1 /\
    Schedule.get_total_scheduled_time obj day s = Ok (before, s2) /\
    Schedule.get_total_scheduled_time obj day s1 = Ok (after, s3) /\
    after
    = before
      + (if decide (day = None \/ day = Some (day_of e))
         then Event.get_duration_minutes (obj e) else 0).
Proof.
  pose proof (add_event_cases obj e false s) as Hadd. simpl in Hadd.
  destruct (total_scheduled_time_run day s) as (s2 & Hbefore & _).
  destruct (total_scheduled_time_run day (Schedule.added obj e s))
    as (s3 & Hafter & _).
  do 5 eexists. split; [exact Hadd |]. split.
  { unfold Schedule.len. simpl. rewrite length_app. simpl. lia. }
  split; [exact Hbefore |]. split; [exact Hafter |].
  destruct day as [d |].
  - unfold Schedule.added. rewrite bucket_of_insert.
    destruct (decide (day_of e = d)) as [<- | Hne].
    + rewrite decide_True by (right; reflexivity).
      apply sum_durations_snoc.
    + rewrite decide_False; [lia |]. intros [H | H]; congruence.
  - rewrite decide_True by (left; reflexivity). simpl.
    apply sum_durations_snoc.
Qed.

End TotalTimeFacts.

Section PeriodDays.

(** The days of a week whose Sunday is still in the calendar. *)
Lemma week_get_days_run (w : Week.t) :
  Day.valid (Week.start_date w) = true ->
  datetime_date.toordinal (Day.date (Week.start_date w)) + 6
  <= datetime_date._MAXORDINAL ->
  exists days,
    Week.get_days w = Ok days /\
    Forall2 (fun i day =>
               Day.valid day = true /\
               datetime_date.toordinal (Day.date day)
               = datetime_date.toordinal (Day.date (Week.start_date w)) + i)
            (seqZ 0 7) days.
Proof.
  intros Hv Hmax. pose proof (toordinal_range _ Hv) as Hr.
  apply result_map_Forall2. intros i Hi. apply elem_of_seqZ in Hi.
  destruct (day_shift (Week.start_date w) i Hv ltac:(lia))
    as (day & Hrun & Hvd & Hord).
  exists day. unfold datetime_date.timedelta.
  replace (999999999 <? Z.abs i) with false
    by (symmetry; apply Z.ltb_ge; lia).
  split; [exact Hrun |]. split; [exact Hvd | exact Hord].
Qed.

(** A week that runs past the last day of the calendar has no days. *)
Lemma week_get_days_overflow (w : Week.t) :
  Day.valid (Week.start_date w) = true ->
  datetime_date._MAXORDINAL
  < datetime_date.toordinal (Day.date (Week.start_date w)) + 6 ->
  Week.get_days w = Raise OverflowError.
Proof.
  intros Hv Hover. pose proof (toordinal_range _ Hv) as Hr.
  set (monday := datetime_date.toordinal (Day.date (Week.start_date w))) in *.
  set (first := datetime_date._MAXORDINAL - monday + 1).
  assert (Hfirst : 1 <= first <= 6) by (subst first; lia).
  unfold Week.get_days.
  apply (result_map_raise _ (seqZ 0 first) first
           (seqZ (first + 1) (6 - first))).
  - assert (Hcases : first = 1 \/ first = 2 \/ first = 3 \/ first = 4 \/
                     first = 5 \/ first = 6) by lia.
    destruct Hcases as [-> | [-> | [-> | [-> | [-> | ->]]]]]; reflexivity.
  - intros i Hi. apply elem_of_seqZ in Hi.
    destruct (day_shift (Week.start_date w) i Hv
                ltac:(fold monday; subst first; lia))
      as (day & Hrun & _).
    exists day. unfold datetime_date.timedelta.
    replace (999999999 <? Z.abs i) with false
      by (symmetry; apply Z.ltb_ge; lia).
    exact Hrun.
  - unfold datetime_date.timedelta.
    replace (999999999 <? Z.abs first) with false
      by (symmetry; apply Z.ltb_ge; lia).
    unfold mbind, result_bind.
    destruct (add_cases (Day.date (Week.start_date w)) first Hv) as [_ ->];
      [reflexivity | fold monday; subst first; lia].
Qed.

Lemma StronglySorted_lookup {A : Type} (R : A -> A -> Prop) (l : list A) :
  (forall i j x y, l !! i = Some x -> l !! j = Some y -> (i < j)%nat -> R x y) ->
  StronglySorted R l.
Proof.
  induction l as [| x l IH]; intros H; constructor.
  - apply IH. intros i j a b Ha Hb Hij.
    apply (H (S i) (S j)); [exact Ha | exact Hb | lia].
  - apply Forall_lookup. intros j y Hy.
    apply (H 0%nat (S j)); [reflexivity | exact Hy | lia].
Qed.

Lemma StronglySorted_NoDup {A : Type} (R : A -> A -> Prop) (l : list A) :
  (forall x, ~ R x x) -> StronglySorted R l -> NoDup l.
Proof.
  intros Hirr. induction 1 as [| x l Hl IH Hx]; constructor; [| exact IH].
  intros Hin. rewrite Forall_forall in Hx. apply (Hirr x), Hx, Hin.
Qed.

Lemma filter_iff_elem {A : Type} (P Q : A -> Prop)
    `{forall x, Decision (P x)} `{forall x, Decision (Q x)} (l : list A) :
  (forall x, x ∈ l -> (P x <-> Q x)) -> filter P l = filter Q l.
Proof.
  induction l as [| x l IH]; intros Hiff; [reflexivity |].
  rewrite !filter_cons, IH by (intros y Hy; apply Hiff; right; exact Hy).
  specialize (Hiff x ltac:(left)).
  destruct (decide (P x)), (decide (Q x)); tauto.
Qed.

Lemma StronglySorted_Forall {A : Type} (R : A -> A -> Prop) (P : A -> Prop)
    (l : list A) :
  Forall P l -> StronglySorted R l ->
  StronglySorted (fun x y => R x y /\ P x /\ P y) l.
Proof.
  intros HP. induction 1 as [| x l Hl IH Hx]; constructor.
  - apply IH. eapply Forall_cons_1, HP.
  - apply Forall_cons_1 in HP as [Hpx HP].
    rewrite Forall_forall in Hx, HP |- *. intros y Hy. auto.
Qed.

End PeriodDays.

Section PeriodFacts.

Variable obj : loc -> instance.

Abbreviation day_of := (Schedule.day_of obj).
Abbreviation start_of := (Schedule.start_of obj).
Abbreviation index_ok := (Schedule.index_ok obj).

Ltac run_monad :=
  unfold mbind, mret, M_bind, M_ret, lift, get_state, put_state,
    Schedule.set_events, Schedule.set_bucket in *.

(** The events of a day as [get_events_on_day] lists them. *)
Abbreviation on_day l d :=
  (list_sort Time.ltb start_of (filter (fun e => day_of e = d) l)).

(** The loop over the days collects the events day by day and leaves
    the event list and the contents of the index as they are. *)
Lemma extend_with_days_run days :
  forall acc s,
    index_ok s ->
    exists s',
      Schedule.extend_with_days obj days acc s
      = Ok (acc ++ concat ((fun d => on_day (Schedule.events s) d) <$> days),
            s') /\
      Schedule.name s' = Schedule.name s /\
      Schedule.events s' = Schedule.events s /\
      index_ok s'.
Proof.
  induction days as [| d days IH]; intros acc s Hok; simpl.
  - exists s. rewrite app_nil_r. auto.
  - destruct (get_events_on_day_run obj d s)
      as (s1 & Hrun & Hname & Hev & Hbuckets & _).
    assert (Hok1 : index_ok s1) by (eapply index_ok_same; eassumption).
    destruct (IH (acc ++ on_day (Schedule.events s) d) s1 Hok1)
      as (s' & Hrun' & Hname' & Hev' & Hok').
    exists s'. unfold mbind, M_bind. rewrite Hrun, (Hok d), Hrun', Hev.
    rewrite <- app_assoc.
    split; [reflexivity |]. split; [congruence |]. split; [congruence |].
    exact Hok'.
Qed.

Lemma days_events_elem (l : list loc) days e :
  e ∈ concat ((fun d => on_day l d) <$> days) <-> e ∈ l /\ day_of e ∈ days.
Proof.
  induction days as [| d days IH]; simpl.
  - split; [intros H; inversion H | intros [_ H]; inversion H].
  - rewrite elem_of_app, IH, list_sort_perm, list_elem_of_filter,
      elem_of_cons.
    intuition congruence.
Qed.

Lemma days_events_perm (l : list loc) days :
  NoDup days ->
  concat ((fun d => on_day l d) <$> days)
  ≡ₚ filter (fun e => day_of e ∈ days) l.
Proof.
  induction 1 as [| d days Hd Hnd IH]; simpl.
  - induction l as [| e l IHl]; [reflexivity |].
    rewrite filter_cons. rewrite decide_False; [exact IHl |].
    apply not_elem_of_nil.
  - rewrite IH, list_sort_perm. clear IH.
    induction l as [| e l IHl]; [reflexivity |].
    rewrite !filter_cons.
    destruct (decide (day_of e = d)) as [Heq | Hne],
      (decide (day_of e ∈ days)) as [Hin | Hnot],
      (decide (day_of e ∈ d :: days)) as [Hin' | Hnot'].
    + exfalso. apply Hd. rewrite <- Heq. exact Hin.
    + exfalso. apply Hd. rewrite <- Heq. exact Hin.
    + simpl. rewrite IHl. reflexivity.
    + exfalso. apply Hnot'. rewrite Heq. left.
    + rewrite <- Permutation_middle, IHl. reflexivity.
    + exfalso. apply Hnot'. right. exact Hin.
    + exfalso. apply elem_of_cons in Hin' as [H | H]; contradiction.
    + exact IHl.
Qed.

Lemma days_events_sorted (rank : Day.t -> Z) (l : list loc) days :
  StronglySorted (fun a b => rank a < rank b) days ->
  StronglySorted
    (fun x y => rank (day_of x) < rank (day_of y) \/
                (day_of x = day_of y /\
                 Time.ltb (start_of y) (start_of x) = false))
    (concat ((fun d => on_day l d) <$> days)).
Proof.
  induction 1 as [| d days Hdays IH Hd]; simpl; [constructor |].
  apply StronglySorted_app. split; [| split; [| exact IH]].
  - intros x y Hx Hy. left.
    rewrite list_sort_perm in Hx. apply list_elem_of_filter in Hx as [-> _].
    apply days_events_elem in Hy as [_ Hy].
    rewrite Forall_forall in Hd. apply Hd, Hy.
  - eapply StronglySorted_weaken;
      [| apply (StronglySorted_Forall (key_le Time.ltb start_of)
                  (fun e => day_of e = d));
         [| apply (list_sort_sorted Time.ltb start_of Time_ltb_asym
                     Time_le_trans)]].
    + intros x y (Hxy & Hx & Hy). right. split; [congruence | exact Hxy].
    + apply Forall_forall. intros x Hx. rewrite list_sort_perm in Hx.
      apply list_elem_of_filter in Hx as [Hx _]. exact Hx.
Qed.

(** X26: for a week whose Sunday is still in the calendar,
    [get_events_in_week] returns the events of the seven days from the
    week's Monday on, each as often as it is in the event list, ordered
    by day and within a day by start time; the event list and the index
    of the schedule stay consistent.  For a week that runs past 31
    December 9999 it raises [OverflowError]. *)
Theorem get_events_in_week_range (s : Schedule.t) (w : Week.t) :
  index_ok s ->
  Day.valid (Week.start_date w) = true ->
  (forall e, e ∈ Schedule.events s -> Day.valid (day_of e) = true) ->
  let monday := datetime_date.toordinal (Day.date (Week.start_date w)) in
  let ord := fun e => datetime_date.toordinal (Day.date (day_of e)) in
  (monday + 6 <= datetime_date._MAXORDINAL ->
   exists events s',
     Schedule.get_events_in_week obj w s = Ok (events, s') /\
     Schedule.events s' = Schedule.events s /\
     index_ok s' /\
     events ≡ₚ filter (fun e => monday <= ord e <= monday + 6)
                 (Schedule.events s) /\
     StronglySorted
       (fun x y => ord x < ord y \/
                   (day_of x = day_of y /\
                    Time.ltb (start_of y) (start_of x) = false))
       events) /\
  (datetime_date._MAXORDINAL < monday + 6 ->
   Schedule.get_events_in_week obj w s = Raise OverflowError).
Proof.
  intros Hok Hv Hdays monday ord. split.
  - intros Hmax.
    destruct (week_get_days_run w Hv Hmax) as (days & Hrun & HF).
    fold monday in HF.
    destruct (extend_with_days_run days [] s Hok)
      as (s' & Hloop & _ & Hev & Hok').
    assert (Hsorted : StronglySorted
                        (fun a b => datetime_date.toordinal (Day.date a)
                                    < datetime_date.toordinal (Day.date b))
                        days).
    { apply StronglySorted_lookup. intros i j a b Ha Hb Hij.
      destruct (Forall2_lookup_r _ _ _ _ _ HF Ha) as (ka & Hka & _ & ->).
      destruct (Forall2_lookup_r _ _ _ _ _ HF Hb) as (kb & Hkb & _ & ->).
      apply lookup_seqZ in Hka as [-> _]. apply lookup_seqZ in Hkb as [-> _].
      lia. }
    assert (Hnd : NoDup days).
    { eapply StronglySorted_NoDup; [| exact Hsorted]. intros x. simpl. lia. }
    assert (Hmem : forall e, e ∈ Schedule.events s ->
              (day_of e ∈ days <-> monday <= ord e <= monday + 6)).
    { intros e He. split.
      - intros Hin. apply list_elem_of_lookup in Hin as [i Hi].
        destruct (Forall2_lookup_r _ _ _ _ _ HF Hi) as (k & Hk & _ & Hord).
        apply lookup_seqZ in Hk as [-> Hk]. subst ord. simpl. lia.
      - intros Hrange.
        assert (Hk : seqZ 0 7 !! Z.to_nat (ord e - monday)
                     = Some (ord e - monday)).
        { apply lookup_seqZ. lia. }
        destruct (Forall2_lookup_l _ _ _ _ _ HF Hk) as (day & Hday & Hvd & Hord).
        assert (day = day_of e) as <-;
          [| eapply list_elem_of_lookup_2; exact Hday].
        apply Day_toordinal_inj; [exact Hvd | apply Hdays, He |].
        subst ord. simpl in *. lia. }
    exists (concat ((fun d => on_day (Schedule.events s) d) <$> days)), s'.
    split; [| split; [exact Hev | split; [exact Hok' | split]]].
    + unfold Schedule.get_events_in_week, mbind, M_bind, lift.
      rewrite Hrun. exact Hloop.
    + rewrite (days_events_perm _ _ Hnd).
      rewrite (filter_iff_elem _ _ _ Hmem). reflexivity.
    + apply (days_events_sorted
               (fun d => datetime_date.toordinal (Day.date d))).
      exact Hsorted.
  - intros Hover. unfold Schedule.get_events_in_week, mbind, M_bind, lift.
    rewrite (week_get_days_overflow w Hv Hover). reflexivity.
Qed.


End PeriodFacts.

Section ServerFacts.

Import scheduler_server.

Lemma registry_ok_initial : registry_ok initial.
Proof. split; eexists; reflexivity. Qed.

Lemma registry_ok_after st c : registry_ok st -> registry_ok (after st c).
Proof.
  intros [Hdefault Hactive]. unfold after.
  destruct c as [name | name | name |]; simpl.
  - unfold create_schedule.
    destruct (decide (is_Some (schedules st !! name))) as [Hin | Hnot];
      [split; assumption |].
    split; simpl.
    + rewrite lookup_insert_ne; [exact Hdefault |].
      intros ->. contradiction.
    + rewrite lookup_insert_ne; [exact Hactive |].
      intros ->. contradiction.
  - unfold set_active_schedule.
    destruct (decide (is_Some (schedules st !! name))) as [Hin | Hnot];
      split; assumption.
  - unfold delete_schedule.
    destruct (decide (is_Some (schedules st !! name))) as [Hin | Hnot];
      [| split; assumption].
    destruct (decide (name = "default"%string)) as [-> | Hne];
      [split; assumption |].
    split; simpl.
    + rewrite lookup_delete_ne; [exact Hdefault | exact Hne].
    + destruct (decide (name = active_schedule_name st)) as [-> | Hne'].
      * rewrite lookup_delete_ne; [exact Hdefault | exact Hne].
      * rewrite lookup_delete_ne; [exact Hactive | exact Hne'].
  - unfold clear_schedule, get_active_schedule.
    destruct Hactive as [schedule Hactive]. rewrite Hactive.
    split; simpl.
    + destruct (decide (active_schedule_name st = "default"%string))
        as [Heq | Hne].
      * rewrite Heq, lookup_insert_eq. eexists; reflexivity.
      * rewrite lookup_insert_ne; [exact Hdefault | exact Hne].
    + rewrite lookup_insert_eq. eexists; reflexivity.
Qed.

Lemma registry_ok_after_all calls st :
  registry_ok st -> registry_ok (after_all calls st).
Proof.
  revert st. induction calls as [| c calls IH]; intros st Hok; [exact Hok |].
  apply IH, registry_ok_after, Hok.
Qed.

(** X28: after any sequence of calls of the schedule management tools,
    whether they succeed or raise, the active schedule exists, so
    [get_active_schedule] never raises [KeyError]; the default schedule
    exists and cannot be deleted; and deleting the active schedule makes
    the default schedule the active one. *)
Theorem active_schedule_always_exists (calls : list call) :
  let st := after_all calls initial in
  (exists schedule, get_active_schedule st = inr schedule) /\
  is_Some (schedules st !! "default"%string) /\
  delete_schedule "default" st
  = inl (ValueError "Cannot delete the default schedule") /\
  after st (DeleteSchedule (active_schedule_name st))
  = mk (if decide (active_schedule_name st = "default"%string)
        then schedules st
        else delete (active_schedule_name st) (schedules st))
       "default".
Proof.
  intros st.
  destruct (registry_ok_after_all calls initial registry_ok_initial)
    as [Hdefault Hactive].
  fold st in Hdefault, Hactive.
  split; [| split; [exact Hdefault | split]].
  - unfold get_active_schedule. destruct Hactive as [schedule ->]. eauto.
  - unfold delete_schedule. rewrite decide_True by exact Hdefault.
    reflexivity.
  - unfold after. simpl. unfold delete_schedule.
    rewrite decide_True by exact Hactive.
    destruct (decide (active_schedule_name st = "default"%string))
      as [Heq | Hne].
    + destruct st as [m a]; simpl in *. subst a. reflexivity.
    + rewrite decide_True by reflexivity. reflexivity.
Qed.

(** X29: in any state the server reaches, a name that is not in use
    can be given to a new schedule, which starts empty and does not
    become active; creating it a second time raises [ValueError]; and
    deleting it restores the state from before. *)
Theorem create_then_delete_schedule (calls : list call) (name : string) :
  let st := after_all calls initial in
  schedules st !! name = None ->
  exists message st1 message',
    create_schedule name st = inr (message, st1) /\
    schedules st1 !! name = Some (Schedule.init (Some name)) /\
    active_schedule_name st1 = active_schedule_name st /\
    create_schedule name st1
    = inl (ValueError ("Schedule '" +:+ name +:+ "' already exists")) /\
    delete_schedule name st1 = inr (message', st).
Proof.
  intros st Hnone.
  destruct (registry_ok_after_all calls initial registry_ok_initial)
    as [Hdefault Hactive].
  fold st in Hdefault, Hactive.
  assert (Hnot : ~ is_Some (schedules st !! name)).
  { rewrite Hnone. intros [x Hx]. discriminate. }
  assert (Hne : name <> "default"%string).
  { intros ->. contradiction. }
  assert (Hne' : name <> active_schedule_name st).
  { intros ->. contradiction. }
  unfold create_schedule. rewrite decide_False by exact Hnot.
  do 3 eexists. split; [reflexivity |]. simpl.
  rewrite lookup_insert_eq. split; [reflexivity |]. split; [reflexivity |].
  rewrite decide_True by (eexists; reflexivity). split; [reflexivity |].
  unfold delete_schedule. simpl. rewrite lookup_insert_eq.
  rewrite decide_True by (eexists; reflexivity).
  rewrite decide_False by exact Hne. rewrite decide_False by exact Hne'.
  rewrite delete_insert_eq, delete_id by exact Hnone.
  destruct st; reflexivity.
Qed.

End ServerFacts.

(** ** The further properties on the sample objects *)

(** Forty-five minutes after 23:30:15 is 00:15:15, and back. *)
Lemma add_minutes_compose_witness :
  exists t1,
    Time.add_minutes (Time.mk 23 30 15) 45 = Ok t1 /\
    Time.add_minutes t1 (- 45) = Ok (Time.mk 23 30 15).
Proof.
  destruct (add_minutes_compose (Time.mk 23 30 15) 45 0 eq_refl)
    as (t1 & Hrun & _ & _ & Hback & _).
  exists t1. split; assumption.
Defined.

(** Ninety minutes after 20:00, the difference is ninety minutes. *)
Lemma difference_after_add_minutes_witness :
  exists t',
    Time.add_minutes (Sample.at_ 20 0) 90 = Ok t' /\
    Time.difference_in_minutes t' (Sample.at_ 20 0) = 90.
Proof.
  destruct (difference_after_add_minutes (Sample.at_ 20 0) 90 eq_refl)
    as (t' & Hrun & _ & _ & Hsame).
  exists t'. split; [exact Hrun |]. apply Hsame. vm_compute.
  split; [discriminate | reflexivity].
Defined.

(** Five past midnight in the 12-hour format. *)
Lemma to_12_hour_format_range_witness :
  exists h p,
    Time.to_12_hour_format (Sample.at_ 0 5) = (h, 5, p) /\ 1 <= h <= 12.
Proof.
  destruct (to_12_hour_format_range (Sample.at_ 0 5) eq_refl)
    as (h & p & Hrun & Hrange & _).
  exists h, p. split; assumption.
Defined.

(** The range from 09:00 to 10:30 lasts ninety minutes. *)
Lemma TimeRange_init_cases_witness :
  exists r,
    TimeRange.init (Sample.at_ 9 0) (Sample.at_ 10 30) = Ok r /\
    TimeRange.duration_minutes r = 90.
Proof.
  destruct (TimeRange_init_cases (Sample.at_ 9 0) (Sample.at_ 10 30)
              eq_refl eq_refl)
    as [[Hbefore _] | [_ (r & Hrun & _ & _ & Hduration & _)]].
  - discriminate Hbefore.
  - exists r. split; [exact Hrun | exact Hduration].
Defined.

(** Two hours from 23:00 would end after midnight. *)
Lemma from_duration_cases_witness :
  TimeRange.from_duration (Sample.at_ 23 0) 120 = Raise ValueError.
Proof.
  apply (proj1 (from_duration_cases (Sample.at_ 23 0) 120 eq_refl)).
  vm_compute. reflexivity.
Defined.

(** A range contains its own start and end. *)
Lemma contains_time_inclusive_witness :
  let r := Sample.range (Sample.at_ 9 0) (Sample.at_ 10 0) in
  TimeRange.contains_time r (Sample.at_ 9 0) = true /\
  TimeRange.contains_time r (Sample.at_ 10 0) = true.
Proof.
  exact (proj2 (contains_time_inclusive
                  (Sample.range (Sample.at_ 9 0) (Sample.at_ 10 0))
                  (Sample.at_ 9 0)) eq_refl).
Defined.

(** The overlap of 09:00-10:30 and 10:00-11:00 is at most an hour. *)
Lemma get_overlap_duration_bounds_witness :
  let A := Sample.range (Sample.at_ 9 0) (Sample.at_ 10 30) in
  let B := Sample.range (Sample.at_ 10 0) (Sample.at_ 11 0) in
  0 <= TimeRange.get_overlap_duration A B
    <= Z.min (TimeRange.duration_minutes A) (TimeRange.duration_minutes B).
Proof.
  exact (proj2 (proj2 (get_overlap_duration_bounds
                         (Sample.range (Sample.at_ 9 0) (Sample.at_ 10 30))
                         (Sample.range (Sample.at_ 10 0) (Sample.at_ 11 0))
                         eq_refl eq_refl))).
Defined.

(** The day after the sample Sunday, and back. *)
Lemma next_day_previous_day_witness :
  exists d',
    Day.next_day Sample.sunday = Ok d' /\
    Day.previous_day d' = Ok Sample.sunday.
Proof.
  destruct (proj1 (next_day_previous_day Sample.sunday eq_refl)
              ltac:(vm_compute; reflexivity))
    as (d' & Hnext & _ & _ & _ & Hprev).
  exists d'. split; assumption.
Defined.

(** There is no day after 31 December 9999. *)
Lemma day_boundaries_witness :
  Day.next_day Sample.last_day = Raise OverflowError.
Proof.
  apply (proj2 (proj1 (day_boundaries Sample.last_day eq_refl))).
  reflexivity.
Defined.

(** The week of the sample Sunday starts on a Monday. *)
Lemma week_starts_on_monday_witness :
  exists w,
    Week.from_day Sample.sunday = Ok w /\
    Day.get_weekday_number (Week.start_date w) = 0.
Proof.
  destruct (week_starts_on_monday Sample.sunday eq_refl)
    as (w & Hrun & _ & Hmonday & _).
  exists w. split; assumption.
Defined.

(** The sample Sunday is a day of its week. *)
Lemma week_get_days_witness :
  exists days,
    Week.get_days Sample.week = Ok days /\ Sample.sunday ∈ days.
Proof.
  destruct (proj1 (week_get_days Sample.sunday Sample.week eq_refl
                     ltac:(vm_compute; reflexivity))
              ltac:(vm_compute; discriminate))
    as (days & Hrun & _ & Hin & _).
  exists days. split; assumption.
Defined.

(** After December 2025 comes January 2026. *)
Lemma next_month_previous_month_witness :
  exists next,
    Month.next_month Sample.december = Ok next /\
    (Month.year next, Month.month next) = (2026, 1).
Proof.
  destruct (next_month_previous_month 2025 12 Sample.december eq_refl)
    as (next & prev & Hnext & _ & _ & _ & _ & _ & Hfields & _).
  exists next. split; [exact Hnext | exact Hfields].
Defined.


(** The year 2024 has 366 days. *)
Lemma year_get_days_witness :
  exists days,
    Year.get_days (Year.init 2024) = Ok days /\
    Z.of_nat (length days) = 366.
Proof.
  destruct (year_get_days 2024 ltac:(lia))
    as (months & days & _ & _ & Hrun & Hlength & Hleap & _).
  exists days. split; [exact Hrun |]. rewrite Hlength. exact Hleap.
Defined.

(** A new tag on the weekly chore. *)
Lemma add_tag_idempotent_witness :
  exists h',
    Event.add_tag 1%nat "home" Sample.heap_sunday = Ok (tt, h') /\
    Event.has_tag 1%nat "home" h' = Ok (true, h') /\
    Event.add_tag 1%nat "home" h' = Ok (tt, h').
Proof.
  destruct (add_tag_idempotent Sample.heap_sunday 1%nat Sample.laundry
              ["weekly"%string] "home" eq_refl eq_refl)
    as (h' & Hadd & _ & _ & Hhas & Hagain & _).
  exists h'. repeat split; assumption.
Defined.


(** Two chores made with the tag list of [heap_sunday] share it. *)
Lemma tags_shared_or_separate_witness :
  exists h',
    (a ← Chore.new "Dishes" Sample.sunday
           (Sample.range (Sample.at_ 8 0) (Sample.at_ 9 0))
           None None None None
           (Event.mk_kwargs None None (Some 0%nat) None);
     b ← Chore.new "Ironing" Sample.monday
           (Sample.range (Sample.at_ 8 0) (Sample.at_ 9 0))
           None None None None
           (Event.mk_kwargs None None (Some 0%nat) None);
     _ ← Event.add_tag a "home";
     Event.has_tag b "home") Sample.heap_sunday
    = Ok (true, h').
Proof.
  destruct (proj1 (tags_shared_or_separate Sample.heap_sunday 0%nat
                     ["weekly"%string] "home" "Dishes" "Ironing"
                     Sample.sunday Sample.monday
                     (Sample.range (Sample.at_ 8 0) (Sample.at_ 9 0))
                     (Sample.range (Sample.at_ 8 0) (Sample.at_ 9 0))
                     eq_refl))
    as (h' & Hrun & _).
  exists h'. exact Hrun.
Defined.

(** A tag added to the next occurrence of the weekly chore is not a tag
    of the chore itself. *)
Lemma next_occurrence_tags_independent_witness :
  exists next h1 h2,
    Chore.get_next_occurrence 1%nat Sample.heap_sunday = Ok (Some next, h1) /\
    Event.add_tag next "home" h1 = Ok (tt, h2) /\
    Event.has_tag next "home" h2 = Ok (true, h2) /\
    Event.has_tag 1%nat "home" h2 = Ok (false, h2).
Proof.
  destruct (next_occurrence_tags_independent Sample.heap_sunday 1%nat
              Sample.laundry Sample.weekly ["weekly"%string] "home"
              eq_refl eq_refl eq_refl eq_refl eq_refl
              ltac:(vm_compute; split; [reflexivity | discriminate]))
    as (next & h1 & h2 & Hrun & _ & Hadd & Hnew & Hold & _).
  exists next, h1, h2. repeat split; assumption.
Defined.

(** The weekly chore two weeks on. *)
Lemma next_occurrence_twice_witness :
  exists first second h1 h2 that,
    Chore.get_next_occurrence 1%nat Sample.heap_sunday
    = Ok (Some first, h1) /\
    Chore.get_next_occurrence first h1 = Ok (Some second, h2) /\
    h2 !! second = Some (OInstance that) /\
    datetime_date.toordinal (Day.date (Attrs.Event.day that))
    = datetime_date.toordinal (Day.date Sample.sunday) + 2 * 7.
Proof.
  destruct (next_occurrence_twice Sample.heap_sunday 1%nat
              Sample.laundry Sample.weekly ["weekly"%string]
              eq_refl eq_refl eq_refl eq_refl eq_refl
              ltac:(vm_compute; split; [reflexivity | discriminate])
              ltac:(vm_compute; split; [reflexivity | discriminate]))
    as (first & second & h1 & h2 & that & Hrun1 & Hrun2 & _ & Hthat & _ & _
        & Hday & _).
  exists first, second, h1, h2, that. repeat split; assumption.
Defined.

(** Event 3 is not in the sample schedule: it can be added and removed
    again. *)
Lemma add_then_remove_event_witness :
  exists s1 s2,
    Schedule.add_event Sample.store 3%nat false Sample.schedule
    = Ok (true, s1) /\
    Schedule.remove_event Sample.store 3%nat s1 = Ok (true, s2) /\
    Schedule.events s2 = Schedule.events Sample.schedule.
Proof.
  destruct (add_then_remove_event Sample.store 3%nat Sample.schedule
              (run_from_init Sample.store Sample.calls None Sample.schedule
                 ltac:(vm_compute; reflexivity))
              ltac:(apply (bool_decide_unpack _); vm_compute; exact I))
    as (s1 & s2 & Hadd & Hremove & _ & Hevents & _).
  exists s1, s2. repeat split; assumption.
Defined.

(** Event 1 of the sample schedule, rescheduled from Sunday to Monday,
    can no longer be removed. *)
Lemma remove_event_after_reschedule_witness :
  Schedule.remove_event Sample.store_rescheduled 1%nat Sample.schedule
  = Raise ValueError.
Proof.
  refine (proj1 (proj2 (proj2
            (remove_event_after_reschedule Sample.store
               Sample.store_rescheduled Sample.heap_events
               (<[1%nat := OInstance (Sample.store_rescheduled 1%nat)]>
                  Sample.heap_events)
               Sample.schedule 1%nat Sample.monday
               (Sample.range (Sample.at_ 9 0) (Sample.at_ 10 0))
               (run_from_init Sample.store Sample.calls None Sample.schedule
                  ltac:(vm_compute; reflexivity))
               _ eq_refl eq_refl eq_refl _)))).
  - apply (bool_decide_unpack _). vm_compute. exact I.
  - discriminate.
Defined.

(** No event lies between Tuesday and the Sunday before. *)
Lemma get_events_in_date_range_of_a_day_witness :
  Schedule.get_events_in_date_range Sample.store Sample.tuesday Sample.sunday
    Sample.schedule
  = [].
Proof.
  apply (proj1 (get_events_in_date_range_of_a_day Sample.store
                  Sample.schedule Sample.tuesday Sample.sunday
                  Sample.sunday)).
  reflexivity.
Defined.

(** The first upcoming event from Monday on. *)
Lemma upcoming_and_past_events_witness :
  Schedule.get_upcoming_events Sample.store Sample.sunday (Some Sample.monday)
    (Some 1) Sample.schedule
  = take 1 (Schedule.get_upcoming_events Sample.store Sample.sunday
              (Some Sample.monday) None Sample.schedule).
Proof.
  destruct (upcoming_and_past_events Sample.store Sample.sunday Sample.monday
              Sample.schedule 1)
    as (_ & _ & _ & _ & _ & Hlimit & _).
  exact (proj1 (Hlimit ltac:(lia))).
Defined.

(** At most two busiest days are listed under a limit of two. *)
Lemma get_busiest_days_counts_witness :
  Z.of_nat (length (Schedule.get_busiest_days Sample.store 2 Sample.schedule))
  <= 2.
Proof.
  destruct (get_busiest_days_counts Sample.store 2 Sample.schedule)
    as (_ & _ & _ & Hlength & _).
  apply Hlength. lia.
Defined.


(** The events of the week of the sample Sunday. *)
Lemma get_events_in_week_range_witness :
  exists events s',
    Schedule.get_events_in_week Sample.store Sample.week Sample.schedule
    = Ok (events, s') /\
    Schedule.events s' = Schedule.events Sample.schedule.
Proof.
  destruct (proj1 (get_events_in_week_range Sample.store Sample.schedule
                     Sample.week
                     (run_from_init Sample.store Sample.calls None
                        Sample.schedule ltac:(vm_compute; reflexivity))
                     eq_refl
                     ltac:(intros e He; vm_compute in He;
                           repeat (apply elem_of_cons in He as [-> | He];
                                   [reflexivity |]);
                           inversion He))
              ltac:(vm_compute; discriminate))
    as (events & s' & Hrun & Hevents & _).
  exists events, s'. split; assumption.
Defined.


(** After the sample tool calls a schedule named home can be created and
    deleted again. *)
Lemma create_then_delete_schedule_witness :
  let st := scheduler_server.after_all Sample.tool_calls
              scheduler_server.initial in
  exists message st1 message',
    scheduler_server.create_schedule "home" st = inr (message, st1) /\
    scheduler_server.delete_schedule "home" st1 = inr (message', st).
Proof.
  destruct (create_then_delete_schedule Sample.tool_calls "home"
              ltac:(vm_compute; reflexivity))
    as (message & st1 & message' & Hcreate & _ & _ & _ & Hdelete).
  exists message, st1, message'. split; assumption.
Defined.
